(** * py3dblox: a shallow embedding of the 3D-Blox parsers

    The development follows [src/python/py3dblox/py3dblox]:
    - [PyStr]      the [str] methods the parsers call;
    - [Py]         exceptions, decoded YAML values and the dynamic
                   operations applied to them ([in], [[]], [float], ...);
    - [PyPath]     [pathlib.Path] on a POSIX file system;
    - [Coordinate] ... [BumpMapData]
                   the dataclasses of [objects.py], a module each;
    - [BaseParser], [DbvParser], [DbxParser], [BmapParser]
                   the parsers, method by method;
    - [ThreeDBloxParser]
                   the parser of [parser.py] that picks one by extension;
    - [Interp], [Examples]
                   an instance of the interpreter's parameters and the
                   documents of the worked examples;
    - the properties, by component.

    Python [str] values are modelled by [string]: one [ascii] per code
    point, so the model covers texts whose code points are below 256.
    What belongs to the interpreter and its libraries and not to the
    parsers (floats and their literals, [repr], the text of builtin
    exceptions, the YAML decoder, the file system) is a parameter:
    the classes [PyFloat], [PyBuiltins], [YamlDecoder] and
    [FileSystem]. *)

From Stdlib Require Import String Ascii List ZArith Bool Arith Lia.
From Stdlib Require Import DecimalString Decimal QArith.
Import ListNotations.

Set Warnings "-register-all".

Open Scope list_scope.
Open Scope string_scope.

(** ** [str] methods *)

Module PyStr.

Definition LF : ascii := ascii_of_nat 10.
Definition CR : ascii := ascii_of_nat 13.

(** [c.isspace()] for a code point below 256: TAB LF VT FF CR, the
    separators FS GS RS US, SPACE, NEL and NBSP. *)
Definition is_space (c : ascii) : bool :=
  let n := nat_of_ascii c in
  (Nat.leb 9 n && Nat.leb n 13) || (Nat.leb 28 n && Nat.leb n 32)
  || Nat.eqb n 133 || Nat.eqb n 160.

(** Line boundaries of [str.splitlines]: LF VT FF CR FS GS RS NEL. *)
Definition is_linebreak (c : ascii) : bool :=
  let n := nat_of_ascii c in
  (Nat.leb 10 n && Nat.leb n 13) || (Nat.leb 28 n && Nat.leb n 30)
  || Nat.eqb n 133.

Definition rev (s : string) : string :=
  string_of_list_ascii (List.rev (list_ascii_of_string s)).

(** [s[n:]] for [0 <= n]. *)
Fixpoint drop (n : nat) (s : string) : string :=
  match n, s with
  | O, _ => s
  | S _, EmptyString => EmptyString
  | S k, String _ s' => drop k s'
  end.

(** [s[:n]] for [0 <= n]. *)
Fixpoint take (n : nat) (s : string) : string :=
  match n, s with
  | O, _ => EmptyString
  | S _, EmptyString => EmptyString
  | S k, String c s' => String c (take k s')
  end.

(** [s[:i]] and [s[i:]] with Python's reading of a negative index. *)
Definition slice_to (s : string) (i : Z) : string :=
  if (i <? 0)%Z then take (Z.to_nat (Z.of_nat (String.length s) + i)) s
  else take (Z.to_nat i) s.

Definition slice_from (s : string) (i : Z) : string :=
  if (i <? 0)%Z then drop (Z.to_nat (Z.of_nat (String.length s) + i)) s
  else drop (Z.to_nat i) s.

Definition startswith (s p : string) : bool := prefix p s.

Definition endswith (s p : string) : bool := prefix (rev p) (rev s).

(** [sub in s] *)
Fixpoint contains (sub s : string) : bool :=
  prefix sub s ||
  match s with
  | EmptyString => false
  | String _ s' => contains sub s'
  end.

(** [s.find(c)] for a one-character needle: the index, or [-1]. *)
Fixpoint find_char (c : ascii) (s : string) : Z :=
  match s with
  | EmptyString => (-1)%Z
  | String a s' =>
      if Ascii.eqb a c then 0%Z
      else let r := find_char c s' in
           if (r <? 0)%Z then (-1)%Z else (r + 1)%Z
  end.

Fixpoint lstrip (s : string) : string :=
  match s with
  | EmptyString => EmptyString
  | String c s' => if is_space c then lstrip s' else s
  end.

Definition rstrip (s : string) : string := rev (lstrip (rev s)).

Definition strip (s : string) : string := rstrip (lstrip s).

(** [s.split()]: maximal runs of non-space characters. *)
Fixpoint split_from (cur : string) (s : string) : list string :=
  match s with
  | EmptyString => if String.eqb cur "" then [] else [cur]
  | String c s' =>
      if is_space c
      then (if String.eqb cur "" then split_from "" s'
            else cur :: split_from "" s')
      else split_from (cur ++ String c "") s'
  end.

Definition split (s : string) : list string := split_from "" s.

(** The first run of non-space characters of [s] and what follows. *)
Fixpoint span_word (s : string) : string * string :=
  match s with
  | EmptyString => ("", "")
  | String c s' =>
      if is_space c then ("", s)
      else let (w, r) := span_word s' in (String c w, r)
  end.

(** [s.split(maxsplit=1)]: the first word, then the remainder with
    its leading white space removed (trailing white space is kept). *)
Definition split_max1 (s : string) : list string :=
  let s1 := lstrip s in
  if String.eqb s1 "" then []
  else let (w, r) := span_word s1 in
       let r1 := lstrip r in
       if String.eqb r1 "" then [w] else [w; r1].

(** [s.splitlines()]: CR LF counts as one boundary and no empty last
    line is produced. *)
Fixpoint splitlines_from (cur : string) (s : string) : list string :=
  match s with
  | EmptyString => if String.eqb cur "" then [] else [cur]
  | String c s' =>
      if Ascii.eqb c CR then
        match s' with
        | String c2 s'' =>
            if Ascii.eqb c2 LF then cur :: splitlines_from "" s''
            else cur :: splitlines_from "" s'
        | EmptyString => [cur]
        end
      else if is_linebreak c then cur :: splitlines_from "" s'
      else splitlines_from (cur ++ String c "") s'
  end.

Definition splitlines (s : string) : list string := splitlines_from "" s.

(** [sep.join(l)] *)
Definition join (sep : string) (l : list string) : string :=
  String.concat sep l.

(** [s.replace(old, new)] for a non-empty [old]: scan from the left,
    and after a match resume behind it ([skip] counts the characters
    of the match still to pass over). *)
Fixpoint replace_from (old new : string) (skip : nat) (s : string)
  : string :=
  match s with
  | EmptyString => EmptyString
  | String c s' =>
      match skip with
      | S k => replace_from old new k s'
      | O =>
          if prefix old s
          then new ++ replace_from old new (String.length old - 1) s'
          else String c (replace_from old new 0 s')
      end
  end.

(** [s.replace("", new)] puts [new] before every character and at the
    end. *)
Fixpoint interleave (new : string) (s : string) : string :=
  match s with
  | EmptyString => new
  | String c s' => new ++ String c (interleave new s')
  end.

Definition replace (old new : string) (s : string) : string :=
  match old with
  | EmptyString => interleave new s
  | String _ _ => replace_from old new 0 s
  end.

(** [s.rfind(c)] for a one-character needle: the last index, or [-1]. *)
Fixpoint rfind_char (c : ascii) (s : string) : Z :=
  match s with
  | EmptyString => (-1)%Z
  | String a s' =>
      let r := rfind_char c s' in
      if (0 <=? r)%Z then (r + 1)%Z
      else if Ascii.eqb a c then 0%Z else (-1)%Z
  end.

(** [c.lower()] for a code point below 256: the letters A to Z and the
    capital letters of Latin-1 (all of C0 to DE but the sign D7). *)
Definition lower_char (c : ascii) : ascii :=
  let n := nat_of_ascii c in
  if (Nat.leb 65 n && Nat.leb n 90)
     || (Nat.leb 192 n && Nat.leb n 222 && negb (Nat.eqb n 215))
  then ascii_of_nat (n + 32)
  else c.

(** [s.lower()] *)
Fixpoint lower (s : string) : string :=
  match s with
  | EmptyString => EmptyString
  | String c s' => String (lower_char c) (lower s')
  end.

(** [str(n)] for an [int]. *)
Definition of_nat (n : nat) : string :=
  NilZero.string_of_uint (Nat.to_uint n).

Definition of_Z (z : Z) : string :=
  NilZero.string_of_int (Z.to_int z).

(** Text given line by line, for examples. *)
Definition text (l : list string) : string :=
  join (String LF "") l.

End PyStr.

Import PyStr.

(** ** Exceptions, decoded documents and the dynamic operations on them *)

Module Py.

Inductive exn_kind : Type :=
| ParserError | ValueError | TypeError | OverflowError | KeyError
| AttributeError | YAMLError | IOError.

(** An exception object: its class and [str(e)]. *)
Record exn : Type := Exn { exn_class : exn_kind; exn_msg : string }.

Definition exn_kind_eqb (a b : exn_kind) : bool :=
  match a, b with
  | ParserError, ParserError | ValueError, ValueError
  | TypeError, TypeError | OverflowError, OverflowError
  | KeyError, KeyError | AttributeError, AttributeError
  | YAMLError, YAMLError | IOError, IOError => true
  | _, _ => false
  end.

(** The outcome of a call: a value, or a raised exception together
    with the records sent to [logger.error] before it was raised (the
    parsers log only on their way to a [raise]). *)
Inductive result (A : Type) : Type :=
| Ok (a : A)
| Raise (e : exn) (logged : list string).
Arguments Ok {A} a.
Arguments Raise {A} e logged.

Definition bind {A B} (m : result A) (f : A -> result B) : result B :=
  match m with
  | Ok a => f a
  | Raise e lg => Raise e lg
  end.

(** [raise cls(msg)] *)
Definition raise {A} (k : exn_kind) (msg : string) : result A :=
  Raise (Exn k msg) [].

(** [try: body  except classes as e: handler] *)
Definition try_except {A} (body : result A) (classes : list exn_kind)
    (handler : exn -> result A) : result A :=
  match body with
  | Ok a => Ok a
  | Raise e lg =>
      if existsb (exn_kind_eqb (exn_class e)) classes
      then match handler e with
           | Ok a => Ok a
           | Raise e' lg' => Raise e' (lg ++ lg')%list
           end
      else Raise e lg
  end.

Definition is_ok {A} (m : result A) : bool :=
  match m with Ok _ => true | Raise _ _ => false end.

(** The class of the exception a call ends in, if it raises. *)
Definition raised {A} (m : result A) : option exn_kind :=
  match m with Ok _ => None | Raise e _ => Some (exn_class e) end.

(** A [for] loop whose body may raise, threading the loop state. *)
Fixpoint for_each {S A} (body : S -> A -> result S) (l : list A) (s : S)
  : result S :=
  match l with
  | [] => Ok s
  | a :: l' => bind (body s a) (for_each body l')
  end.

(** *** dict

    A [dict] with [str] keys keeps insertion order: an association
    list, read at the first binding of a key; assigning to a present
    key keeps its position. *)
Definition dict (V : Type) : Type := list (string * V).

Fixpoint dict_get {V} (k : string) (d : dict V) : option V :=
  match d with
  | [] => None
  | (k', v) :: d' => if String.eqb k' k then Some v else dict_get k d'
  end.

Definition dict_has {V} (k : string) (d : dict V) : bool :=
  match dict_get k d with Some _ => true | None => false end.

Fixpoint dict_set {V} (k : string) (v : V) (d : dict V) : dict V :=
  match d with
  | [] => [(k, v)]
  | (k', v') :: d' =>
      if String.eqb k' k then (k', v) :: d'
      else (k', v') :: dict_set k v d'
  end.

Definition dict_keys {V} (d : dict V) : list string := map fst d.

(** *** float

    [float] and the conversions to and from it are the interpreter's:
    they are taken as given. *)
Class PyFloat : Type := {
  pyfloat : Type;
  (** [float(s)] for a [str]; [None] stands for [ValueError] *)
  float_of_str : string -> option pyfloat;
  (** [float(n)] for an [int]; [None] stands for [OverflowError] *)
  float_of_int : Z -> option pyfloat;
  (** [int(f)]; [inl k] stands for the exception class raised on
      [nan] or an infinity *)
  int_of_float : pyfloat -> exn_kind + Z;
  (** [bool(f)] *)
  float_nonzero : pyfloat -> bool;
  (** [str(f)] *)
  str_of_float : pyfloat -> string;
  (** the literals [0.0] and [-1.0] *)
  float_zero : pyfloat;
  float_minus_one : pyfloat
}.

Section Values.
Context {F : PyFloat}.

(** What [yaml.safe_load] returns: null, bool, int, float, str,
    sequence, mapping (with [str] keys, as the parsers' signatures
    say). *)
Inductive yaml : Type :=
| YNull
| YBool (b : bool)
| YInt (n : Z)
| YFloat (f : pyfloat)
| YStr (s : string)
| YList (l : list yaml)
| YMap (m : dict yaml).

(** The remaining interpreter and library behaviour the parsers
    rely on. *)
Class PyBuiltins : Type := {
  (** [int(s)] for a [str]; [None] stands for [ValueError] *)
  int_of_str : string -> option Z;
  (** [repr(s)] for a [str] *)
  repr_str : string -> string;
  (** [str(e)] of the exception a builtin operation raises on an
      operand *)
  builtin_error : string -> yaml -> string
}.

(** The document decoder, an external library. *)
Class YamlDecoder : Type := {
  (** [yaml.safe_load]; [inr msg] stands for [yaml.YAMLError] *)
  safe_load : string -> yaml + string
}.

Context {B : PyBuiltins}.

(** [repr(v)] *)
Fixpoint py_repr (v : yaml) : string :=
  match v with
  | YNull => "None"
  | YBool true => "True"
  | YBool false => "False"
  | YInt n => of_Z n
  | YFloat f => str_of_float f
  | YStr s => repr_str s
  | YList l => "[" ++ join ", " (map py_repr l) ++ "]"
  | YMap m =>
      "{" ++ join ", "
               (map (fun kv => match kv with
                               | (k, x) => repr_str k ++ ": " ++ py_repr x
                               end) m)
          ++ "}"
  end.

(** [str(v)] *)
Definition py_str (v : yaml) : string :=
  match v with
  | YStr s => s
  | _ => py_repr v
  end.

Definition builtin_raise {A} (k : exn_kind) (op : string) (v : yaml)
  : result A :=
  raise k (builtin_error op v).

(** [float(v)] *)
Definition py_float (v : yaml) : result pyfloat :=
  match v with
  | YFloat f => Ok f
  | YInt n =>
      match float_of_int n with
      | Some f => Ok f
      | None => builtin_raise OverflowError "float" v
      end
  | YBool b =>
      match float_of_int (if b then 1 else 0) with
      | Some f => Ok f
      | None => builtin_raise OverflowError "float" v
      end
  | YStr s =>
      match float_of_str s with
      | Some f => Ok f
      | None => builtin_raise ValueError "float" v
      end
  | YNull | YList _ | YMap _ => builtin_raise TypeError "float" v
  end.

(** [int(v)] *)
Definition py_int (v : yaml) : result Z :=
  match v with
  | YInt n => Ok n
  | YBool b => Ok (if b then 1 else 0)%Z
  | YFloat f =>
      match int_of_float f with
      | inr n => Ok n
      | inl k => builtin_raise k "int" v
      end
  | YStr s =>
      match int_of_str s with
      | Some n => Ok n
      | None => builtin_raise ValueError "int" v
      end
  | YNull | YList _ | YMap _ => builtin_raise TypeError "int" v
  end.

(** [bool(v)] *)
Definition py_bool (v : yaml) : bool :=
  match v with
  | YNull => false
  | YBool b => b
  | YInt n => negb (Z.eqb n 0)
  | YFloat f => float_nonzero f
  | YStr s => negb (String.eqb s "")
  | YList l => match l with [] => false | _ => true end
  | YMap m => match m with [] => false | _ => true end
  end.

Definition is_str (v : yaml) (s : string) : bool :=
  match v with YStr s' => String.eqb s' s | _ => false end.

(** [key in node] for a [str] key: membership in a mapping, an
    equal element in a sequence, a substring of a [str]. *)
Definition py_contains (key : string) (node : yaml) : result bool :=
  match node with
  | YMap m => Ok (dict_has key m)
  | YList l => Ok (existsb (fun x => is_str x key) l)
  | YStr s => Ok (contains key s)
  | YNull | YBool _ | YInt _ | YFloat _ =>
      builtin_raise TypeError "in" node
  end.

(** [node[key]] for a [str] key. *)
Definition py_getitem (node : yaml) (key : string) : result yaml :=
  match node with
  | YMap m =>
      match dict_get key m with
      | Some v => Ok v
      | None => raise KeyError (repr_str key)
      end
  | _ => builtin_raise TypeError "getitem" node
  end.

(** [node.items()] *)
Definition py_items (node : yaml) : result (list (string * yaml)) :=
  match node with
  | YMap m => Ok m
  | _ => builtin_raise AttributeError "items" node
  end.

End Values.

Arguments yaml : clear implicits.
Arguments yaml {F}.
Arguments PyBuiltins : clear implicits.
Arguments PyBuiltins {F}.
Arguments YamlDecoder : clear implicits.
Arguments YamlDecoder {F}.

End Py.

Import Py.

Declare Scope py_scope.
Notation "x <- m ;; k" := (bind m (fun x => k))
  (at level 61, m at next level, right associativity) : py_scope.
Notation "m ;;; k" := (bind m (fun _ => k))
  (at level 61, right associativity) : py_scope.
Open Scope py_scope.

(** ** [pathlib.Path] on a POSIX file system

    A path is its root flag and its components; the constructor drops
    empty and [.] components. The special root [//] is not modelled. *)

Module PyPath.

Record Path : Type := MkPath { is_absolute : bool; parts : list string }.

(** [s.split("/")] *)
Fixpoint split_slash (cur : string) (s : string) : list string :=
  match s with
  | EmptyString => [cur]
  | String c s' =>
      if Ascii.eqb c "/" then cur :: split_slash "" s'
      else split_slash (cur ++ String c "") s'
  end.

Definition keep_part (p : string) : bool :=
  negb (String.eqb p "") && negb (String.eqb p ".").

(** [Path(s)] *)
Definition of_str (s : string) : Path :=
  MkPath (startswith s "/") (filter keep_part (split_slash "" s)).

(** [str(p)] *)
Definition to_str (p : Path) : string :=
  if is_absolute p then "/" ++ join "/" (parts p)
  else match parts p with
       | [] => "."
       | _ => join "/" (parts p)
       end.

(** [p.parent] *)
Definition parent (p : Path) : Path :=
  MkPath (is_absolute p) (removelast (parts p)).

(** [p.name] *)
Definition name (p : Path) : string := last (parts p) "".

(** [p.suffix]: the last component from its last dot on, when that dot
    is neither its first nor its last character. *)
Definition suffix (p : Path) : string :=
  let name := name p in
  let i := rfind_char "." name in
  if (0 <? i)%Z && (i <? Z.of_nat (String.length name) - 1)%Z
  then slice_from name i
  else "".

(** [p / q] *)
Definition joinpath (p q : Path) : Path :=
  if is_absolute q then q
  else MkPath (is_absolute p) (parts p ++ parts q)%list.

(** Removal of [..] components below the root, as [os.path.realpath]
    does where no component is a symbolic link. *)
Fixpoint normalize (stack : list string) (ps : list string) : list string :=
  match ps with
  | [] => List.rev stack
  | p :: ps' =>
      if String.eqb p ".." then normalize (List.tl stack) ps'
      else normalize (p :: stack) ps'
  end.

(** The file system the parser runs on. *)
Class FileSystem : Type := {
  (** [Path.cwd()], an absolute path *)
  cwd : Path;
  (** [os.path.realpath(p)] for an absolute [p], through which
      [Path.resolve()] follows symbolic links and removes [..] *)
  fs_realpath : Path -> Path;
  (** [p.exists()], [p.is_dir()], [p.is_file()] *)
  fs_exists : Path -> bool;
  fs_is_dir : Path -> bool;
  fs_is_file : Path -> bool;
  (** the names [os.listdir(p)] yields, in its order *)
  fs_listdir : Path -> list string;
  (** [open(p).read()]; [inr msg] stands for [IOError] *)
  fs_read : Path -> string + string
}.

Section OnFileSystem.
Context {FS : FileSystem}.

(** [p.absolute()] *)
Definition absolute (p : Path) : Path := joinpath cwd p.

(** [p.resolve()]: the real path of the absolute path. *)
Definition resolve (p : Path) : Path := fs_realpath (absolute p).

(** [p.iterdir()] *)
Definition iterdir (p : Path) : list Path :=
  map (fun n => joinpath p (of_str n)) (fs_listdir p).

End OnFileSystem.

End PyPath.

Import PyPath.

(** ** The dataclasses of [objects.py]

    Each record comes with [default], the object its constructor builds
    when called with the keyword arguments the parsers pass. A field
    annotated [str] that the parsers may set to [None] is an
    [option string]. *)

Module Coordinate.
Record t {F : PyFloat} : Type := mk { x : pyfloat; y : pyfloat }.
Definition default {F : PyFloat} : t := mk _ float_zero float_zero.
End Coordinate.

Module ChipletRegion.
Record t {F : PyFloat} : Type := mk {
  name : string; bmap : string; pmap : string; side : string;
  layer : string; gds_layer : string; coords : list Coordinate.t }.
Definition default {F : PyFloat} (name : string) : t :=
  mk _ name "" "" "" "" "" [].
End ChipletRegion.

Module ChipletExternal.
Record t : Type := mk {
  lef_files : list string; tech_lef_files : list string;
  lib_files : list string; def_file : string }.
Definition default : t := mk [] [] [] "".
End ChipletExternal.

Module ChipletDef.
Record t {F : PyFloat} : Type := mk {
  name : string;
  type : string;
  design_width : pyfloat;
  design_height : pyfloat;
  offset : Coordinate.t;
  seal_ring_left : pyfloat;
  seal_ring_bottom : pyfloat;
  seal_ring_right : pyfloat;
  seal_ring_top : pyfloat;
  scribe_line_left : pyfloat;
  scribe_line_bottom : pyfloat;
  scribe_line_right : pyfloat;
  scribe_line_top : pyfloat;
  thickness : pyfloat;
  shrink : pyfloat;
  tsv : bool;
  regions : dict ChipletRegion.t;
  external : ChipletExternal.t }.
Definition default {F : PyFloat} (name : string) : t :=
  mk _ name "" float_minus_one float_minus_one Coordinate.default
     float_minus_one float_minus_one float_minus_one float_minus_one
     float_minus_one float_minus_one float_minus_one float_minus_one
     float_minus_one float_minus_one false [] ChipletExternal.default.
End ChipletDef.

Module Header.
Record t : Type := mk {
  version : string; unit : string; precision : Z;
  includes : list string }.
Definition default : t := mk "" "" 1%Z [].
End Header.

Module DbvData.
Record t {F : PyFloat} : Type := mk {
  header : Header.t; chiplet_defs : dict ChipletDef.t }.
Definition default {F : PyFloat} : t := mk _ Header.default [].
End DbvData.

Module DesignExternal.
Record t : Type := mk { verilog_file : string }.
Definition default : t := mk "".
End DesignExternal.

Module DesignDef.
Record t : Type := mk { name : string; external : DesignExternal.t }.
Definition default : t := mk "" DesignExternal.default.
End DesignDef.

Module ChipletInstExternal.
Record t : Type := mk {
  verilog_file : string; sdc_file : string; def_file : string }.
Definition default : t := mk "" "" "".
End ChipletInstExternal.

Module ChipletInst.
Record t {F : PyFloat} : Type := mk {
  name : string;
  reference : string;
  external : ChipletInstExternal.t;
  loc : Coordinate.t;
  z : pyfloat;
  orient : string }.
Definition default {F : PyFloat} (name : string) : t :=
  mk _ name "" ChipletInstExternal.default Coordinate.default float_zero "".
End ChipletInst.

Module Connection.
Record t {F : PyFloat} : Type := mk {
  name : string;
  top : option string;
  bot : option string;
  thickness : pyfloat }.
Definition default {F : PyFloat} (name : string) : t :=
  mk _ name (Some "") (Some "") float_zero.
End Connection.

Module DbxData.
Record t {F : PyFloat} : Type := mk {
  header : Header.t;
  design : DesignDef.t;
  chiplet_instances : dict ChipletInst.t;
  connections : dict Connection.t }.
Definition default {F : PyFloat} : t :=
  mk _ Header.default DesignDef.default [] [].
End DbxData.

Module BumpMapEntry.
Record t {F : PyFloat} : Type := mk {
  bump_inst_name : string;
  bump_cell_type : string;
  x : pyfloat;
  y : pyfloat;
  port_name : string;
  net_name : string }.
End BumpMapEntry.

Module BumpMapData.
Record t {F : PyFloat} : Type := mk { entries : list BumpMapEntry.t }.
Definition default {F : PyFloat} : t := mk _ [].
End BumpMapData.

(** ** [base_parser.py] *)

Module BaseParser.

(** The attributes of a parser object ([logger] apart, whose records
    are part of [result]). *)
Record t : Type := mk {
  current_file_path : option Path;
  _defines : dict string }.

(** [BaseParser(logger)] *)
Definition init : t := mk None [].

(** The types [extract_value] is asked to convert to. *)
Inductive value_type {F : PyFloat} : Type -> Type :=
| VT_str : value_type string
| VT_int : value_type Z
| VT_float : value_type pyfloat
| VT_bool : value_type bool
| VT_list : value_type (list yaml).

Section Methods.
Context {F : PyFloat} {B : PyBuiltins} {FS : FileSystem}.

(** [log_error]: one record to the logger, then [ParserError]. *)
Definition log_error {A} (message : string) : result A :=
  let full_message := "Parser Error: " ++ message in
  Raise (Exn ParserError full_message) [full_message].

(** The inner loop of [parse_defines]: every macro of the table, in
    the table's order, is replaced in the running line. *)
Definition resolve_macros (defines : dict string) (line : string)
  : string :=
  fold_left (fun resolved_line kv => replace (fst kv) (snd kv) resolved_line)
            defines line.

(** One turn of the outer loop of [parse_defines], on the pair of
    [self._defines] and [processed_lines]. *)
Definition parse_defines_line (st : dict string * list string)
    (line : string) : dict string * list string :=
  let (defines, processed_lines) := st in
  if startswith line "#!define" then
    let define_stmt := strip (slice_from line 8) in
    match split_max1 define_stmt with
    | [key; value] =>
        (dict_set (strip key) (strip value) defines, processed_lines)
    | _ => (defines, processed_lines)
    end
  else
    (defines, (processed_lines ++ [resolve_macros defines line])%list).

Definition parse_defines_lines (lines : list string)
  : dict string * list string :=
  fold_left parse_defines_line lines (([] : dict string), []).

(** [parse_defines]: the parser with its new table, and the text. *)
Definition parse_defines (self : t) (content : string) : t * string :=
  let (defines, processed_lines) :=
    parse_defines_lines (splitlines content) in
  (mk (current_file_path self) defines,
   join (String LF "") processed_lines).

Definition resolve_path (self : t) (path : string) : Path :=
  let path_obj := of_str path in
  if is_absolute path_obj then path_obj
  else match current_file_path self with
       | None => absolute path_obj
       | Some file => resolve (joinpath (parent file) path_obj)
       end.

Definition _matches_pattern (filename pattern : string) : bool :=
  if negb (contains "*" pattern) then String.eqb filename pattern
  else
    let star_pos := find_char "*" pattern in
    let prefix := slice_to pattern star_pos in
    let suffix := slice_from pattern (star_pos + 1) in
    if Nat.ltb (String.length filename)
               (String.length prefix + String.length suffix)
    then false
    else startswith filename prefix && endswith filename suffix.

Definition resolve_paths (self : t) (path_pattern : string)
  : result (list string) :=
  let resolved := resolve_path self path_pattern in
  if contains "*" path_pattern then
    let directory := parent resolved in
    let pattern := name resolved in
    if negb (fs_exists directory) || negb (fs_is_dir directory)
    then
      @log_error unit ("Directory does not exist: " ++ to_str directory) ;;;
      Ok []
    else
      Ok (map to_str
            (filter (fun file_path =>
                       fs_is_file file_path
                       && _matches_pattern (name file_path) pattern)
                    (iterdir directory)))
  else Ok [to_str resolved].

Definition parse_coordinate (coord_node : yaml) : result Coordinate.t :=
  (match coord_node with
   | YList [_; _] => Ok tt
   | _ => log_error "Coordinate must be an array [x, y]"
   end) ;;;
  try_except
    (match coord_node with
     | YList (c0 :: c1 :: _) =>
         x <- py_float c0 ;;
         y <- py_float c1 ;;
         Ok (Coordinate.mk _ x y)
     | _ => builtin_raise TypeError "getitem" coord_node
     end)
    [ValueError; TypeError]
    (fun e => log_error ("Error parsing coordinate: " ++ exn_msg e)).

(** A list comprehension whose element expression may raise. *)
Fixpoint comprehension {A R} (f : A -> result R) (l : list A)
  : result (list R) :=
  match l with
  | [] => Ok []
  | a :: l' => r <- f a ;; rs <- comprehension f l' ;; Ok (r :: rs)
  end.

Definition parse_coordinates (coords_node : yaml)
  : result (list Coordinate.t) :=
  match coords_node with
  | YList l => comprehension parse_coordinate l
  | _ => Ok []
  end.

(** [value_type(value)], with the [list] case as [extract_value]
    spells it out. *)
Definition convert {A} (vt : value_type A) (value : yaml) : result A :=
  match vt in value_type T return result T with
  | VT_str => Ok (py_str value)
  | VT_int => py_int value
  | VT_float => py_float value
  | VT_bool => Ok (py_bool value)
  | VT_list => Ok (match value with YList l => l | _ => [value] end)
  end.

(** [extract_value]: [None] when the key is absent or its value is
    null. *)
Definition extract_value {A} (node : yaml) (key : string)
    (vt : value_type A) : result (option A) :=
  present <- py_contains key node ;;
  if negb present then Ok None
  else
    try_except
      (value <- py_getitem node key ;;
       match value with
       | YNull => Ok None
       | _ => r <- convert vt value ;; Ok (Some r)
       end)
      [ValueError; TypeError]
      (fun e => log_error ("Error parsing value for '" ++ key ++ "': "
                           ++ exn_msg e)).

(** [x if x is not None else ""] *)
Definition or_empty (o : option string) : string :=
  match o with Some s => s | None => "" end.

(** [if key in node: body], the body reading the running value. *)
Definition when_in {S} (key : string) (node : yaml) (s : S)
    (body : result S) : result S :=
  present <- py_contains key node ;;
  if present then body else Ok s.

Definition parse_header (self : t) (header_node : yaml)
  : result Header.t :=
  let header := Header.default in
  version <- when_in "version" header_node (Header.version header)
               (v <- extract_value header_node "version" VT_str ;;
                Ok (or_empty v)) ;;
  unit <- when_in "unit" header_node (Header.unit header)
            (u <- extract_value header_node "unit" VT_str ;;
             Ok (or_empty u)) ;;
  precision <- when_in "precision" header_node (Header.precision header)
                 (p <- py_getitem header_node "precision" ;; py_int p) ;;
  includes <- when_in "include" header_node (Header.includes header)
                (includes <- py_getitem header_node "include" ;;
                 match includes with
                 | YList l =>
                     for_each
                       (fun acc include =>
                          let include_str :=
                            match include with
                            | YNull => ""
                            | _ => py_str include
                            end in
                          if negb (String.eqb include_str "") then
                            ps <- resolve_paths self include_str ;;
                            Ok (acc ++ ps)%list
                          else Ok acc)
                       l (Header.includes header)
                 | _ => Ok (Header.includes header)
                 end) ;;
  Ok (Header.mk version unit precision includes).

(** [Path(v)] accepts a [str]. *)
Definition path_arg (v : yaml) : result string :=
  match v with
  | YStr s => Ok s
  | _ => builtin_raise TypeError "Path" v
  end.

Definition trim (text : string) : string := strip text.

End Methods.

End BaseParser.

Import BaseParser.

(** [yaml.safe_load(content)] as a call that may raise. *)
Definition load {F : PyFloat} {D : YamlDecoder} (content : string)
  : result yaml :=
  match safe_load content with
  | inl root => Ok root
  | inr msg => raise YAMLError msg
  end.

(** [open(path).read()] as a call that may raise. *)
Definition read_file {FS : FileSystem} (path : Path) : result string :=
  match fs_read path with
  | inl content => Ok content
  | inr msg => raise IOError msg
  end.

(** [root = {}] when the document is empty. *)
Definition root_or_empty {F : PyFloat} (root : yaml) : yaml :=
  match root with
  | YNull => YMap []
  | _ => root
  end.

(** ** [dbv_parser.py] *)

Module DbvParser.

Section Methods.
Context {F : PyFloat} {B : PyBuiltins} {D : YamlDecoder}
        {FS : FileSystem}.

(** [resolve_paths(str(v))] for [v], or for each element of [v] when
    it is a list, appended to [files]. *)
Definition extend_resolved (self : BaseParser.t) (files : list string)
    (v : yaml) : result (list string) :=
  match v with
  | YList l =>
      for_each (fun acc file =>
                  ps <- resolve_paths self (py_str file) ;;
                  Ok (acc ++ ps)%list)
               l files
  | _ =>
      ps <- resolve_paths self (py_str v) ;;
      Ok (files ++ ps)%list
  end.

Definition _parse_external (self : BaseParser.t) (external_node : yaml)
    (chiplet_name : string) : result ChipletExternal.t :=
  let external := ChipletExternal.default in
  lef_files <-
    when_in "LEF_file" external_node (ChipletExternal.lef_files external)
      (lef_files <- py_getitem external_node "LEF_file" ;;
       extend_resolved self (ChipletExternal.lef_files external) lef_files) ;;
  tech_lef_files <-
    when_in "APR_tech_file" external_node
      (ChipletExternal.tech_lef_files external)
      (tech_files <- py_getitem external_node "APR_tech_file" ;;
       extend_resolved self (ChipletExternal.tech_lef_files external)
         tech_files) ;;
  lib_files <-
    when_in "liberty_file" external_node (ChipletExternal.lib_files external)
      (lib_files <- py_getitem external_node "liberty_file" ;;
       extend_resolved self (ChipletExternal.lib_files external) lib_files) ;;
  def_file <-
    when_in "DEF_file" external_node (ChipletExternal.def_file external)
      (v <- py_getitem external_node "DEF_file" ;;
       p <- path_arg v ;;
       Ok (to_str (resolve_path self p))) ;;
  Ok (ChipletExternal.mk lef_files tech_lef_files lib_files def_file).

(** [str(node[key])] under [if key in node]. *)
Definition str_field (node : yaml) (key : string) (old : string)
  : result string :=
  when_in key node old (v <- py_getitem node key ;; Ok (py_str v)).

(** [str(self.resolve_path(node[key]))] under [if key in node]. *)
Definition path_field (self : BaseParser.t) (node : yaml) (key : string)
    (old : string) : result string :=
  when_in key node old
    (v <- py_getitem node key ;;
     p <- path_arg v ;;
     Ok (to_str (resolve_path self p))).

Definition _parse_region (self : BaseParser.t) (region : ChipletRegion.t)
    (region_node : yaml) : result ChipletRegion.t :=
  bmap <- path_field self region_node "bmap" (ChipletRegion.bmap region) ;;
  pmap <- path_field self region_node "pmap" (ChipletRegion.pmap region) ;;
  side <- str_field region_node "side" (ChipletRegion.side region) ;;
  layer <- str_field region_node "layer" (ChipletRegion.layer region) ;;
  gds_layer <- str_field region_node "gds_layer"
                 (ChipletRegion.gds_layer region) ;;
  coords <- when_in "coords" region_node (ChipletRegion.coords region)
              (v <- py_getitem region_node "coords" ;;
               parse_coordinates v) ;;
  Ok (ChipletRegion.mk _ (ChipletRegion.name region) bmap pmap side layer
        gds_layer coords).

Definition _parse_regions (self : BaseParser.t) (regions_node : yaml)
  : result (dict ChipletRegion.t) :=
  items <- py_items regions_node ;;
  for_each (fun regions item =>
              let name := fst item in
              let region := ChipletRegion.default name in
              region <- _parse_region self region (snd item) ;;
              Ok (dict_set name region regions))
           items [].

(** [float(node[key])] under [if key in node]. *)
Definition float_field (node : yaml) (key : string) (old : pyfloat)
  : result pyfloat :=
  when_in key node old (v <- py_getitem node key ;; py_float v).

(** A four-sided width array: the four floats, or the error. *)
Definition four_sides (node : yaml) (key : string) (chiplet_name : string)
    (old : pyfloat * pyfloat * pyfloat * pyfloat)
  : result (pyfloat * pyfloat * pyfloat * pyfloat) :=
  when_in key node old
    (v <- py_getitem node key ;;
     match v with
     | YList [a; b; c; d] =>
         left <- py_float a ;;
         bottom <- py_float b ;;
         right <- py_float c ;;
         top <- py_float d ;;
         Ok (left, bottom, right, top)
     | _ => log_error (key ++ " must have 4 values for chiplet "
                           ++ chiplet_name)
     end).

(** The [design_area] block of [_parse_chiplet]: the new
    [design_width] and [design_height]. *)
Definition design_area_block (chiplet : ChipletDef.t) (chiplet_node : yaml)
  : result (pyfloat * pyfloat) :=
  when_in "design_area" chiplet_node
    (ChipletDef.design_width chiplet, ChipletDef.design_height chiplet)
    (design_area <- py_getitem chiplet_node "design_area" ;;
     match design_area with
     | YList [a0; a1] =>
         design_width <- py_float a0 ;;
         design_height <- py_float a1 ;;
         Ok (design_width, design_height)
     | _ => log_error ("design_area must have 2 values for chiplet "
                       ++ ChipletDef.name chiplet)
     end).

Definition _parse_chiplet (self : BaseParser.t) (chiplet : ChipletDef.t)
    (chiplet_node : yaml) : result ChipletDef.t :=
  let name := ChipletDef.name chiplet in
  has_type <- py_contains "type" chiplet_node ;;
  (if negb has_type
   then log_error ("Chiplet type is required for chiplet " ++ name)
   else Ok tt) ;;;
  type_node <- py_getitem chiplet_node "type" ;;
  let type := py_str type_node in
  area <- design_area_block chiplet chiplet_node ;;
  offset <-
    when_in "offset" chiplet_node (ChipletDef.offset chiplet)
      (v <- py_getitem chiplet_node "offset" ;; parse_coordinate v) ;;
  seal <-
    four_sides chiplet_node "seal_ring_width" name
      (ChipletDef.seal_ring_left chiplet,
       ChipletDef.seal_ring_bottom chiplet,
       ChipletDef.seal_ring_right chiplet,
       ChipletDef.seal_ring_top chiplet) ;;
  scribe <-
    four_sides chiplet_node "scribe_line_remaining_width" name
      (ChipletDef.scribe_line_left chiplet,
       ChipletDef.scribe_line_bottom chiplet,
       ChipletDef.scribe_line_right chiplet,
       ChipletDef.scribe_line_top chiplet) ;;
  thickness <-
    float_field chiplet_node "thickness" (ChipletDef.thickness chiplet) ;;
  shrink <- float_field chiplet_node "shrink" (ChipletDef.shrink chiplet) ;;
  tsv <-
    when_in "tsv" chiplet_node (ChipletDef.tsv chiplet)
      (v <- py_getitem chiplet_node "tsv" ;; Ok (py_bool v)) ;;
  regions <-
    when_in "regions" chiplet_node (ChipletDef.regions chiplet)
      (v <- py_getitem chiplet_node "regions" ;; _parse_regions self v) ;;
  external <-
    when_in "external" chiplet_node (ChipletDef.external chiplet)
      (v <- py_getitem chiplet_node "external" ;;
       _parse_external self v name) ;;
  let '(seal_left, seal_bottom, seal_right, seal_top) := seal in
  let '(scribe_left, scribe_bottom, scribe_right, scribe_top) := scribe in
  Ok (ChipletDef.mk _ name type (fst area) (snd area) offset
        seal_left seal_bottom seal_right seal_top
        scribe_left scribe_bottom scribe_right scribe_top
        thickness shrink tsv regions external).

(** One turn of the loop of [_parse_chiplet_defs]. *)
Definition _parse_chiplet_defs_entry (self : BaseParser.t)
    (chiplet_defs : dict ChipletDef.t) (item : string * yaml)
  : result (dict ChipletDef.t) :=
  let name := fst item in
  let chiplet := ChipletDef.default name in
  chiplet <- _parse_chiplet self chiplet (snd item) ;;
  Ok (dict_set name chiplet chiplet_defs).

Definition _parse_chiplet_defs (self : BaseParser.t) (chiplets_node : yaml)
  : result (dict ChipletDef.t) :=
  items <- py_items chiplets_node ;;
  for_each (_parse_chiplet_defs_entry self) items [].

(** The body of [_parse_yaml_content] from the decoded root on. *)
Definition _parse_yaml_root (self : BaseParser.t) (root : yaml)
  : result DbvData.t :=
  let root := root_or_empty root in
  let data := DbvData.default in
  header <-
    when_in "Header" root (DbvData.header data)
      (v <- py_getitem root "Header" ;; parse_header self v) ;;
  chiplet_defs <-
    when_in "ChipletDef" root (DbvData.chiplet_defs data)
      (v <- py_getitem root "ChipletDef" ;; _parse_chiplet_defs self v) ;;
  Ok (DbvData.mk _ header chiplet_defs).

Definition _parse_yaml_content (self : BaseParser.t) (content : string)
  : result DbvData.t :=
  try_except
    (root <- load content ;; _parse_yaml_root self root)
    [YAMLError]
    (fun e => log_error ("3DBV YAML parsing error: " ++ exn_msg e)).

Definition parse_file (self : BaseParser.t) (filename : string)
  : result DbvData.t :=
  let self := BaseParser.mk (Some (of_str filename)) (_defines self) in
  content <-
    try_except (read_file (of_str filename)) [IOError]
      (fun e => log_error ("Cannot open file: " ++ filename ++ " - "
                           ++ exn_msg e)) ;;
  let (self, content) := parse_defines self content in
  _parse_yaml_content self content.

End Methods.

End DbvParser.

(** ** [dbx_parser.py] *)

Module DbxParser.

Section Methods.
Context {F : PyFloat} {B : PyBuiltins} {D : YamlDecoder}
        {FS : FileSystem}.

(** An external file reference: [extract_value] as [str], resolved
    unless null, under [if key in node]. *)
Definition file_field (self : BaseParser.t) (node : yaml) (key : string)
    (old : string) : result string :=
  when_in key node old
    (file <- extract_value node key VT_str ;;
     match file with
     | Some f => Ok (to_str (resolve_path self f))
     | None => Ok old
     end).

Definition _parse_design_external (self : BaseParser.t)
    (external_node : yaml) : result DesignExternal.t :=
  let external := DesignExternal.default in
  verilog_file <-
    file_field self external_node "verilog_file"
      (DesignExternal.verilog_file external) ;;
  Ok (DesignExternal.mk verilog_file).

Definition _parse_design (self : BaseParser.t) (design_node : yaml)
  : result DesignDef.t :=
  has_name <- py_contains "name" design_node ;;
  (if negb has_name then log_error "DBX Design name is required"
   else Ok tt) ;;;
  name <- extract_value design_node "name" VT_str ;;
  let design := DesignDef.mk (or_empty name) DesignExternal.default in
  external <-
    when_in "external" design_node (DesignDef.external design)
      (v <- py_getitem design_node "external" ;;
       _parse_design_external self v) ;;
  Ok (DesignDef.mk (DesignDef.name design) external).

Definition _parse_chiplet_inst_external (self : BaseParser.t)
    (external_node : yaml) : result ChipletInstExternal.t :=
  let external := ChipletInstExternal.default in
  verilog_file <-
    file_field self external_node "verilog_file"
      (ChipletInstExternal.verilog_file external) ;;
  sdc_file <-
    file_field self external_node "sdc_file"
      (ChipletInstExternal.sdc_file external) ;;
  def_file <-
    file_field self external_node "def_file"
      (ChipletInstExternal.def_file external) ;;
  Ok (ChipletInstExternal.mk verilog_file sdc_file def_file).

Definition _parse_chiplet_inst (self : BaseParser.t)
    (instance : ChipletInst.t) (instance_node : yaml)
  : result ChipletInst.t :=
  has_reference <- py_contains "reference" instance_node ;;
  (if negb has_reference
   then log_error ("DBX ChipletInst reference is required for instance "
                   ++ ChipletInst.name instance)
   else Ok tt) ;;;
  reference <- extract_value instance_node "reference" VT_str ;;
  external <-
    when_in "external" instance_node (ChipletInst.external instance)
      (v <- py_getitem instance_node "external" ;;
       _parse_chiplet_inst_external self v) ;;
  Ok (ChipletInst.mk _ (ChipletInst.name instance) (or_empty reference)
        external (ChipletInst.loc instance) (ChipletInst.z instance)
        (ChipletInst.orient instance)).

(** One turn of the loop of [_parse_chiplet_insts]. *)
Definition _parse_chiplet_insts_entry (self : BaseParser.t)
    (instances : dict ChipletInst.t) (item : string * yaml)
  : result (dict ChipletInst.t) :=
  let name := fst item in
  let instance := ChipletInst.default name in
  instance <- _parse_chiplet_inst self instance (snd item) ;;
  Ok (dict_set name instance instances).

Definition _parse_chiplet_insts (self : BaseParser.t)
    (instances_node : yaml) : result (dict ChipletInst.t) :=
  items <- py_items instances_node ;;
  for_each (_parse_chiplet_insts_entry self) items [].

(** [_parse_stack_instance]: the instance with [loc], [z] and
    [orient] assigned. *)
Definition _parse_stack_instance (instance : ChipletInst.t)
    (stack_instance_node : yaml) : result ChipletInst.t :=
  let name := ChipletInst.name instance in
  has_loc <- py_contains "loc" stack_instance_node ;;
  (if negb has_loc
   then log_error ("DBX Stack location is required for instance " ++ name)
   else Ok tt) ;;;
  loc_node <- py_getitem stack_instance_node "loc" ;;
  loc <- parse_coordinate loc_node ;;
  has_z <- py_contains "z" stack_instance_node ;;
  (if negb has_z
   then log_error ("DBX Stack z is required for instance " ++ name)
   else Ok tt) ;;;
  z_node <- py_getitem stack_instance_node "z" ;;
  z <- py_float z_node ;;
  has_orient <- py_contains "orient" stack_instance_node ;;
  (if negb has_orient
   then log_error ("DBX Stack orientation is required for instance "
                   ++ name)
   else Ok tt) ;;;
  orient <- extract_value stack_instance_node "orient" VT_str ;;
  Ok (ChipletInst.mk _ name (ChipletInst.reference instance)
        (ChipletInst.external instance) loc z (or_empty orient)).

(** One turn of the loop of [_parse_stack]. The instance object is
    held by the dictionary alone, so its mutation shows as the
    dictionary's entry for the name. *)
Definition _parse_stack_entry (instances : dict ChipletInst.t)
    (item : string * yaml) : result (dict ChipletInst.t) :=
  let instance_name := fst item in
  (if negb (dict_has instance_name instances)
   then log_error ("DBX Stack instance '" ++ instance_name
                   ++ "' not found in ChipletInst")
   else Ok tt) ;;;
  match dict_get instance_name instances with
  | None => raise KeyError (repr_str instance_name)
  | Some instance =>
      instance <- _parse_stack_instance instance (snd item) ;;
      Ok (dict_set instance_name instance instances)
  end.

(** [_parse_stack]: the dictionary of instances after the loop. *)
Definition _parse_stack (instances : dict ChipletInst.t)
    (stack_node : yaml) : result (dict ChipletInst.t) :=
  items <- py_items stack_node ;;
  for_each _parse_stack_entry items instances.

(** [_parse_connection]: the connection with [top], [bot] and
    [thickness] assigned. *)
Definition _parse_connection (connection : Connection.t)
    (connection_node : yaml) : result Connection.t :=
  let name := Connection.name connection in
  has_top <- py_contains "top" connection_node ;;
  (if negb has_top
   then log_error ("DBX Connection top is required for connection "
                   ++ name)
   else Ok tt) ;;;
  top <- extract_value connection_node "top" VT_str ;;
  has_bot <- py_contains "bot" connection_node ;;
  (if negb has_bot
   then log_error ("DBX Connection bot is required for connection "
                   ++ name)
   else Ok tt) ;;;
  bot <- extract_value connection_node "bot" VT_str ;;
  thickness <-
    when_in "thickness" connection_node (Connection.thickness connection)
      (v <- py_getitem connection_node "thickness" ;; py_float v) ;;
  Ok (Connection.mk _ name top bot thickness).

Definition _parse_connections (connections_node : yaml)
  : result (dict Connection.t) :=
  items <- py_items connections_node ;;
  for_each (fun connections item =>
              let name := fst item in
              let connection := Connection.default name in
              connection <- _parse_connection connection (snd item) ;;
              Ok (dict_set name connection connections))
           items [].

(** The body of [_parse_yaml_content] from the decoded root on. *)
Definition _parse_yaml_root (self : BaseParser.t) (root : yaml)
  : result DbxData.t :=
  let root := root_or_empty root in
  let data := DbxData.default in
  header <-
    when_in "Header" root (DbxData.header data)
      (v <- py_getitem root "Header" ;; parse_header self v) ;;
  design <-
    when_in "Design" root (DbxData.design data)
      (v <- py_getitem root "Design" ;; _parse_design self v) ;;
  chiplet_instances <-
    when_in "ChipletInst" root (DbxData.chiplet_instances data)
      (v <- py_getitem root "ChipletInst" ;; _parse_chiplet_insts self v) ;;
  chiplet_instances <-
    when_in "Stack" root chiplet_instances
      (v <- py_getitem root "Stack" ;; _parse_stack chiplet_instances v) ;;
  connections <-
    when_in "Connection" root (DbxData.connections data)
      (v <- py_getitem root "Connection" ;; _parse_connections v) ;;
  Ok (DbxData.mk _ header design chiplet_instances connections).

Definition _parse_yaml_content (self : BaseParser.t) (content : string)
  : result DbxData.t :=
  try_except
    (root <- load content ;; _parse_yaml_root self root)
    [YAMLError]
    (fun e => log_error ("DBX YAML parsing error: " ++ exn_msg e)).

Definition parse_file (self : BaseParser.t) (filename : string)
  : result DbxData.t :=
  let self := BaseParser.mk (Some (of_str filename)) (_defines self) in
  content <-
    try_except (read_file (of_str filename)) [IOError]
      (fun e => log_error ("Cannot open file: " ++ filename ++ " - "
                           ++ exn_msg e)) ;;
  let (self, content) := parse_defines self content in
  _parse_yaml_content self content.

End Methods.

End DbxParser.

(** ** [bmap_parser.py] *)

Module BmapParser.

Record t : Type := mk { current_file_path : option Path }.

Definition init : t := mk None.

(** [enumerate(l, start)] *)
Fixpoint enumerate {A} (start : nat) (l : list A) : list (nat * A) :=
  match l with
  | [] => []
  | a :: l' => (start, a) :: enumerate (S start) l'
  end.

Section Methods.
Context {F : PyFloat} {B : PyBuiltins} {FS : FileSystem}.

(** [str(self.current_file_path)] *)
Definition file_str (self : t) : string :=
  match current_file_path self with
  | Some p => to_str p
  | None => "None"
  end.

Definition _parse_line (line : string) (line_number : nat)
  : result BumpMapEntry.t :=
  let tokens := split line in
  match tokens with
  | [bump_inst_name; bump_cell_type; t2; t3; port_name; net_name] =>
      xy <- try_except
              (x <- py_float (YStr t2) ;;
               y <- py_float (YStr t3) ;;
               Ok (x, y))
              [ValueError]
              (fun e => raise ValueError
                          ("Invalid coordinate format: " ++ exn_msg e)) ;;
      Ok (BumpMapEntry.mk _ bump_inst_name bump_cell_type (fst xy) (snd xy)
            port_name net_name)
  | _ =>
      raise ValueError
        ("Line has " ++ of_nat (List.length tokens)
         ++ " columns, expected 6. "
         ++ "Format: bumpInstName bumpCellType x y portName netName")
  end.

(** One turn of the loop of [_parse_content], on [data.entries]. *)
Definition _parse_content_line (self : t) (entries : list BumpMapEntry.t)
    (numbered : nat * string) : result (list BumpMapEntry.t) :=
  let line_number := fst numbered in
  let line := strip (snd numbered) in
  if String.eqb line "" || startswith line "#" then Ok entries
  else
    try_except
      (entry <- _parse_line line line_number ;;
       Ok (entries ++ [entry])%list)
      [ValueError]
      (fun e =>
         let error_msg :=
           "Bump Map Parser Error: file " ++ file_str self
           ++ " Line " ++ of_nat line_number ++ " - " ++ exn_msg e in
         Raise (Exn ValueError error_msg) [error_msg]).

Definition _parse_content (self : t) (content : string)
  : result BumpMapData.t :=
  let data := BumpMapData.default in
  entries <-
    for_each (_parse_content_line self)
      (enumerate 1 (splitlines content)) (BumpMapData.entries data) ;;
  Ok (BumpMapData.mk _ entries).

Definition parse_file (self : t) (filename : string)
  : result BumpMapData.t :=
  let self := mk (Some (of_str filename)) in
  content <-
    try_except (read_file (of_str filename)) [IOError]
      (fun e =>
         let error_msg :=
           "Bump Map Parser Error: Cannot open file: " ++ filename in
         Raise (Exn IOError error_msg) [error_msg]) ;;
  _parse_content self content.

End Methods.

End BmapParser.

(** ** [parser.py] *)

Module ThreeDBloxParser.

(** What [parse] returns: the data of one of the three formats. *)
Inductive parsed {F : PyFloat} : Type :=
| Dbv (data : DbvData.t)
| Dbx (data : DbxData.t)
| Bmap (data : BumpMapData.t).

Section Methods.
Context {F : PyFloat} {B : PyBuiltins} {D : YamlDecoder} {FS : FileSystem}.

(** Each of [parse_dbv], [parse_dbx] and [parse_bmap] makes a parser of
    its own for the call. *)
Definition parse_dbv (filename : string) : result DbvData.t :=
  DbvParser.parse_file BaseParser.init filename.

Definition parse_dbx (filename : string) : result DbxData.t :=
  DbxParser.parse_file BaseParser.init filename.

Definition parse_bmap (filename : string) : result BumpMapData.t :=
  BmapParser.parse_file BmapParser.init filename.

(** [parse]: the format parsers are handed the [Path] made of
    [filename], which they read as its [str]. *)
Definition parse (filename : string) : result parsed :=
  let filepath := of_str filename in
  let extension := lower (suffix filepath) in
  if String.eqb extension ".3dbv" then
    data <- parse_dbv (to_str filepath) ;; Ok (Dbv data)
  else if String.eqb extension ".3dbx" then
    data <- parse_dbx (to_str filepath) ;; Ok (Dbx data)
  else if String.eqb extension ".bmap" then
    data <- parse_bmap (to_str filepath) ;; Ok (Bmap data)
  else
    raise ValueError
      ("Unknown file extension: " ++ extension
       ++ ". Expected .3dbv, .3dbx, or .bmap").

End Methods.

End ThreeDBloxParser.

(** ** An interpreter for worked examples

    Floats are exact rationals in lowest terms, and the numeric literals
    understood are an optional sign, digits and an optional fraction;
    [repr] of a [str] puts it in single quotes. The file system holds a
    few directories and files under [/a]. *)

Module Interp.

Definition digit_of (c : ascii) : option Z :=
  let n := nat_of_ascii c in
  if Nat.leb 48 n && Nat.leb n 57 then Some (Z.of_nat (n - 48)) else None.

(** The digits at the head of [s]: their value continuing [acc], their
    number, and the rest of [s]. *)
Fixpoint digits (acc : Z) (count : nat) (s : string) : Z * nat * string :=
  match s with
  | EmptyString => (acc, count, s)
  | String c s' =>
      match digit_of c with
      | Some d => digits (acc * 10 + d) (S count) s'
      | None => (acc, count, s)
      end
  end.

Definition signed (s : string) : bool * string :=
  match s with
  | String c s' =>
      if Ascii.eqb c "-" then (true, s')
      else if Ascii.eqb c "+" then (false, s')
      else (false, s)
  | EmptyString => (false, s)
  end.

Definition int_literal (s : string) : option Z :=
  let (neg, body) := signed (strip s) in
  match digits 0 0 body with
  | (n, S _, EmptyString) => Some (if neg then - n else n)%Z
  | _ => None
  end.

Definition float_literal (s : string) : option Q :=
  let (neg, body) := signed (strip s) in
  let '(n, k1, rest) := digits 0 0 body in
  let sgn (q : Q) := Qred (if neg then Qopp q else q) in
  match rest with
  | EmptyString =>
      match k1 with
      | O => None
      | S _ => Some (sgn (inject_Z n))
      end
  | String c rest' =>
      if Ascii.eqb c "." then
        match digits n 0 rest' with
        | (m, k2, EmptyString) =>
            match (k1 + k2)%nat with
            | O => None
            | S _ =>
                Some (sgn (match k2 with
                           | O => inject_Z m
                           | S _ => Qmake m (Pos.pow 10 (Pos.of_nat k2))
                           end))
            end
        | _ => None
        end
      else None
  end.

(** Up to [fuel] decimals of [r / d]. *)
Fixpoint decimals (fuel : nat) (r d : Z) : string :=
  match fuel with
  | O => ""
  | S fuel' =>
      if Z.eqb r 0 then ""
      else of_Z (r * 10 / d) ++ decimals fuel' (r * 10 mod d) d
  end.

Definition float_text (q : Q) : string :=
  let n := Z.abs (Qnum q) in
  let d := Zpos (Qden q) in
  (if Z.ltb (Qnum q) 0 then "-" else "")
  ++ of_Z (n / d) ++ "."
  ++ (if Z.eqb (n mod d) 0 then "0" else decimals 17 (n mod d) d).

#[export] Instance floats : PyFloat := {|
  pyfloat := Q;
  float_of_str := float_literal;
  float_of_int := fun n => Some (inject_Z n);
  int_of_float := fun q => inr (Z.quot (Qnum q) (Zpos (Qden q)));
  float_nonzero := fun q => negb (Z.eqb (Qnum q) 0);
  str_of_float := float_text;
  float_zero := inject_Z 0;
  float_minus_one := inject_Z (-1)
|}.

#[export] Instance builtins : PyBuiltins := {|
  int_of_str := int_literal;
  repr_str := fun s => "'" ++ s ++ "'";
  builtin_error := fun op v =>
    match v with
    | YStr s => op ++ "() cannot convert '" ++ s ++ "'"
    | _ => op ++ "() not supported by the operand"
    end
|}.

Definition directories : list string := ["/"; "/a"; "/a/b"; "/a/lib"].

Definition listing : list (string * list string) :=
  [("/", ["a"]); ("/a", ["b"; "lib"]); ("/a/b", ["design.3dbx"]);
   ("/a/lib", ["a.lef"; "b.lef"; "c.txt"])].

Definition names_in (p : Path) : list string :=
  match dict_get (to_str p) listing with
  | Some l => l
  | None => []
  end.

Definition is_directory (p : Path) : bool :=
  existsb (String.eqb (to_str p)) directories.

Definition is_regular (p : Path) : bool :=
  existsb (String.eqb (PyPath.name p)) (names_in (parent p))
  && negb (is_directory p).

(** [Interp]'s file system has no symbolic links: the real path of a
    path is the path without its [..] components. *)
Definition real_path (p : Path) : Path :=
  MkPath true (normalize [] (parts p)).

#[export] Instance file_system : FileSystem := {|
  cwd := of_str "/a/b";
  fs_realpath := real_path;
  fs_exists := fun p => is_directory p || is_regular p;
  fs_is_dir := is_directory;
  fs_is_file := is_regular;
  fs_listdir := names_in;
  fs_read := fun p => inr ("No such file or directory: " ++ to_str p)
|}.

End Interp.

(** * Vocabulary of the properties *)

(** The first character of a line that is not white space, if any. *)
Definition first_non_space (line : string) : option ascii :=
  match lstrip line with
  | String c _ => Some c
  | EmptyString => None
  end.

(** The error a bump-map line that does not have six columns ends the
    parse with: the file, the line number and the number of columns. *)
Definition column_error {A} (file : string) (line_number columns : nat)
  : result A :=
  let error_msg :=
    "Bump Map Parser Error: file " ++ file ++ " Line " ++ of_nat line_number
    ++ " - Line has " ++ of_nat columns ++ " columns, expected 6. "
    ++ "Format: bumpInstName bumpCellType x y portName netName" in
  Raise (Exn ValueError error_msg) [error_msg].

(** The error a bump-map line whose coordinate [token] is no float ends
    the parse with. *)
Definition coordinate_error {F : PyFloat} {B : PyBuiltins} {A}
    (file : string) (line_number : nat) (token : string) : result A :=
  let error_msg :=
    "Bump Map Parser Error: file " ++ file ++ " Line " ++ of_nat line_number
    ++ " - Invalid coordinate format: "
    ++ builtin_error "float" (YStr token) in
  Raise (Exn ValueError error_msg) [error_msg].

(** A sequence of exactly two elements. *)
Definition is_pair {F : PyFloat} (v : yaml) : bool :=
  match v with
  | YList [_; _] => true
  | _ => false
  end.

(** No character of [s] is white space. *)
Fixpoint no_space (s : string) : bool :=
  match s with
  | EmptyString => true
  | String c s' => negb (is_space c) && no_space s'
  end.

(** What a macro of the table is like: a key that is not empty and holds
    no white space, a value that is not empty and has no white space at
    its ends. *)
Definition well_formed_macro (kv : string * string) : Prop :=
  fst kv <> "" /\ no_space (fst kv) = true
  /\ snd kv <> "" /\ strip (snd kv) = snd kv.

(** A directive line of the macro preprocessor. *)
Definition is_directive (line : string) : bool := startswith line "#!define".

(** The directive [d] defines [key] as [value], by the steps
    [parse_defines] takes on it. *)
Definition defines_macro (d key value : string) : Prop :=
  is_directive d = true /\
  exists k v, split_max1 (strip (slice_from d 8)) = [k; v]
              /\ key = strip k /\ value = strip v.

(** The line [l] gives [key] no other value than [value]. *)
Definition keeps_macro (key value l : string) : Prop :=
  forall v', defines_macro l key v' -> v' = value.

(** The macro that the line [l] defines, if any and if it is not that
    of [key], has a key that occurs neither in [L] nor in [L] with
    [key] replaced by [value]. *)
Definition leaves_alone (key value L l : string) : Prop :=
  forall k' v',
    defines_macro l k' v' -> k' <> key ->
    contains k' L = false /\ contains k' (replace key value L) = false.

(** No macro of the table [defines] applies to [line]: none of their
    keys occurs in it. *)
Definition untouched_by (defines : dict string) (line : string) : Prop :=
  Forall (fun kv => contains (fst kv) line = false) defines.


(** What a Stack section over the names [stack_keys] may change in an
    entry of the instance dictionary: the key stays, and so do [name],
    [reference] and [external]; an entry whose key is not among
    [stack_keys] stays as a whole. *)
Definition placement_only {F : PyFloat} (stack_keys : list string)
    (before after : string * ChipletInst.t) : Prop :=
  fst after = fst before
  /\ ChipletInst.name (snd after) = ChipletInst.name (snd before)
  /\ ChipletInst.reference (snd after) = ChipletInst.reference (snd before)
  /\ ChipletInst.external (snd after) = ChipletInst.external (snd before)
  /\ (~ In (fst before) stack_keys -> snd after = snd before).

(** The text of a Header field: empty when the key is absent or null. *)
Definition text_field {F : PyFloat} {B : PyBuiltins} (m : dict yaml)
    (key : string) : string :=
  match dict_get key m with
  | None | Some YNull => ""
  | Some v => py_str v
  end.

(** The entries of an include list that count: the [str] of each entry
    that is not null, the empty ones left out. *)
Definition include_strings {F : PyFloat} {B : PyBuiltins} (l : list yaml)
  : list string :=
  filter (fun s => negb (String.eqb s ""))
         (map (fun v => match v with YNull => "" | _ => py_str v end) l).

(** A file name as a directory lists it: not empty, not [.], without
    [/]. *)
Definition plain_name (n : string) : bool :=
  negb (String.eqb n "") && negb (String.eqb n ".") && negb (contains "/" n).

(** A path as [Path(...)] builds it: every component a plain name. *)
Definition well_formed (p : Path) : Prop :=
  Forall (fun n => plain_name n = true) (parts p).

(** The external file reference of a DBX mapping under [key]: empty when
    the key is absent or null, the resolved path of its text otherwise. *)
Definition file_reference {F : PyFloat} {B : PyBuiltins} {FS : FileSystem}
    (self : BaseParser.t) (m : dict yaml) (key : string) : string :=
  match dict_get key m with
  | None | Some YNull => ""
  | Some v => to_str (resolve_path self (py_str v))
  end.

(** The text of a region field: as it was when the key is absent, the
    [str] of the value otherwise, null included. *)
Definition plain_text {F : PyFloat} {B : PyBuiltins} (m : dict yaml)
    (key : string) (old : string) : string :=
  match dict_get key m with
  | None => old
  | Some v => py_str v
  end.

(** A bump-map line that counts: not blank and no comment. *)
Definition is_entry_line (line : string) : bool :=
  negb (String.eqb (strip line) "" || startswith (strip line) "#").

(** The top-level sections a .3dbx document is read for, and those of a
    .3dbv document. *)
Definition dbx_sections : list string :=
  ["Header"; "Design"; "ChipletInst"; "Stack"; "Connection"].

Definition dbv_sections : list string := ["Header"; "ChipletDef"].

(** A dictionary [d] built from the entries [items] of a mapping, an
    object per entry: no key twice, the keys of the mapping, each
    object under its own name and made by [parse] of an entry of that
    name, and in the order of the mapping when it has no key twice. *)
Definition filed_by_name {N V} (name_of : V -> string)
    (parse : string -> N -> result V) (items : dict N) (d : dict V) : Prop :=
  NoDup (dict_keys d)
  /\ (forall k, dict_has k d = dict_has k items)
  /\ Forall (fun kv =>
               name_of (snd kv) = fst kv
               /\ exists node, In (fst kv, node) items
                               /\ parse (fst kv) node = Ok (snd kv))
            d
  /\ (NoDup (dict_keys items) -> dict_keys d = dict_keys items).

(** Documents for the worked examples, read by [Interp]. *)
Module Examples.
Import Interp.

(** A parser at work on [/a/b/design.3dbx]. *)
Definition parser : BaseParser.t :=
  BaseParser.mk (Some (of_str "/a/b/design.3dbx")) [].

(** [ChipletInst: {a: {reference: chipA}, b: {reference: chipB}}] *)
Definition chiplet_inst : yaml :=
  YMap [("a", YMap [("reference", YStr "chipA")]);
        ("b", YMap [("reference", YStr "chipB")])].

Definition placement (z : yaml) : yaml :=
  YMap [("loc", YList [YInt 0; YFloat (1 # 2)]); ("z", z);
        ("orient", YStr "R0")].

(** [Stack: {a: {loc: [0, 0.5], z: 3, orient: R0}}] *)
Definition stack : yaml := YMap [("a", placement (YInt 3))].

(** The same with [z: abc]. *)
Definition stack_bad_z : yaml := YMap [("a", placement (YStr "abc"))].

(** A Stack section naming [ghost], which is no instance. *)
Definition stack_ghost : yaml :=
  YMap [("a", placement (YInt 3)); ("ghost", placement (YInt 4))].

(** The instances after the ChipletInst section. *)
Definition instances : dict ChipletInst.t :=
  [("a", ChipletInst.mk _ "a" "chipA" ChipletInstExternal.default
           Coordinate.default float_zero "");
   ("b", ChipletInst.mk _ "b" "chipB" ChipletInstExternal.default
           Coordinate.default float_zero "")].

(** The instances after the Stack section [stack]. *)
Definition placed : dict ChipletInst.t :=
  [("a", ChipletInst.mk _ "a" "chipA" ChipletInstExternal.default
           (Coordinate.mk _ (inject_Z 0) (1 # 2)) (inject_Z 3) "R0");
   ("b", ChipletInst.mk _ "b" "chipB" ChipletInstExternal.default
           Coordinate.default float_zero "")].

(** A design whose Stack section names [ghost]. *)
Definition design_ghost : dict yaml :=
  [("ChipletInst", chiplet_inst); ("Stack", stack_ghost)].

(** A design whose Stack section has [z: abc]. *)
Definition design_bad_z : yaml :=
  YMap [("ChipletInst", chiplet_inst); ("Stack", stack_bad_z)].

(** [Header: {precision: high}] *)
Definition header_bad_precision : yaml :=
  YMap [("Header", YMap [("precision", YStr "high")])].

(** [ChipletDef: {c1: {type: die, thickness: thick}}] *)
Definition library_bad_thickness : yaml :=
  YMap [("ChipletDef",
         YMap [("c1", YMap [("type", YStr "die");
                            ("thickness", YStr "thick")])])].

(** [{type: die, design_area: [100.0, 200.0]}] *)
Definition chiplet_with_area : dict yaml :=
  [("type", YStr "die");
   ("design_area", YList [YFloat (inject_Z 100); YFloat (inject_Z 200)])].

(** The same with a [design_area] of three elements. *)
Definition chiplet_with_volume : dict yaml :=
  [("type", YStr "die");
   ("design_area", YList [YFloat (inject_Z 100); YFloat (inject_Z 200);
                          YFloat (inject_Z 300)])].


(** [Header: {include: [../missing/*.lef]}] *)
Definition library_missing_include : yaml :=
  YMap [("Header", YMap [("include", YList [YStr "../missing/*.lef"])])].

(** A bump map whose fourth line has five columns. *)
Definition bump_map_short_line : string :=
  text ["# bumps"; ""; "b0 TYPE1 10.5 20.25 P1 NET1"; "b1 TYPE1 1 2 P2"].

Definition bump_parser : BmapParser.t :=
  BmapParser.mk (Some (of_str "/a/b/x.bmap")).

Definition bump_b0 : BumpMapEntry.t :=
  BumpMapEntry.mk _ "b0" "TYPE1" (21 # 2) (81 # 4) "P1" "NET1".

(** [{top: a.regions.r1, bot: ~}] *)
Definition virtual_connection : dict yaml :=
  [("top", YStr "a.regions.r1"); ("bot", YNull)].

(** A design file with a macro, and a bump map of two bumps. *)
Definition design_text : string :=
  text ["#!define NAME soc"; "Design: {name: NAME}"].

Definition bumps_text : string :=
  text ["# bumps"; ""; "b0 TYPE1 10.5 20.25 P1 NET1"; "  # end"].

(** A decoder that knows the documents of the examples. *)
Definition decoder : YamlDecoder := {|
  safe_load := fun content =>
    if String.eqb content "" then inl YNull
    else if String.eqb content "42" then inl (YInt 42)
    else if String.eqb content "Design: {name: soc}"
    then inl (YMap [("Design", YMap [("name", YStr "soc")])])
    else if String.eqb content "Notes: none"
    then inl (YMap [("Notes", YStr "none")])
    else inr "could not find expected ':'"
|}.

(** The file system of [Interp] seen from another working directory. *)
Definition elsewhere : FileSystem := {|
  cwd := of_str "/tmp";
  fs_realpath := real_path;
  fs_exists := fun p => is_directory p || is_regular p;
  fs_is_dir := is_directory;
  fs_is_file := is_regular;
  fs_listdir := names_in;
  fs_read := fun p => inr ("No such file or directory: " ++ to_str p)
|}.

(** The file system of [Interp] with two files that can be read. *)
Definition disk : FileSystem := {|
  cwd := of_str "/a/b";
  fs_realpath := real_path;
  fs_exists := fun p => is_directory p || is_regular p;
  fs_is_dir := is_directory;
  fs_is_file := is_regular;
  fs_listdir := names_in;
  fs_read := fun p =>
    if String.eqb (to_str p) "/a/b/design.3dbx" then inl design_text
    else if String.eqb (to_str p) "/a/b/bumps.bmap" then inl bumps_text
    else inr ("No such file or directory: " ++ to_str p)
|}.

End Examples.

(** * Properties *)

(** ** Strings *)

Section StringFacts.

Lemma append_nil_r (s : string) : s ++ "" = s.
Proof. induction s as [|c s IH]; simpl; [reflexivity | now rewrite IH]. Qed.

Lemma append_assoc (a b c : string) : (a ++ b) ++ c = a ++ (b ++ c).
Proof. induction a as [|x a IH]; simpl; [reflexivity | now rewrite IH]. Qed.

Lemma length_append (a b : string) :
  String.length (a ++ b) = (String.length a + String.length b)%nat.
Proof. induction a as [|x a IH]; simpl; [reflexivity | now rewrite IH]. Qed.

Lemma prefix_append (p s : string) : prefix p (p ++ s) = true.
Proof.
  induction p as [|c p IH]; simpl.
  - now destruct s.
  - destruct (ascii_dec c c) as [_|ne]; [exact IH | now elim ne].
Qed.

(** Only the first [length p] characters of a string decide whether
    [p] is a prefix of it. *)
Lemma prefix_append_long (p x y : string) :
  (String.length p <= String.length x)%nat ->
  prefix p (x ++ y) = prefix p x.
Proof.
  revert x; induction p as [|c p IH]; intros x Hlen.
  - now destruct x, y.
  - destruct x as [|d x]; simpl in Hlen; [lia|].
    simpl. destruct (ascii_dec c d); [apply IH; lia | reflexivity].
Qed.

Lemma take_drop (n : nat) (s : string) : take n s ++ drop n s = s.
Proof.
  revert s; induction n as [|n IH]; intros [|c s]; simpl; try reflexivity.
  now rewrite IH.
Qed.

Lemma length_take (n : nat) (s : string) :
  (n <= String.length s)%nat -> String.length (take n s) = n.
Proof.
  revert s; induction n as [|n IH]; intros [|c s] H; simpl in *;
    try reflexivity; try lia.
  rewrite IH; [reflexivity | lia].
Qed.

Lemma contains_false_prefix (sub s : string) :
  contains sub s = false -> prefix sub s = false.
Proof.
  destruct s; simpl; intros H; apply orb_false_iff in H; tauto.
Qed.

Lemma contains_false_tail (sub : string) (c : ascii) (s : string) :
  contains sub (String c s) = false -> contains sub s = false.
Proof. simpl; intros H; apply orb_false_iff in H; tauto. Qed.

Lemma contains_empty (s : string) : contains "" s = true.
Proof. now destruct s. Qed.

(** After a match the scan passes over the rest of the match. *)
Lemma replace_from_skip (old new x s : string) :
  replace_from old new (String.length x) (x ++ s)
  = replace_from old new 0 s.
Proof.
  induction x as [|c x IH]; simpl; [now destruct s | exact IH].
Qed.

Lemma replace_from_absent (old new s : string) :
  contains old s = false -> replace_from old new 0 s = s.
Proof.
  induction s as [|c s IH]; intros H; [reflexivity|].
  cbn [replace_from].
  rewrite (contains_false_prefix _ _ H).
  now rewrite (IH (contains_false_tail _ _ _ H)).
Qed.

(** A text in which [old] does not occur is left as it is. *)
Lemma replace_absent (old new s : string) :
  contains old s = false -> replace old new s = s.
Proof.
  destruct old as [|c old]; intros H.
  - now rewrite contains_empty in H.
  - now apply replace_from_absent.
Qed.

(** The leftmost occurrence of [old] is replaced whatever stands
    before and behind it, and the scan resumes behind it. *)
Lemma replace_occurrence (old new a b : string) :
  old <> "" ->
  contains old (a ++ take (String.length old - 1) old) = false ->
  replace old new (a ++ old ++ b) = a ++ new ++ replace old new b.
Proof.
  destruct old as [|c old]; [congruence|]; intros _.
  change (String.length (String c old) - 1)%nat with (String.length old - 0)%nat.
  rewrite Nat.sub_0_r. cbn [replace].
  induction a as [|x a IH]; intros H.
  - cbn [append replace_from].
    change (String c (old ++ b)) with (String c old ++ b).
    rewrite prefix_append.
    change (String.length (String c old) - 1)%nat
      with (String.length old - 0)%nat.
    rewrite Nat.sub_0_r.
    now rewrite replace_from_skip.
  - cbn [append replace_from].
    assert (Hp : prefix (String c old) (String x (a ++ String c old ++ b))
                 = false).
    { pose proof (contains_false_prefix _ _ H) as Hp.
      rewrite <- Hp.
      rewrite <- (take_drop (String.length old) (String c old)) at 2.
      rewrite append_assoc.
      change (String x (a ++ take (String.length old) (String c old)
                          ++ drop (String.length old) (String c old) ++ b))
        with (String x a ++ take (String.length old) (String c old)
                ++ drop (String.length old) (String c old) ++ b).
      rewrite <- (append_assoc (String x a)).
      apply prefix_append_long.
      rewrite length_append, length_take; simpl; lia. }
    cbn [append] in Hp. rewrite Hp. f_equal. apply IH.
    exact (contains_false_tail _ _ _ H).
Qed.

Lemma prefix_short (p s : string) :
  (String.length s < String.length p)%nat -> prefix p s = false.
Proof.
  revert s; induction p as [|c p IH]; intros [|d s] H; simpl in *;
    try lia; try reflexivity.
  destruct (ascii_dec c d); [apply IH; lia | reflexivity].
Qed.

Lemma contains_short (p s : string) :
  (String.length s < String.length p)%nat -> contains p s = false.
Proof.
  induction s as [|d s IH]; intros H.
  - cbn [contains]. now rewrite prefix_short.
  - cbn [contains]. rewrite prefix_short by exact H.
    apply IH. simpl in H. lia.
Qed.

(** A text that is exactly [old] becomes [new]. *)
Lemma replace_self (old new : string) :
  old <> "" -> replace old new old = new.
Proof.
  intros Hne.
  pose proof (replace_occurrence old new "" "" Hne) as H.
  rewrite append_nil_r in H. cbn [append] in H.
  rewrite H.
  - destruct old; [congruence|]. cbn. apply append_nil_r.
  - apply contains_short.
    destruct old as [|c old]; [congruence|].
    rewrite length_take; simpl; lia.
Qed.

End StringFacts.

(** ** White space *)

Section StripFacts.

Lemma list_ascii_of_append (a b : string) :
  list_ascii_of_string (a ++ b)
  = (list_ascii_of_string a ++ list_ascii_of_string b)%list.
Proof. induction a as [|c a IH]; cbn; [reflexivity | now rewrite IH]. Qed.

Lemma string_of_list_ascii_app (l1 l2 : list ascii) :
  string_of_list_ascii (l1 ++ l2)
  = string_of_list_ascii l1 ++ string_of_list_ascii l2.
Proof. induction l1 as [|c l1 IH]; cbn; [reflexivity | now rewrite IH]. Qed.

Lemma rev_cons (c : ascii) (s : string) :
  rev (String c s) = rev s ++ String c "".
Proof. unfold rev. cbn. now rewrite string_of_list_ascii_app. Qed.

Lemma rev_snoc (s : string) (c : ascii) :
  rev (s ++ String c "") = String c (rev s).
Proof.
  unfold rev. rewrite list_ascii_of_append, rev_app_distr. reflexivity.
Qed.

Lemma lstrip_head (s : string) (c : ascii) (r : string) :
  lstrip s = String c r -> is_space c = false.
Proof.
  induction s as [|d s IH]; cbn; [discriminate|].
  destruct (is_space d) eqn:E; [exact IH|].
  intros [= <- _]. exact E.
Qed.

Lemma lstrip_snoc (s : string) (c : ascii) :
  is_space c = false ->
  exists s', lstrip (s ++ String c "") = s' ++ String c "".
Proof.
  intros Hc. induction s as [|d s IH]; cbn.
  - rewrite Hc. now exists "".
  - destruct (is_space d); [exact IH|]. now exists (String d s).
Qed.

(** Stripping keeps the first character that is not white space. *)
Lemma strip_head (line : string) (c : ascii) (r : string) :
  lstrip line = String c r -> exists r', strip line = String c r'.
Proof.
  intros H. pose proof (lstrip_head _ _ _ H) as Hc.
  unfold strip, rstrip. rewrite H, rev_cons.
  destruct (lstrip_snoc (rev r) c Hc) as (s' & ->).
  rewrite rev_snoc. eauto.
Qed.

(** The lines [_parse_content] passes over are the blank ones and
    those whose first character that is not white space is [#]. *)
Lemma skipped_first_non_space (line : string) :
  String.eqb (strip line) "" || startswith (strip line) "#"
  = match first_non_space line with
    | None => true
    | Some c => Ascii.eqb c "#"
    end.
Proof.
  unfold first_non_space. destruct (lstrip line) as [|c r] eqn:E.
  - unfold strip. rewrite E. reflexivity.
  - destruct (strip_head _ _ _ E) as (r' & ->).
    unfold startswith. cbn [String.eqb orb prefix].
    destruct (ascii_dec "#" c) as [<-|Hne].
    + now destruct r'.
    + symmetry. apply Ascii.eqb_neq. congruence.
Qed.

Lemma rev_involutive (s : string) : rev (rev s) = s.
Proof.
  unfold rev. rewrite list_ascii_of_string_of_list_ascii, List.rev_involutive.
  apply string_of_list_ascii_of_string.
Qed.

Lemma length_lstrip (s : string) :
  (String.length (lstrip s) <= String.length s)%nat.
Proof.
  induction s as [|c s IH]; cbn; [lia|].
  destruct (is_space c); cbn; lia.
Qed.

(** A text that [lstrip] leaves as it is starts with a character that
    is not white space. *)
Lemma lstrip_fixed (s : string) :
  s <> "" -> lstrip s = s ->
  exists c s', s = String c s' /\ is_space c = false.
Proof.
  destruct s as [|c s]; [congruence|]. intros _ H.
  exists c, s. split; [reflexivity|].
  cbn in H. destruct (is_space c); [|reflexivity].
  pose proof (length_lstrip s) as Hlen. rewrite H in Hlen.
  cbn in Hlen. lia.
Qed.

Lemma rstrip_snoc (s : string) (c : ascii) :
  is_space c = false -> rstrip (s ++ String c "") = s ++ String c "".
Proof.
  intros Hc. unfold rstrip. rewrite rev_snoc. cbn [lstrip]. rewrite Hc.
  now rewrite rev_cons, rev_involutive.
Qed.

(** A text that [rstrip] leaves as it is ends with a character that is
    not white space. *)
Lemma rstrip_fixed (s : string) :
  s <> "" -> rstrip s = s ->
  exists w c, s = w ++ String c "" /\ is_space c = false.
Proof.
  intros Hne H. unfold rstrip in H.
  assert (Hrev : lstrip (rev s) = rev s).
  { rewrite <- (rev_involutive (lstrip (rev s))). now rewrite H. }
  assert (Hne' : rev s <> "").
  { intros E. apply Hne. rewrite <- (rev_involutive s), E. reflexivity. }
  destruct (lstrip_fixed _ Hne' Hrev) as (c & t & Ht & Hc).
  exists (rev t), c. split; [|exact Hc].
  rewrite <- (rev_involutive s), Ht. apply rev_cons.
Qed.

Lemma no_space_last (s : string) :
  s <> "" -> no_space s = true ->
  exists w c, s = w ++ String c "" /\ is_space c = false.
Proof.
  induction s as [|c s IH]; [congruence|]. intros _ H.
  cbn in H. apply andb_true_iff in H as [Hc Hs].
  apply negb_true_iff in Hc.
  destruct s as [|d s].
  - now exists "", c.
  - destruct (IH ltac:(discriminate) Hs) as (w & c' & -> & Hc').
    now exists (String c w), c'.
Qed.

Lemma span_word_no_space (key : string) (sp : ascii) (r : string) :
  no_space key = true -> is_space sp = true ->
  span_word (key ++ String sp r) = (key, String sp r).
Proof.
  intros Hkey Hsp. induction key as [|c key IH]; cbn.
  - now rewrite Hsp.
  - cbn in Hkey. apply andb_true_iff in Hkey as [Hc Hkey].
    apply negb_true_iff in Hc. rewrite Hc, (IH Hkey). reflexivity.
Qed.

(** The line [#!define KEY VALUE], for a key without white space and a
    value without white space at its ends, is the directive that
    defines [KEY] as [VALUE]. *)
Lemma literal_directive (key value : string) :
  key <> "" -> no_space key = true ->
  value <> "" -> lstrip value = value -> rstrip value = value ->
  defines_macro ("#!define " ++ key ++ " " ++ value) key value.
Proof.
  intros Hk Hks Hv Hvl Hvr.
  destruct (no_space_last _ Hk Hks) as (kw & kc & Hkey & Hkc).
  destruct (rstrip_fixed _ Hv Hvr) as (vw & vc & Hvalue & Hvc).
  destruct (lstrip_fixed _ Hv Hvl) as (v0 & v' & Hvhead & Hv0).
  assert (Hkhead : exists k0 k', key = String k0 k' /\ is_space k0 = false).
  { destruct key as [|k0 k']; [congruence|]. exists k0, k'.
    cbn in Hks. apply andb_true_iff in Hks as [H _].
    now apply negb_true_iff in H. }
  destruct Hkhead as (k0 & k' & Hkhead & Hk0).
  assert (Hlk : lstrip (key ++ " " ++ value) = key ++ " " ++ value).
  { rewrite Hkhead. cbn. now rewrite Hk0. }
  assert (Hrk : rstrip (key ++ " " ++ value) = key ++ " " ++ value).
  { rewrite Hvalue.
    change (key ++ " " ++ vw ++ String vc "")
      with (key ++ String " " (vw ++ String vc "")).
    change (String " " (vw ++ String vc ""))
      with (String " " vw ++ String vc "").
    rewrite <- append_assoc. now apply rstrip_snoc. }
  split; [reflexivity|].
  exists key, value.
  change (slice_from ("#!define " ++ key ++ " " ++ value) 8)
    with (String " " (key ++ " " ++ value)).
  assert (Hstrip : strip (String " " (key ++ " " ++ value))
                   = key ++ " " ++ value).
  { unfold strip. cbn [lstrip].
    change (is_space " ") with true. cbv iota.
    now rewrite Hlk, Hrk. }
  rewrite Hstrip. split; [|split].
  - unfold split_max1. rewrite Hlk.
    replace (String.eqb (key ++ " " ++ value) "") with false
      by (rewrite Hkhead; reflexivity).
    change (key ++ " " ++ value) with (key ++ String " " value).
    rewrite (span_word_no_space key " " value Hks eq_refl).
    cbn [lstrip]. change (is_space " ") with true. cbv iota.
    rewrite Hvl.
    replace (String.eqb value "") with false
      by (rewrite Hvhead; reflexivity).
    reflexivity.
  - unfold strip.
    replace (lstrip key) with key by (rewrite Hkhead; cbn; now rewrite Hk0).
    rewrite Hkey. symmetry. now apply rstrip_snoc.
  - unfold strip. now rewrite Hvl, Hvr.
Qed.

End StripFacts.

(** ** The macro preprocessor *)

Section PreprocessorFacts.


(** The lines already produced are a prefix of the final output. *)
Lemma parse_defines_line_acc (lines : list string) (defines : dict string)
    (acc : list string) :
  fold_left parse_defines_line lines (defines, acc)
  = (fst (fold_left parse_defines_line lines (defines, [])),
     (acc ++ snd (fold_left parse_defines_line lines (defines, [])))%list).
Proof.
  revert defines acc; induction lines as [|l lines IH]; intros defines acc.
  - cbn. now rewrite app_nil_r.
  - cbn [fold_left]. unfold parse_defines_line at 2 4 6.
    destruct (startswith l "#!define").
    + destruct (split_max1 (strip (slice_from l 8))) as [|k [|v [|? ?]]];
        apply IH.
    + rewrite IH.
      rewrite (IH defines ([] ++ [resolve_macros defines l])%list).
      cbn [fst snd app]. now rewrite <- app_assoc.
Qed.

(** Lines that are not directives leave the table alone and are
    resolved against it. *)
Lemma parse_defines_plain_lines (lines : list string)
    (defines : dict string) (acc : list string) :
  Forall (fun l => is_directive l = false) lines ->
  fold_left parse_defines_line lines (defines, acc)
  = (defines, (acc ++ map (resolve_macros defines) lines)%list).
Proof.
  intros H; revert acc; induction H as [|l lines Hl _ IH]; intros acc.
  - cbn. now rewrite app_nil_r.
  - cbn [fold_left map]. unfold parse_defines_line at 2.
    unfold is_directive in Hl. rewrite Hl, IH.
    now rewrite <- app_assoc.
Qed.

(** A directive enters its macro in the table and emits nothing. *)
Lemma parse_defines_directive (d key value : string)
    (defines : dict string) (acc : list string) :
  defines_macro d key value ->
  parse_defines_line (defines, acc) d = (dict_set key value defines, acc).
Proof.
  intros [Hd (k & v & Hs & -> & ->)].
  unfold parse_defines_line. unfold is_directive in Hd.
  now rewrite Hd, Hs.
Qed.

(** No directive is emitted: the output has one line per line of the
    input that is not a directive. *)
Lemma parse_defines_line_count (lines : list string)
    (defines : dict string) :
  List.length (snd (fold_left parse_defines_line lines (defines, [])))
  = List.length (filter (fun l => negb (is_directive l)) lines).
Proof.
  revert defines; induction lines as [|l lines IH]; intros defines.
  - reflexivity.
  - cbn [fold_left filter]. unfold parse_defines_line at 2.
    unfold is_directive at 1.
    destruct (startswith l "#!define"); cbn [negb].
    + destruct (split_max1 (strip (slice_from l 8))) as [|k [|v [|? ?]]];
        apply IH.
    + rewrite parse_defines_line_acc. simpl. f_equal. apply IH.
Qed.


End PreprocessorFacts.

(** ** Calls that may raise, and dictionaries *)

Section ControlFacts.

Lemma bind_Ok_inv {A B} (m : result A) (f : A -> result B) (b : B) :
  bind m f = Ok b -> exists a, m = Ok a /\ f a = Ok b.
Proof. destruct m as [a|e lg]; cbn; [eauto | discriminate]. Qed.

Lemma for_each_app {S A} (body : S -> A -> result S) (l1 l2 : list A)
    (s : S) :
  for_each body (l1 ++ l2) s = bind (for_each body l1 s) (for_each body l2).
Proof.
  revert s; induction l1 as [|a l1 IH]; intros s; cbn; [reflexivity|].
  destruct (body s a); cbn; [apply IH | reflexivity].
Qed.

(** A loop that raises in some turn raises as a whole. *)
Lemma for_each_raises {S A} (body : S -> A -> result S) (pre post : list A)
    (a : A) (s s' : S) (e : exn) (lg : list string) :
  for_each body pre s = Ok s' ->
  body s' a = Raise e lg ->
  for_each body (pre ++ a :: post) s = Raise e lg.
Proof.
  intros Hpre Ha. rewrite for_each_app, Hpre. cbn. now rewrite Ha.
Qed.

Lemma dict_get_set {V} (k k' : string) (v : V) (d : dict V) :
  dict_get k' (dict_set k v d)
  = if String.eqb k k' then Some v else dict_get k' d.
Proof.
  induction d as [|[k0 v0] d IH]; cbn.
  - reflexivity.
  - destruct (String.eqb k0 k) eqn:E0.
    + apply String.eqb_eq in E0; subst k0. cbn.
      destruct (String.eqb k k'); reflexivity.
    + cbn. destruct (String.eqb k0 k') eqn:E1.
      * apply String.eqb_eq in E1; subst k0. now rewrite String.eqb_sym, E0.
      * exact IH.
Qed.

Lemma dict_has_set {V} (k k' : string) (v : V) (d : dict V) :
  dict_has k' (dict_set k v d) = String.eqb k k' || dict_has k' d.
Proof.
  unfold dict_has. rewrite dict_get_set.
  destruct (String.eqb k k'); reflexivity.
Qed.

Lemma dict_has_In {V} (k : string) (d : dict V) :
  dict_has k d = true <-> In k (dict_keys d).
Proof.
  unfold dict_has. induction d as [|[k0 v0] d IH]; cbn.
  - split; [discriminate | tauto].
  - destruct (String.eqb k0 k) eqn:E.
    + apply String.eqb_eq in E. split; auto.
    + apply String.eqb_neq in E. rewrite IH. split; [auto|].
      intros [H|H]; [contradiction | exact H].
Qed.

Lemma dict_get_has {V} (k : string) (d : dict V) (v : V) :
  dict_get k d = Some v -> dict_has k d = true.
Proof. unfold dict_has. now intros ->. Qed.

(** Assigning to a present key touches the first entry of that key,
    the one [dict_get] reads, and nothing else. *)
Lemma dict_set_present {V} (k : string) (v : V) (d : dict V) :
  dict_has k d = true ->
  Forall2 (fun before after =>
             fst after = fst before
             /\ (snd after = snd before
                 \/ (fst before = k /\ dict_get k d = Some (snd before)
                     /\ snd after = v)))
          d (dict_set k v d).
Proof.
  assert (Hrefl : forall l : dict V,
             Forall2 (fun before after =>
                        fst after = fst before
                        /\ (snd after = snd before
                            \/ (fst before = k
                                /\ dict_get k d = Some (snd before)
                                /\ snd after = v))) l l).
  { induction l; constructor; auto. }
  unfold dict_has.
  assert (Hgen : forall l : dict V,
             dict_get k l = dict_get k d ->
             (exists x, dict_get k l = Some x) ->
             Forall2 (fun before after =>
                        fst after = fst before
                        /\ (snd after = snd before
                            \/ (fst before = k
                                /\ dict_get k d = Some (snd before)
                                /\ snd after = v))) l (dict_set k v l)).
  { induction l as [|[k0 v0] l IH]; cbn; intros Heq [x Hx].
    - discriminate.
    - destruct (String.eqb k0 k) eqn:E.
      + apply String.eqb_eq in E; subst k0.
        constructor; [|apply Hrefl]. cbn. split; [reflexivity|].
        right. repeat split. now rewrite <- Heq.
      + constructor; [cbn; auto|]. apply IH; [exact Heq | eauto]. }
  intros H. apply Hgen; [reflexivity|].
  destruct (dict_get k d); [eauto | discriminate].
Qed.

End ControlFacts.

(** ** The design-assembly parser: the Stack section *)

Section StackFacts.
Context {F : PyFloat} {B : PyBuiltins} {FS : FileSystem}.

Import DbxParser.

(** [_parse_stack_instance] assigns [loc], [z] and [orient] only. *)
Lemma parse_stack_instance_frame (instance instance' : ChipletInst.t)
    (node : yaml) :
  _parse_stack_instance instance node = Ok instance' ->
  ChipletInst.name instance' = ChipletInst.name instance
  /\ ChipletInst.reference instance' = ChipletInst.reference instance
  /\ ChipletInst.external instance' = ChipletInst.external instance.
Proof.
  unfold _parse_stack_instance. intros H.
  repeat (let x := fresh "x" in
          let Hx := fresh "Hx" in
          apply bind_Ok_inv in H as (x & Hx & H)).
  injection H as <-. cbn. auto.
Qed.

Lemma placement_only_refl (ks : list string) (instances : dict ChipletInst.t) :
  Forall2 (placement_only ks) instances instances.
Proof.
  induction instances; constructor; [|assumption].
  unfold placement_only; auto.
Qed.

Lemma placement_only_trans (ks1 ks2 : list string)
    (d1 d2 d3 : dict ChipletInst.t) :
  Forall2 (placement_only ks1) d1 d2 ->
  Forall2 (placement_only ks2) d2 d3 ->
  Forall2 (placement_only (ks1 ++ ks2)) d1 d3.
Proof.
  intros H12; revert d3; induction H12 as [|a b d1 d2 Hab _ IH];
    intros d3 H23; inversion H23 as [|b' c d2' d3' Hbc Hrest]; subst.
  - constructor.
  - constructor; [|now apply IH].
    destruct Hab as (K1 & N1 & R1 & E1 & W1).
    destruct Hbc as (K2 & N2 & R2 & E2 & W2).
    unfold placement_only. repeat split; try congruence.
    intros Hnot. rewrite W2, W1; [reflexivity | |].
    + intros Hin; apply Hnot, in_or_app; auto.
    + rewrite K1. intros Hin; apply Hnot, in_or_app; auto.
Qed.

(** One turn of the Stack loop. *)
Lemma parse_stack_entry_frame (instances instances' : dict ChipletInst.t)
    (item : string * yaml) :
  _parse_stack_entry instances item = Ok instances' ->
  dict_has (fst item) instances = true
  /\ Forall2 (placement_only [fst item]) instances instances'.
Proof.
  unfold _parse_stack_entry. intros H.
  destruct (dict_has (fst item) instances) eqn:Hb; [|discriminate H].
  cbn in H. split; [reflexivity|].
  destruct (dict_get (fst item) instances) as [instance|] eqn:Hget;
    [|discriminate H].
  apply bind_Ok_inv in H as (placed & Hplaced & H).
  injection H as <-.
  destruct (parse_stack_instance_frame _ _ _ Hplaced) as (N & R & E).
  pose proof (dict_set_present (fst item) placed instances Hb) as Hset.
  eapply Forall2_impl; [|exact Hset].
  intros before after (K & [Same | (Hk & Hfirst & Hnew)]).
  - unfold placement_only. rewrite Same. auto.
  - rewrite Hget in Hfirst. injection Hfirst as Hfirst.
    unfold placement_only. rewrite Hnew, <- Hfirst. repeat split; auto.
    intros Hnot. elim Hnot. left. now symmetry.
Qed.

Lemma parse_stack_loop_frame (items : list (string * yaml))
    (instances instances' : dict ChipletInst.t) :
  for_each _parse_stack_entry items instances = Ok instances' ->
  Forall2 (placement_only (dict_keys items)) instances instances'.
Proof.
  revert instances; induction items as [|item items IH];
    intros instances H; cbn in H.
  - injection H as <-. apply placement_only_refl.
  - apply bind_Ok_inv in H as (mid & Hitem & Hrest).
    apply parse_stack_entry_frame in Hitem as [_ Hitem].
    apply IH in Hrest.
    exact (placement_only_trans [fst item] (dict_keys items) _ _ _
             Hitem Hrest).
Qed.

Lemma placement_only_keys (ks : list string)
    (d d' : dict ChipletInst.t) :
  Forall2 (placement_only ks) d d' -> dict_keys d' = dict_keys d.
Proof.
  unfold dict_keys.
  induction 1 as [|a b d d' Hab _ IH]; cbn; [reflexivity|].
  destruct Hab as (K & _). now rewrite K, IH.
Qed.

Lemma placement_only_get (ks : list string) (d d' : dict ChipletInst.t)
    (k : string) (instance : ChipletInst.t) :
  Forall2 (placement_only ks) d d' ->
  dict_get k d = Some instance ->
  exists instance',
    dict_get k d' = Some instance'
    /\ placement_only ks (k, instance) (k, instance').
Proof.
  induction 1 as [|[k1 v1] [k2 v2] d d' Hab _ IH]; cbn; [discriminate|].
  pose proof Hab as (K & N & R & E & W). cbn in K, N, R, E, W. subst k2.
  destruct (String.eqb k1 k) eqn:Ek.
  - intros [= <-]. apply String.eqb_eq in Ek; subst k1.
    exists v2. split; [reflexivity|]. unfold placement_only; cbn; auto.
  - exact IH.
Qed.

(** C10: a Stack section that parses leaves the instance dictionary
    with the same entries in the same order, each with its [name],
    [reference] and [external] as the ChipletInst section left them,
    and every entry whose name is not a key of the Stack map as a
    whole as it was: only [loc], [z] and [orient] of the instances
    named in the Stack map are assigned. *)
Theorem stack_assigns_placement_only :
  forall (instances instances' : dict ChipletInst.t) (stack_node : yaml),
    _parse_stack instances stack_node = Ok instances' ->
    exists items,
      stack_node = YMap items
      /\ Forall2 (placement_only (dict_keys items)) instances instances'
      /\ dict_keys instances' = dict_keys instances
      /\ (forall k instance,
             dict_get k instances = Some instance ->
             exists instance',
               dict_get k instances' = Some instance'
               /\ ChipletInst.name instance' = ChipletInst.name instance
               /\ ChipletInst.reference instance'
                  = ChipletInst.reference instance
               /\ ChipletInst.external instance'
                  = ChipletInst.external instance
               /\ (~ In k (dict_keys items) -> instance' = instance)).
Proof.
  intros instances instances' stack_node H.
  unfold _parse_stack in H.
  apply bind_Ok_inv in H as (items & Hitems & Hloop).
  destruct stack_node; try discriminate Hitems.
  injection Hitems as ->.
  apply parse_stack_loop_frame in Hloop.
  exists items. split; [reflexivity|]. split; [exact Hloop|].
  split; [exact (placement_only_keys _ _ _ Hloop)|].
  intros k instance Hget.
  destruct (placement_only_get _ _ _ k instance Hloop Hget)
    as (instance' & Hget' & _ & N & R & E & W).
  exists instance'. cbn in N, R, E, W. auto.
Qed.

(** The loop keeps the keys of the dictionary. *)
Lemma parse_stack_loop_has (items : list (string * yaml))
    (instances instances' : dict ChipletInst.t) (k : string) :
  for_each _parse_stack_entry items instances = Ok instances' ->
  dict_has k instances' = dict_has k instances.
Proof.
  intros H. apply parse_stack_loop_frame, placement_only_keys in H.
  destruct (dict_has k instances) eqn:E.
  - apply dict_has_In. rewrite H. now apply dict_has_In.
  - destruct (dict_has k instances') eqn:E'; [|reflexivity].
    apply dict_has_In in E'. rewrite H in E'. apply dict_has_In in E'.
    congruence.
Qed.

(** The turn of the loop that meets an unknown name. *)
Lemma parse_stack_entry_unknown (instances : dict ChipletInst.t)
    (k : string) (node : yaml) :
  dict_has k instances = false ->
  _parse_stack_entry instances (k, node)
  = log_error ("DBX Stack instance '" ++ k ++ "' not found in ChipletInst").
Proof. unfold _parse_stack_entry. cbn [fst]. now intros ->. Qed.

Lemma parse_stack_unknown_fails (items : list (string * yaml))
    (instances : dict ChipletInst.t) (k : string) :
  In k (dict_keys items) ->
  dict_has k instances = false ->
  is_ok (for_each _parse_stack_entry items instances) = false.
Proof.
  revert instances; induction items as [|item items IH];
    intros instances Hin Hk; [contradiction|].
  cbn [for_each].
  destruct (_parse_stack_entry instances item) as [mid|e lg] eqn:E;
    [|reflexivity].
  cbn [bind].
  pose proof (parse_stack_loop_has [item] instances mid k) as Hkeys.
  cbn [for_each] in Hkeys. rewrite E in Hkeys.
  specialize (Hkeys eq_refl).
  apply parse_stack_entry_frame in E as [Hitem _].
  destruct Hin as [<-|Hin]; [congruence|].
  apply IH; [exact Hin | congruence].
Qed.

Lemma parse_stack_unknown_error (pre post : list (string * yaml))
    (instances mid : dict ChipletInst.t) (k : string) (node : yaml) :
  dict_has k instances = false ->
  for_each _parse_stack_entry pre instances = Ok mid ->
  for_each _parse_stack_entry (pre ++ (k, node) :: post) instances
  = log_error ("DBX Stack instance '" ++ k ++ "' not found in ChipletInst").
Proof.
  intros Hk Hpre.
  eapply for_each_raises; [exact Hpre|].
  apply parse_stack_entry_unknown.
  now rewrite (parse_stack_loop_has _ _ _ k Hpre).
Qed.

(** The ChipletInst section makes instances of the names of its map
    only. *)
Lemma parse_chiplet_insts_has (self : BaseParser.t)
    (items : list (string * yaml)) (acc acc' : dict ChipletInst.t)
    (k : string) :
  for_each (_parse_chiplet_insts_entry self) items acc = Ok acc' ->
  dict_has k acc' = true ->
  dict_has k acc = true \/ dict_has k items = true.
Proof.
  revert acc; induction items as [|[k0 n0] items IH]; intros acc H Hk.
  - injection H as <-. auto.
  - cbn [for_each] in H. apply bind_Ok_inv in H as (mid & Hmid & H).
    apply bind_Ok_inv in Hmid as (instance & _ & Hmid).
    injection Hmid as <-. cbn [fst] in H.
    destruct (IH _ H Hk) as [Hin|Hin].
    + rewrite dict_has_set in Hin. apply orb_true_iff in Hin as [Hin|Hin].
      * right. unfold dict_has. cbn. now rewrite Hin.
      * now left.
    + right. unfold dict_has in *. cbn.
      destruct (String.eqb k0 k); [reflexivity | exact Hin].
Qed.

(** C4: when a key of the Stack map is no key of the ChipletInst map,
    the parse of the document fails, and so does the Stack section on
    any instance dictionary without that key; the turn of the Stack
    loop that meets the key raises the Parser Error that names it, so
    that this is the error of the section when the entries before it
    have been placed. *)
Theorem stack_key_must_be_instance :
  forall (self : BaseParser.t) (m : dict yaml)
         (items : list (string * yaml)) (k : string),
    dict_get "Stack" m = Some (YMap items) ->
    In k (dict_keys items) ->
    (forall insts, dict_get "ChipletInst" m = Some (YMap insts) ->
                   dict_has k insts = false) ->
    is_ok (_parse_yaml_root self (YMap m)) = false
    /\ (forall instances,
           dict_has k instances = false ->
           is_ok (_parse_stack instances (YMap items)) = false)
    /\ (forall instances mid pre node post,
           items = (pre ++ (k, node) :: post)%list ->
           dict_has k instances = false ->
           for_each _parse_stack_entry pre instances = Ok mid ->
           _parse_stack instances (YMap items)
           = log_error ("DBX Stack instance '" ++ k
                        ++ "' not found in ChipletInst")).
Proof.
  intros self m items k HStack Hin Hinst.
  assert (Hsection : forall instances,
             dict_has k instances = false ->
             is_ok (_parse_stack instances (YMap items)) = false).
  { intros instances Hk. unfold _parse_stack. cbn [py_items bind].
    now apply parse_stack_unknown_fails with (k := k). }
  split; [|split].
  - unfold _parse_yaml_root. cbn [root_or_empty].
    repeat match goal with
           | |- is_ok (bind (when_in "Stack" _ _ _) _) = false => fail 1
           | |- is_ok (bind ?c _) = false =>
               let E := fresh "E" in
               destruct c eqn:E; cbn [bind]; [|reflexivity]
           end.
    match goal with
    | E : when_in "ChipletInst" _ _ _ = Ok ?ci |- _ =>
        assert (Hci : dict_has k ci = false)
    end.
    { unfold when_in in E1. cbn [py_contains bind] in E1.
      destruct (dict_has "ChipletInst" m) eqn:Hhas.
      - apply bind_Ok_inv in E1 as (v & Hv & E1).
        cbn [py_getitem] in Hv.
        destruct (dict_get "ChipletInst" m) as [v'|] eqn:Hget;
          [|discriminate Hv].
        injection Hv as ->.
        unfold _parse_chiplet_insts in E1.
        apply bind_Ok_inv in E1 as (insts & Hitems & E1).
        destruct v; try discriminate Hitems. injection Hitems as ->.
        destruct (dict_has k a1) eqn:Hk; [|reflexivity].
        destruct (parse_chiplet_insts_has _ _ _ _ _ E1 Hk) as [H|H].
        + discriminate H.
        + now rewrite (Hinst _ eq_refl) in H.
      - injection E1 as <-. reflexivity. }
    unfold when_in at 1. cbn [py_contains bind].
    rewrite (dict_get_has _ _ _ HStack). cbn [py_getitem].
    rewrite HStack. cbn [bind].
    specialize (Hsection _ Hci).
    destruct (_parse_stack a1 (YMap items)); [discriminate | reflexivity].
  - exact Hsection.
  - intros instances mid pre node post -> Hk Hpre.
    unfold _parse_stack. cbn [py_items bind].
    now apply parse_stack_unknown_error with (mid := mid).
Qed.

End StackFacts.

Lemma stack_assigns_placement_only_witness :
  DbxParser._parse_stack (B := Interp.builtins) Examples.instances Examples.stack
  = Ok Examples.placed
  /\ exists items,
      Examples.stack = YMap items
      /\ Forall2 (placement_only (dict_keys items))
           Examples.instances Examples.placed
      /\ dict_keys Examples.placed = dict_keys Examples.instances
      /\ (forall k instance,
             dict_get k Examples.instances = Some instance ->
             exists instance',
               dict_get k Examples.placed = Some instance'
               /\ ChipletInst.name instance' = ChipletInst.name instance
               /\ ChipletInst.reference instance'
                  = ChipletInst.reference instance
               /\ ChipletInst.external instance'
                  = ChipletInst.external instance
               /\ (~ In k (dict_keys items) -> instance' = instance)).
Proof.
  split; [reflexivity|].
  apply (stack_assigns_placement_only (B := Interp.builtins)).
  reflexivity.
Defined.


Lemma stack_key_must_be_instance_witness :
  is_ok (DbxParser._parse_yaml_root (B := Interp.builtins)
           (FS := Interp.file_system) Examples.parser
           (YMap Examples.design_ghost)) = false
  /\ DbxParser._parse_stack (B := Interp.builtins) Examples.instances
       Examples.stack_ghost
     = log_error "DBX Stack instance 'ghost' not found in ChipletInst".
Proof.
  destruct (stack_key_must_be_instance (B := Interp.builtins)
              (FS := Interp.file_system) Examples.parser Examples.design_ghost
              [("a", Examples.placement (YInt 3));
               ("ghost", Examples.placement (YInt 4))] "ghost")
    as (Hdoc & _ & Hsection).
  - reflexivity.
  - right; left; reflexivity.
  - intros insts H. injection H as <-. reflexivity.
  - split; [exact Hdoc|].
    apply (Hsection Examples.instances Examples.placed
             [("a", Examples.placement (YInt 3))]
             (Examples.placement (YInt 4)) []); reflexivity.
Defined.

(** ** The design-assembly parser: connections and conversions *)

Section DbxFacts.
Context {F : PyFloat} {B : PyBuiltins} {FS : FileSystem}.

Import DbxParser.

(** [extract_value] as [str] on a present key of a mapping: null
    gives [None], any other value its [str]. *)
Lemma extract_value_str (m : dict yaml) (key : string) (v : yaml) :
  dict_get key m = Some v ->
  extract_value (YMap m) key VT_str
  = Ok (match v with YNull => None | _ => Some (py_str v) end).
Proof.
  intros H. unfold extract_value. cbn [py_contains bind].
  rewrite (dict_get_has _ _ _ H). cbn [negb py_getitem].
  rewrite H. destruct v; reflexivity.
Qed.

Lemma dict_has_get {V} (k : string) (d : dict V) :
  dict_has k d = true -> exists v, dict_get k d = Some v.
Proof. unfold dict_has. destruct (dict_get k d); [eauto | discriminate]. Qed.

(** C7: a connection whose mapping lacks [top], or has [top] and
    lacks [bot], is refused with the Parser Error that names the
    connection; with both keys present and [bot] null, and
    [thickness] absent or convertible to a float, the connection is
    built and its [bot] is [None]. *)
Theorem connection_requires_top_and_bot :
  forall (connection : Connection.t) (m : dict yaml),
    (dict_has "top" m = false ->
     _parse_connection connection (YMap m)
     = log_error ("DBX Connection top is required for connection "
                  ++ Connection.name connection))
    /\ (dict_has "top" m = true ->
        dict_has "bot" m = false ->
        _parse_connection connection (YMap m)
        = log_error ("DBX Connection bot is required for connection "
                     ++ Connection.name connection))
    /\ (forall (top_node : yaml) (thickness : pyfloat),
           dict_get "top" m = Some top_node ->
           dict_get "bot" m = Some YNull ->
           (dict_get "thickness" m = None
            /\ thickness = Connection.thickness connection)
           \/ (exists v, dict_get "thickness" m = Some v
                         /\ py_float v = Ok thickness) ->
           _parse_connection connection (YMap m)
           = Ok (Connection.mk _ (Connection.name connection)
                   (match top_node with
                    | YNull => None
                    | _ => Some (py_str top_node)
                    end)
                   None thickness)).
Proof.
  intros connection m. split; [|split].
  - intros Htop. unfold _parse_connection. cbn [py_contains bind].
    now rewrite Htop.
  - intros Htop Hbot. unfold _parse_connection. cbn [py_contains bind].
    rewrite Htop. cbn [negb bind].
    destruct (dict_has_get _ _ Htop) as (v & Hv).
    rewrite (extract_value_str _ _ _ Hv). cbn [bind].
    now rewrite Hbot.
  - intros top_node thickness Htop Hbot Hthick.
    unfold _parse_connection. cbn [py_contains bind].
    rewrite (dict_get_has _ _ _ Htop). cbn [negb bind].
    rewrite (extract_value_str _ _ _ Htop). cbn [bind].
    rewrite (dict_get_has _ _ _ Hbot). cbn [negb bind].
    rewrite (extract_value_str _ _ _ Hbot). cbn [bind].
    unfold when_in. cbn [py_contains bind]. unfold dict_has.
    destruct Hthick as [[Hnone ->] | (v & Hv & Hfloat)].
    + now rewrite Hnone.
    + rewrite Hv. cbn [py_getitem]. rewrite Hv. cbn [bind].
      now rewrite Hfloat.
Qed.

(** A [z] that is a [str] and no float literal ends the Stack entry
    in the [ValueError] of [float], which no handler turns into a
    Parser Error and which is not logged. *)
Lemma stack_z_not_a_float (instance : ChipletInst.t) (m : dict yaml)
    (loc_node : yaml) (loc : Coordinate.t) (s : string) :
  dict_get "loc" m = Some loc_node ->
  parse_coordinate loc_node = Ok loc ->
  dict_get "z" m = Some (YStr s) ->
  float_of_str s = None ->
  _parse_stack_instance instance (YMap m)
  = Raise (Exn ValueError (builtin_error "float" (YStr s))) [].
Proof.
  intros Hloc Hcoord Hz Hs. unfold _parse_stack_instance.
  cbn [py_contains bind]. rewrite (dict_get_has _ _ _ Hloc).
  cbn [negb bind py_getitem]. rewrite Hloc. cbn [bind].
  rewrite Hcoord. cbn [bind]. rewrite (dict_get_has _ _ _ Hz).
  cbn [negb bind]. rewrite Hz. cbn [bind py_float]. now rewrite Hs.
Qed.

End DbxFacts.

Lemma connection_requires_top_and_bot_witness :
  DbxParser._parse_connection (B := Interp.builtins)
    (Connection.default "c1") (YMap [("bot", YNull)])
  = log_error "DBX Connection top is required for connection c1"
  /\ DbxParser._parse_connection (B := Interp.builtins)
       (Connection.default "c1") (YMap [("top", YStr "a.regions.r1")])
     = log_error "DBX Connection bot is required for connection c1"
  /\ DbxParser._parse_connection (B := Interp.builtins)
       (Connection.default "c1") (YMap Examples.virtual_connection)
     = Ok (Connection.mk Interp.floats "c1" (Some "a.regions.r1") None
             (inject_Z 0)).
Proof.
  split; [|split].
  - apply (proj1 (connection_requires_top_and_bot (B := Interp.builtins)
                    (Connection.default "c1") [("bot", YNull)])).
    reflexivity.
  - apply (proj1 (proj2 (connection_requires_top_and_bot
                           (B := Interp.builtins) (Connection.default "c1")
                           [("top", YStr "a.regions.r1")])));
      reflexivity.
  - apply (proj2 (proj2 (connection_requires_top_and_bot
                           (B := Interp.builtins) (Connection.default "c1")
                           Examples.virtual_connection))
             (YStr "a.regions.r1") (inject_Z 0));
      [reflexivity | reflexivity | left; split; reflexivity].
Defined.

(** ** The chiplet-library parser *)

Section DbvFacts.
Context {F : PyFloat} {B : PyBuiltins} {FS : FileSystem}.

Import DbvParser.

(** What a successful [_parse_chiplet] went through. *)
Lemma parse_chiplet_inv (self : BaseParser.t) (chiplet parsed : ChipletDef.t)
    (node : yaml) :
  _parse_chiplet self chiplet node = Ok parsed ->
  exists type_node area,
    py_getitem node "type" = Ok type_node
    /\ design_area_block chiplet node = Ok area
    /\ ChipletDef.name parsed = ChipletDef.name chiplet
    /\ ChipletDef.type parsed = py_str type_node
    /\ ChipletDef.design_width parsed = fst area
    /\ ChipletDef.design_height parsed = snd area.
Proof.
  unfold _parse_chiplet. intros H.
  apply bind_Ok_inv in H as (has_type & _ & H).
  apply bind_Ok_inv in H as (_u & _ & H).
  apply bind_Ok_inv in H as (type_node & Htype & H).
  apply bind_Ok_inv in H as (area & Harea & H).
  repeat (let x := fresh "x" in
          let Hx := fresh "Hx" in
          apply bind_Ok_inv in H as (x & Hx & H)).
  repeat match type of H with
         | context [let '(_, _) := ?p in _] => destruct p
         end.
  injection H as <-.
  exists type_node, area. cbn. repeat split; assumption.
Qed.




(** C6: a chiplet that parses with a [design_area] of two elements
    has the float of the first as [design_width] and the float of the
    second as [design_height], that is the elements themselves when
    they are floats; a chiplet given by [type] and such a
    [design_area] alone does parse. A [design_area] that is not a
    sequence of two elements makes the chiplet fail with a Parser
    Error that names the chiplet: the one of [design_area], or the
    one of [type] when that is missing too. *)
Theorem design_area_is_width_and_height :
  forall (self : BaseParser.t) (chiplet : ChipletDef.t) (m : dict yaml),
    (forall (w h : yaml) (parsed : ChipletDef.t),
        dict_get "design_area" m = Some (YList [w; h]) ->
        _parse_chiplet self chiplet (YMap m) = Ok parsed ->
        py_float w = Ok (ChipletDef.design_width parsed)
        /\ py_float h = Ok (ChipletDef.design_height parsed))
    /\ (forall (w h : pyfloat) (parsed : ChipletDef.t),
           dict_get "design_area" m = Some (YList [YFloat w; YFloat h]) ->
           _parse_chiplet self chiplet (YMap m) = Ok parsed ->
           ChipletDef.design_width parsed = w
           /\ ChipletDef.design_height parsed = h)
    /\ (forall (t w h : yaml) (fw fh : pyfloat),
           m = [("type", t); ("design_area", YList [w; h])] ->
           py_float w = Ok fw ->
           py_float h = Ok fh ->
           exists parsed,
             _parse_chiplet self chiplet (YMap m) = Ok parsed
             /\ ChipletDef.design_width parsed = fw
             /\ ChipletDef.design_height parsed = fh)
    /\ (forall v : yaml,
           dict_get "design_area" m = Some v ->
           is_pair v = false ->
           _parse_chiplet self chiplet (YMap m)
           = log_error
               ((if dict_has "type" m
                 then "design_area must have 2 values for chiplet "
                 else "Chiplet type is required for chiplet ")
                ++ ChipletDef.name chiplet)).
Proof.
  intros self chiplet m.
  assert (Hfloats : forall (w h : yaml) (parsed : ChipletDef.t),
             dict_get "design_area" m = Some (YList [w; h]) ->
             _parse_chiplet self chiplet (YMap m) = Ok parsed ->
             py_float w = Ok (ChipletDef.design_width parsed)
             /\ py_float h = Ok (ChipletDef.design_height parsed)).
  { intros w h parsed Harea H.
    apply parse_chiplet_inv in H
      as (type_node & area & _ & Hblock & _ & _ & -> & ->).
    unfold design_area_block, when_in in Hblock.
    cbn [py_contains bind] in Hblock.
    rewrite (dict_get_has _ _ _ Harea) in Hblock.
    cbn [py_getitem] in Hblock. rewrite Harea in Hblock.
    cbn [bind] in Hblock.
    apply bind_Ok_inv in Hblock as (fw & Hw & Hblock).
    apply bind_Ok_inv in Hblock as (fh & Hh & Hblock).
    injection Hblock as <-. cbn [fst snd]. auto. }
  split; [exact Hfloats | split; [|split]].
  - intros w h parsed Harea H.
    destruct (Hfloats _ _ _ Harea H) as [Hw Hh].
    cbn [py_float] in Hw, Hh. split; congruence.
  - intros t w h fw fh -> Hw Hh.
    unfold _parse_chiplet, design_area_block, four_sides, float_field,
      when_in.
    cbn. rewrite Hw. cbn. rewrite Hh. cbn.
    eexists. split; [reflexivity|]. cbn. auto.
  - intros v Harea Hpair.
    unfold _parse_chiplet. cbn [py_contains bind].
    destruct (dict_has "type" m) eqn:Htype; [|reflexivity].
    cbn [negb bind py_getitem].
    destruct (dict_has_get _ _ Htype) as (t & Ht). rewrite Ht.
    cbn [bind]. unfold design_area_block, when_in at 1.
    cbn [py_contains bind].
    rewrite (dict_get_has _ _ _ Harea). cbn [py_getitem].
    rewrite Harea. cbn [bind].
    destruct v as [| | | | |[|a0 [|a1 [|a2 l]]]|]; try reflexivity.
    discriminate Hpair.
Qed.

End DbvFacts.

(** ** The bump-map parser *)

Section BmapFacts.
Context {F : PyFloat} {B : PyBuiltins}.

Import BmapParser.

Lemma enumerate_app {A} (start : nat) (l1 l2 : list A) :
  enumerate start (l1 ++ l2)
  = (enumerate start l1 ++ enumerate (start + List.length l1) l2)%list.
Proof.
  revert start; induction l1 as [|a l1 IH]; intros start; cbn.
  - now rewrite Nat.add_0_r.
  - rewrite IH. now rewrite Nat.add_succ_r.
Qed.

Lemma parse_line_columns (line : string) (line_number : nat) :
  List.length (split line) <> 6%nat ->
  _parse_line line line_number
  = raise ValueError
      ("Line has " ++ of_nat (List.length (split line))
       ++ " columns, expected 6. "
       ++ "Format: bumpInstName bumpCellType x y portName netName").
Proof.
  unfold _parse_line. intros H.
  destruct (split line) as [|a [|b [|c [|d [|e [|f [|g l]]]]]]];
    try reflexivity.
  now elim H.
Qed.

(** C8: [_parse_content] passes over a line that is blank or whose
    first character that is not white space is [#]. Any other line is
    split at white space: when it does not have six columns (five or
    seven, say), or when its third or fourth column is no float, the
    parse of the whole file ends there in an error that gives the
    file and the line number, whatever follows; when it has six
    columns with floats third and fourth, its entry is appended, so
    that [b0 TYPE1 10.5 20.25 P1 NET1] yields the entry of [b0],
    [TYPE1], the floats of [10.5] and [20.25], [P1] and [NET1]. *)
Theorem bump_map_lines :
  forall (self : BmapParser.t) (entries : list BumpMapEntry.t)
         (line_number : nat) (line : string),
    (first_non_space line = None \/ first_non_space line = Some "#"%char ->
     _parse_content_line self entries (line_number, line) = Ok entries)
    /\ (forall c : ascii,
           first_non_space line = Some c ->
           c <> "#"%char ->
           List.length (split (strip line)) <> 6%nat ->
           _parse_content_line self entries (line_number, line)
           = column_error (file_str self) line_number
               (List.length (split (strip line))))
    /\ (forall (c : ascii) (inst cell tx ty port net : string),
           first_non_space line = Some c ->
           c <> "#"%char ->
           split (strip line) = [inst; cell; tx; ty; port; net] ->
           match float_of_str tx, float_of_str ty with
           | Some x, Some y =>
               _parse_content_line self entries (line_number, line)
               = Ok (entries
                       ++ [BumpMapEntry.mk _ inst cell x y port net])%list
           | None, _ =>
               _parse_content_line self entries (line_number, line)
               = coordinate_error (file_str self) line_number tx
           | Some _, None =>
               _parse_content_line self entries (line_number, line)
               = coordinate_error (file_str self) line_number ty
           end)
    /\ (forall (content : string) (pre post : list string)
               (e : exn) (lg : list string),
           splitlines content = (pre ++ line :: post)%list ->
           line_number = S (List.length pre) ->
           for_each (_parse_content_line self) (enumerate 1%nat pre) []
           = Ok entries ->
           _parse_content_line self entries (line_number, line)
           = Raise e lg ->
           _parse_content self content = Raise e lg)
    /\ (forall x y : pyfloat,
           float_of_str "10.5" = Some x ->
           float_of_str "20.25" = Some y ->
           _parse_content self "b0 TYPE1 10.5 20.25 P1 NET1"
           = Ok (BumpMapData.mk _
                   [BumpMapEntry.mk _ "b0" "TYPE1" x y "P1" "NET1"])).
Proof.
  intros self entries line_number line.
  assert (Hkept : forall c : ascii,
             first_non_space line = Some c -> c <> "#"%char ->
             String.eqb (strip line) "" || startswith (strip line) "#"
             = false).
  { intros c Hc Hne. rewrite skipped_first_non_space, Hc.
    now apply Ascii.eqb_neq. }
  assert (Hentry : forall (l : string) (n : nat)
                          (inst cell tx ty port net : string)
                          (x y : pyfloat) (acc : list BumpMapEntry.t),
             String.eqb (strip l) "" || startswith (strip l) "#" = false ->
             split (strip l) = [inst; cell; tx; ty; port; net] ->
             float_of_str tx = Some x ->
             float_of_str ty = Some y ->
             _parse_content_line self acc (n, l)
             = Ok (acc ++ [BumpMapEntry.mk _ inst cell x y port net])%list).
  { intros l n inst cell tx ty port net x y acc Hk Htokens Hx Hy.
    unfold _parse_content_line. cbn [fst snd].
    rewrite Hk. unfold _parse_line. rewrite Htokens.
    cbn [py_float]. rewrite Hx. cbn [bind try_except]. rewrite Hy.
    reflexivity. }
  split; [|split; [|split; [|split]]].
  - intros Hskip. unfold _parse_content_line. cbn [fst snd].
    rewrite skipped_first_non_space.
    destruct Hskip as [-> | ->]; reflexivity.
  - intros c Hc Hne Hcols. unfold _parse_content_line. cbn [fst snd].
    rewrite (Hkept c Hc Hne).
    now rewrite (parse_line_columns _ _ Hcols).
  - intros c inst cell tx ty port net Hc Hne Htokens.
    unfold _parse_content_line. cbn [fst snd].
    rewrite (Hkept c Hc Hne). unfold _parse_line. rewrite Htokens.
    cbn [py_float].
    destruct (float_of_str tx) as [x|]; [|reflexivity].
    destruct (float_of_str ty) as [y|]; reflexivity.
  - intros content pre post e lg Hlines -> Hpre Hline.
    unfold _parse_content. rewrite Hlines, enumerate_app. cbn [enumerate].
    cbn [BumpMapData.default BumpMapData.entries].
    rewrite (for_each_raises _ _ _ _ _ _ e lg Hpre); [reflexivity|].
    exact Hline.
  - intros x y Hx Hy. unfold _parse_content.
    replace (splitlines "b0 TYPE1 10.5 20.25 P1 NET1")
      with ["b0 TYPE1 10.5 20.25 P1 NET1"] by (vm_compute; reflexivity).
    cbn [enumerate for_each bind BumpMapData.default BumpMapData.entries].
    rewrite (Hentry _ _ "b0" "TYPE1" "10.5" "20.25" "P1" "NET1" x y);
      try assumption; try (vm_compute; reflexivity).
Qed.

End BmapFacts.

Lemma bump_map_lines_witness :
  BmapParser._parse_content_line (B := Interp.builtins) Examples.bump_parser []
    (1%nat, "   # bumps") = Ok []
  /\ BmapParser._parse_content (B := Interp.builtins) Examples.bump_parser
       Examples.bump_map_short_line
     = column_error "/a/b/x.bmap" 4 5
  /\ BmapParser._parse_content (B := Interp.builtins) Examples.bump_parser
       "b0 TYPE1 10.5 20.25 P1 NET1"
     = Ok (BumpMapData.mk _ [Examples.bump_b0]).
Proof.
  split; [|split].
  - apply (proj1 (bump_map_lines (B := Interp.builtins) Examples.bump_parser
                    [] 1%nat "   # bumps")).
    right. reflexivity.
  - destruct (bump_map_lines (B := Interp.builtins) Examples.bump_parser
                [Examples.bump_b0] 4%nat "b1 TYPE1 1 2 P2")
      as (_ & Hcolumns & _ & Habort & _).
    apply (Habort Examples.bump_map_short_line
             ["# bumps"; ""; "b0 TYPE1 10.5 20.25 P1 NET1"] []);
      [reflexivity | reflexivity | reflexivity |].
    apply (Hcolumns "b"%char); [reflexivity | discriminate | discriminate].
  - apply (proj2 (proj2 (proj2 (proj2
             (bump_map_lines (B := Interp.builtins) Examples.bump_parser
                [] 1%nat ""))))); reflexivity.
Defined.


Lemma design_area_is_width_and_height_witness :
  (exists parsed : @ChipletDef.t Interp.floats,
      DbvParser._parse_chiplet (B := Interp.builtins)
        (FS := Interp.file_system) Examples.parser
        (ChipletDef.default "c1") (YMap Examples.chiplet_with_area)
      = Ok parsed
      /\ ChipletDef.design_width parsed = inject_Z 100
      /\ ChipletDef.design_height parsed = inject_Z 200)
  /\ DbvParser._parse_chiplet (B := Interp.builtins)
       (FS := Interp.file_system) Examples.parser
       (ChipletDef.default "c1") (YMap Examples.chiplet_with_volume)
     = log_error "design_area must have 2 values for chiplet c1"
  /\ DbvParser._parse_chiplet (B := Interp.builtins)
       (FS := Interp.file_system) Examples.parser
       (ChipletDef.default "c1")
       (YMap [("type", YStr "die"); ("design_area", YList [YInt 100])])
     = log_error "design_area must have 2 values for chiplet c1".
Proof.
  split; [|split].
  - eexists. split; [reflexivity|].
    apply (proj1 (proj2 (design_area_is_width_and_height
                           (B := Interp.builtins) (FS := Interp.file_system)
                           Examples.parser (ChipletDef.default "c1")
                           Examples.chiplet_with_area)));
      reflexivity.
  - eapply (proj2 (proj2 (proj2 (design_area_is_width_and_height
                            (B := Interp.builtins) (FS := Interp.file_system)
                            Examples.parser (ChipletDef.default "c1")
                            Examples.chiplet_with_volume))));
      reflexivity.
  - eapply (proj2 (proj2 (proj2 (design_area_is_width_and_height
                            (B := Interp.builtins) (FS := Interp.file_system)
                            Examples.parser (ChipletDef.default "c1")
                            [("type", YStr "die");
                             ("design_area", YList [YInt 100])]))));
      reflexivity.
Defined.

(** ** The path resolver *)

Section ResolverFacts.
Context {FS : FileSystem}.

(** A pattern without [*] resolves to its one path, whether or not
    anything exists there. *)
Lemma resolve_paths_plain (self : BaseParser.t) (path_pattern : string) :
  contains "*" path_pattern = false ->
  resolve_paths self path_pattern
  = Ok [to_str (resolve_path self path_pattern)].
Proof. intros H. unfold resolve_paths. now rewrite H. Qed.

(** A pattern with [*] whose directory is missing ends in the Parser
    Error of [log_error]: the [return []] behind it is never
    reached. *)
Lemma resolve_paths_missing_directory (self : BaseParser.t)
    (path_pattern : string) :
  contains "*" path_pattern = true ->
  fs_exists (parent (resolve_path self path_pattern)) = false
  \/ fs_is_dir (parent (resolve_path self path_pattern)) = false ->
  resolve_paths self path_pattern
  = log_error ("Directory does not exist: "
               ++ to_str (parent (resolve_path self path_pattern))).
Proof.
  intros Hstar Hdir. unfold resolve_paths. rewrite Hstar.
  destruct Hdir as [-> | ->]; [reflexivity|].
  now rewrite orb_true_r.
Qed.

End ResolverFacts.

(** C1 fails on the code: for the parser of [/a/b/design.3dbx] the
    pattern [../missing/*.lef] has the directory [/a/missing], which
    does not exist; [resolve_paths] logs and raises the Parser Error
    instead of returning the empty list, and a library that includes
    the pattern does not parse. *)
Theorem resolve_paths_missing_directory_aborts :
  contains "*" "../missing/*.lef" = true
  /\ to_str (parent (resolve_path (FS := Interp.file_system) Examples.parser
                       "../missing/*.lef")) = "/a/missing"
  /\ fs_exists (FileSystem := Interp.file_system)
       (parent (resolve_path (FS := Interp.file_system) Examples.parser
                  "../missing/*.lef")) = false
  /\ resolve_paths (FS := Interp.file_system) Examples.parser
       "../missing/*.lef"
     = Raise (Exn ParserError
                "Parser Error: Directory does not exist: /a/missing")
             ["Parser Error: Directory does not exist: /a/missing"]
  /\ resolve_paths (FS := Interp.file_system) Examples.parser
       "../missing/*.lef" <> Ok []
  /\ DbvParser._parse_yaml_root (B := Interp.builtins)
       (FS := Interp.file_system) Examples.parser
       Examples.library_missing_include
     = log_error "Directory does not exist: /a/missing".
Proof.
  repeat split; try reflexivity.
  rewrite (resolve_paths_missing_directory (FS := Interp.file_system)
             Examples.parser "../missing/*.lef" eq_refl (or_introl eq_refl)).
  discriminate.
Qed.

(** ** Conversions that fail *)

Section ConversionFacts.
Context {F : PyFloat} {B : PyBuiltins} {D : YamlDecoder} {FS : FileSystem}.

(** Of what the parse of the decoded document raises,
    [_parse_yaml_content] handles [yaml.YAMLError] alone: any other
    exception reaches the caller as it is. *)
Lemma dbx_content_raises (self : BaseParser.t) (content : string)
    (root : yaml) (e : exn) (lg : list string) :
  safe_load content = inl root ->
  DbxParser._parse_yaml_root self root = Raise e lg ->
  exn_class e <> YAMLError ->
  DbxParser._parse_yaml_content self content = Raise e lg.
Proof.
  intros Hload Hroot Hclass.
  unfold DbxParser._parse_yaml_content, load. rewrite Hload.
  cbn [bind]. rewrite Hroot. unfold try_except. cbn [existsb].
  destruct (exn_class e); try reflexivity. now elim Hclass.
Qed.

Lemma dbv_content_raises (self : BaseParser.t) (content : string)
    (root : yaml) (e : exn) (lg : list string) :
  safe_load content = inl root ->
  DbvParser._parse_yaml_root self root = Raise e lg ->
  exn_class e <> YAMLError ->
  DbvParser._parse_yaml_content self content = Raise e lg.
Proof.
  intros Hload Hroot Hclass.
  unfold DbvParser._parse_yaml_content, load. rewrite Hload.
  cbn [bind]. rewrite Hroot. unfold try_except. cbn [existsb].
  destruct (exn_class e); try reflexivity. now elim Hclass.
Qed.

End ConversionFacts.

(** C2 fails on the code: a Stack [z] of [abc], a Header [precision]
    of [high] and a chiplet [thickness] of [thick] each end the parse
    in the [ValueError] of the conversion, which is not a Parser Error
    and is not logged. *)
Theorem conversion_failures_are_value_errors :
  DbxParser._parse_yaml_root (B := Interp.builtins)
    (FS := Interp.file_system) Examples.parser Examples.design_bad_z
  = Raise (Exn ValueError (@builtin_error _ Interp.builtins "float" (YStr "abc"))) []
  /\ DbxParser._parse_yaml_root (B := Interp.builtins)
       (FS := Interp.file_system) Examples.parser
       Examples.header_bad_precision
     = Raise (Exn ValueError (@builtin_error _ Interp.builtins "int" (YStr "high"))) []
  /\ DbvParser._parse_yaml_root (B := Interp.builtins)
       (FS := Interp.file_system) Examples.parser
       Examples.library_bad_thickness
     = Raise (Exn ValueError (@builtin_error _ Interp.builtins "float" (YStr "thick"))) []
  /\ raised (DbxParser._parse_yaml_root (B := Interp.builtins)
               (FS := Interp.file_system) Examples.parser
               Examples.design_bad_z) <> Some ParserError.
Proof.
  repeat split; try reflexivity. discriminate.
Qed.

(** * Further properties *)

(** ** Prefixes, suffixes and patterns *)

Section PatternFacts.

Lemma prefix_iff (p s : string) :
  prefix p s = true <-> exists r, s = p ++ r.
Proof.
  split.
  - revert s; induction p as [|c p IH]; intros s H.
    + now exists s.
    + destruct s as [|d s]; [discriminate|]. cbn in H.
      destruct (ascii_dec c d) as [<-|]; [|discriminate].
      destruct (IH _ H) as (r & ->). now exists r.
  - intros (r & ->). apply prefix_append.
Qed.

Lemma rev_append (a b : string) : rev (a ++ b) = rev b ++ rev a.
Proof.
  unfold rev. rewrite list_ascii_of_append, rev_app_distr.
  apply string_of_list_ascii_app.
Qed.

Lemma endswith_iff (s suf : string) :
  endswith s suf = true <-> exists l, s = l ++ suf.
Proof.
  unfold endswith. rewrite prefix_iff. split.
  - intros (r & H). exists (rev r).
    rewrite <- (rev_involutive s), H, rev_append. now rewrite rev_involutive.
  - intros (l & ->). exists (rev l). apply rev_append.
Qed.

(** Two ways of cutting one text, the second tail the shorter. *)
Lemma append_overlap (p r l s : string) :
  p ++ r = l ++ s ->
  (String.length s <= String.length r)%nat ->
  exists mid, r = mid ++ s.
Proof.
  revert l; induction p as [|c p IH]; intros l H Hlen.
  - cbn in H. now exists l.
  - destruct l as [|d l].
    + cbn in H. subst s. cbn in Hlen. rewrite length_append in Hlen. lia.
    + cbn in H. injection H as _ H. now apply (IH l).
Qed.

Lemma contains_char_tail (c d : ascii) (s : string) :
  contains (String c "") (String d s) = false ->
  d <> c /\ contains (String c "") s = false.
Proof.
  cbn [contains prefix]. intros H. apply orb_false_iff in H as [Hp Hs].
  split; [|exact Hs].
  destruct (ascii_dec c d) as [->|Hne]; [|congruence].
  now destruct s.
Qed.

Lemma contains_char_middle (c : ascii) (a b : string) :
  contains (String c "") (a ++ String c b) = true.
Proof.
  induction a as [|d a IH]; cbn [append contains].
  - cbn [prefix]. destruct (ascii_dec c c) as [_|ne]; [|now elim ne].
    now destruct b.
  - rewrite IH. apply orb_true_r.
Qed.

Lemma find_char_first (c : ascii) (a b : string) :
  contains (String c "") a = false ->
  find_char c (a ++ String c b) = Z.of_nat (String.length a).
Proof.
  induction a as [|d a IH]; intros H.
  - cbn. now rewrite Ascii.eqb_refl.
  - apply contains_char_tail in H as [Hne H].
    cbn [append find_char String.length].
    apply Ascii.eqb_neq in Hne. rewrite Hne, (IH H).
    destruct (Z.ltb_spec (Z.of_nat (String.length a)) 0); lia.
Qed.

Lemma take_append (a b : string) : take (String.length a) (a ++ b) = a.
Proof. induction a as [|c a IH]; cbn; [now destruct b | now rewrite IH]. Qed.

Lemma drop_append (a b : string) : drop (String.length a) (a ++ b) = b.
Proof. induction a as [|c a IH]; cbn; [reflexivity | exact IH]. Qed.

(** X1: a pattern without [*] matches the file name equal to it and
    no other; a pattern [p*s], [p] without [*], matches the file names
    that begin with [p] and end with [s] on separate characters, that
    is the names [p ++ mid ++ s]. *)
Theorem matches_pattern_spec :
  forall filename p s : string,
    contains "*" p = false ->
    (_matches_pattern filename p = true <-> filename = p)
    /\ (_matches_pattern filename (p ++ "*" ++ s) = true
        <-> exists mid, filename = p ++ mid ++ s).
Proof.
  intros filename p s Hp. split.
  - unfold _matches_pattern. rewrite Hp. cbn [negb]. apply String.eqb_eq.
  - unfold _matches_pattern.
    change (p ++ "*" ++ s) with (p ++ String "*" s).
    rewrite contains_char_middle. cbn [negb].
    rewrite (find_char_first "*" p s Hp).
    unfold slice_to, slice_from.
    destruct (Z.ltb_spec (Z.of_nat (String.length p)) 0) as [Hneg|_]; [lia|].
    destruct (Z.ltb_spec (Z.of_nat (String.length p) + 1) 0) as [Hneg|_];
      [lia|].
    rewrite Nat2Z.id, take_append.
    replace (Z.to_nat (Z.of_nat (String.length p) + 1))
      with (String.length (p ++ "*")) by (rewrite length_append; cbn; lia).
    change (p ++ String "*" s) with (p ++ "*" ++ s).
    rewrite <- append_assoc, drop_append.
    destruct (Nat.ltb_spec (String.length filename)
                (String.length p + String.length s)) as [Hshort|Hlong].
    + split; [discriminate|]. intros (mid & ->).
      rewrite !length_append in Hshort. lia.
    + rewrite andb_true_iff. unfold startswith.
      rewrite prefix_iff, endswith_iff. split.
      * intros [(r & Hr) (l & Hl)].
        assert (Hlen : (String.length s <= String.length r)%nat).
        { rewrite Hr, length_append in Hlong. lia. }
        rewrite Hr in Hl.
        destruct (append_overlap _ _ _ _ Hl Hlen) as (mid & ->).
        now exists mid.
      * intros (mid & ->). split.
        -- now exists (mid ++ s).
        -- exists (p ++ mid). now rewrite append_assoc.
Qed.

Lemma matches_pattern_spec_witness :
  contains "*" "lib_" = false
  /\ _matches_pattern "lib_core.lef" "lib_*.lef" = true
  /\ _matches_pattern "ab" "ab*b" = false.
Proof.
  split; [reflexivity|]. split.
  - apply (proj2 (matches_pattern_spec "lib_core.lef" "lib_" ".lef" eq_refl)).
    now exists "core".
  - destruct (_matches_pattern "ab" "ab*b") eqn:E; [|reflexivity].
    apply (proj2 (matches_pattern_spec "ab" "ab" "b" eq_refl)) in E
      as (mid & H).
    apply (f_equal String.length) in H. rewrite !length_append in H.
    cbn in H. lia.
Defined.

End PatternFacts.

(** ** Paths *)

Section PathFacts.

Lemma plain_name_inv (n : string) :
  plain_name n = true -> n <> "" /\ n <> "." /\ contains "/" n = false.
Proof.
  unfold plain_name. intros H.
  apply andb_true_iff in H as [H H3]. apply andb_true_iff in H as [H1 H2].
  apply negb_true_iff in H1, H2, H3.
  apply String.eqb_neq in H1, H2. auto.
Qed.

Lemma contains_char_cons (c d : ascii) (s : string) :
  contains (String c "") (String d s)
  = (if ascii_dec c d then true else false) || contains (String c "") s.
Proof.
  cbn [contains prefix]. destruct (ascii_dec c d); [now destruct s | reflexivity].
Qed.

Lemma contains_char_snoc (c d : ascii) (s : string) :
  contains (String c "") s = false -> d <> c ->
  contains (String c "") (s ++ String d "") = false.
Proof.
  intros H Hd. induction s as [|e s IH].
  - change ("" ++ String d "") with (String d "").
    rewrite contains_char_cons.
    destruct (ascii_dec c d); [congruence | reflexivity].
  - change (String e s ++ String d "") with (String e (s ++ String d "")).
    rewrite contains_char_cons in *.
    apply orb_false_iff in H as [He H]. now rewrite He, (IH H).
Qed.

Lemma split_slash_plain (cur n : string) :
  contains "/" n = false -> split_slash cur n = [cur ++ n].
Proof.
  revert cur; induction n as [|c n IH]; intros cur H.
  - cbn. now rewrite append_nil_r.
  - apply contains_char_tail in H as [Hne H]. cbn [split_slash].
    apply Ascii.eqb_neq in Hne. rewrite Hne, (IH _ H).
    now rewrite append_assoc.
Qed.

Lemma split_slash_cut (cur a rest : string) :
  contains "/" a = false ->
  split_slash cur (a ++ String "/" rest) = (cur ++ a) :: split_slash "" rest.
Proof.
  revert cur; induction a as [|c a IH]; intros cur H.
  - cbn. now rewrite append_nil_r.
  - apply contains_char_tail in H as [Hne H]. cbn [append split_slash].
    apply Ascii.eqb_neq in Hne. rewrite Hne, (IH _ H).
    now rewrite append_assoc.
Qed.

Lemma split_slash_join (n : string) (ns : list string) :
  Forall (fun n => plain_name n = true) (n :: ns) ->
  split_slash "" (join "/" (n :: ns)) = n :: ns.
Proof.
  revert n; induction ns as [|m ns IH]; intros n H.
  - inversion H as [|? ? Hn _]; subst.
    apply plain_name_inv in Hn as (_ & _ & Hn).
    cbn. now rewrite (split_slash_plain "" n Hn).
  - inversion H as [|? ? Hn Hrest]; subst.
    apply plain_name_inv in Hn as (_ & _ & Hn).
    change (join "/" (n :: m :: ns)) with (n ++ String "/" (join "/" (m :: ns))).
    rewrite (split_slash_cut "" n _ Hn). cbn [append].
    now rewrite (IH m Hrest).
Qed.

Lemma filter_keep_plain (ns : list string) :
  Forall (fun n => plain_name n = true) ns -> filter keep_part ns = ns.
Proof.
  induction 1 as [|n ns Hn _ IH]; [reflexivity|].
  cbn. rewrite IH. unfold plain_name in Hn. unfold keep_part.
  apply andb_true_iff in Hn as [-> _]. reflexivity.
Qed.

(** The components [Path(...)] keeps are plain names. *)
Lemma of_str_well_formed (s : string) : well_formed (of_str s).
Proof.
  unfold well_formed, of_str. cbn [parts].
  assert (Hno : forall cur s,
             contains "/" cur = false ->
             Forall (fun n => contains "/" n = false) (split_slash cur s)).
  { clear. intros cur s; revert cur; induction s as [|c s IH]; intros cur H.
    - cbn. auto.
    - cbn [split_slash]. destruct (Ascii.eqb c "/") eqn:E.
      + constructor; [exact H|]. now apply IH.
      + apply IH. apply Ascii.eqb_neq in E.
        now apply contains_char_snoc. }
  specialize (Hno "" s eq_refl).
  induction Hno as [|n ns Hn _ IH]; cbn; [constructor|].
  destruct (keep_part n) eqn:E; [|exact IH].
  constructor; [|exact IH]. unfold plain_name. unfold keep_part in E.
  now rewrite E, Hn.
Qed.

Lemma of_str_plain (n : string) :
  plain_name n = true -> of_str n = MkPath false [n].
Proof.
  intros H. pose proof (plain_name_inv _ H) as (_ & _ & Hs).
  unfold of_str, startswith.
  rewrite (contains_false_prefix _ _ Hs), (split_slash_plain "" n Hs).
  cbn [append]. now rewrite (filter_keep_plain [n] (Forall_cons _ H (Forall_nil _))).
Qed.

Lemma name_joinpath_plain (dir : Path) (n : string) :
  plain_name n = true -> PyPath.name (joinpath dir (of_str n)) = n.
Proof.
  intros H. rewrite (of_str_plain _ H). unfold joinpath, PyPath.name.
  cbn. apply last_last.
Qed.

(** [str] and [Path] are a round trip on the paths [Path(...)] builds:
    [Path(str(p))] is [p] again, so that a path handed on as its text
    names the same file. *)
Lemma path_str_round_trip :
  forall p : Path,
    well_formed p -> of_str (to_str p) = p.
Proof.
  intros [abs ps] H. unfold well_formed in H. cbn [parts] in H.
  unfold to_str. cbn [is_absolute parts].
  destruct abs.
  - unfold of_str, startswith. rewrite prefix_append.
    f_equal. cbn [append split_slash].
    change (Ascii.eqb "/" "/") with true. cbv iota.
    destruct ps as [|n ns]; [reflexivity|].
    rewrite (split_slash_join n ns H).
    change (filter keep_part ("" :: n :: ns)) with (filter keep_part (n :: ns)).
    now apply filter_keep_plain.
  - destruct ps as [|n ns]; [reflexivity|].
    unfold of_str. rewrite (split_slash_join n ns H).
    rewrite (filter_keep_plain _ H). f_equal.
    inversion H as [|? ? Hn _]; subst.
    apply plain_name_inv in Hn as (Hne & _ & Hs).
    unfold startswith. destruct n as [|c n]; [congruence|].
    apply contains_char_tail in Hs as [Hc _].
    assert (Hhead : exists rest, join "/" (String c n :: ns) = String c rest).
    { destruct ns; cbn [join String.concat append]; eauto. }
    destruct Hhead as (rest & ->).
    cbn [prefix]. destruct (ascii_dec "/" c); [congruence | reflexivity].
Qed.

Lemma normalize_no_dotdot (stack ps : list string) :
  Forall (fun c => c <> "..") stack ->
  Forall (fun c => c <> "..") (normalize stack ps).
Proof.
  revert stack; induction ps as [|p ps IH]; intros stack H; cbn.
  - now apply Forall_rev.
  - destruct (String.eqb p "..") eqn:E.
    + apply IH. destruct stack; [constructor | now inversion H].
    + apply IH. constructor; [now apply String.eqb_neq | exact H].
Qed.

End PathFacts.

(** X2: [resolve_path] hands an absolute reference back as it is, [..]
    and all, and asks the file system nothing. Without a current file a
    relative reference is put behind the working directory and is not
    resolved. With a current file that is absolute it is the real path
    of the reference put behind the directory of that file: the working
    directory plays no part, so that two file systems with the same
    real paths give the same result. *)
Theorem resolve_path_spec :
  forall (FS FS' : FileSystem) (self : BaseParser.t) (path : string),
    (is_absolute (of_str path) = true ->
     resolve_path (FS := FS) self path = of_str path)
    /\ (current_file_path self = None ->
        is_absolute (of_str path) = false ->
        resolve_path (FS := FS) self path
        = MkPath (is_absolute (@cwd FS))
            (parts (@cwd FS) ++ parts (of_str path)))
    /\ (forall file : Path,
           current_file_path self = Some file ->
           is_absolute file = true ->
           is_absolute (of_str path) = false ->
           resolve_path (FS := FS) self path
           = @fs_realpath FS
               (MkPath true
                  (removelast (parts file) ++ parts (of_str path)))
           /\ ((forall p, @fs_realpath FS p = @fs_realpath FS' p) ->
               resolve_path (FS := FS) self path
               = resolve_path (FS := FS') self path)).
Proof.
  intros FS FS' self path. split; [|split].
  - intros H. unfold resolve_path. now rewrite H.
  - intros Hfile Hrel. unfold resolve_path. rewrite Hrel, Hfile.
    unfold absolute, joinpath. now rewrite Hrel.
  - intros file Hfile Habs Hrel.
    assert (Hres : forall FS0 : FileSystem,
               resolve_path (FS := FS0) self path
               = @fs_realpath FS0
                   (MkPath true
                      (removelast (parts file) ++ parts (of_str path)))).
    { intros FS0. unfold resolve_path. rewrite Hrel, Hfile.
      unfold resolve, absolute, parent, joinpath.
      rewrite Hrel. cbn [is_absolute parts]. now rewrite Habs. }
    split; [apply Hres|]. intros Hsame. now rewrite !Hres, Hsame.
Qed.

Lemma resolve_path_spec_witness :
  to_str (resolve_path (FS := Interp.file_system) Examples.parser
            "/x/../y.lef") = "/x/../y.lef"
  /\ to_str (resolve_path (FS := Interp.file_system) BaseParser.init
               "../lib/chip.lef") = "/a/b/../lib/chip.lef"
  /\ to_str (resolve_path (FS := Interp.file_system) Examples.parser
               "../lib/./chip.lef") = "/a/lib/chip.lef"
  /\ resolve_path (FS := Interp.file_system) Examples.parser
       "../lib/./chip.lef"
     = resolve_path (FS := Examples.elsewhere) Examples.parser
         "../lib/./chip.lef".
Proof.
  destruct (resolve_path_spec Interp.file_system Interp.file_system
              Examples.parser "/x/../y.lef") as (Habs & _).
  destruct (resolve_path_spec Interp.file_system Interp.file_system
              BaseParser.init "../lib/chip.lef") as (_ & Hcwd & _).
  destruct (resolve_path_spec Interp.file_system Examples.elsewhere
              Examples.parser "../lib/./chip.lef") as (_ & _ & Hrel).
  destruct (Hrel _ eq_refl eq_refl eq_refl) as [Hreal Hsame].
  split; [now rewrite (Habs eq_refl)|].
  split; [now rewrite (Hcwd eq_refl eq_refl)|].
  split; [now rewrite Hreal|].
  apply Hsame. reflexivity.
Defined.

Section GlobFacts.
Context {FS : FileSystem}.

(** X3: for a pattern with [*] whose directory exists, [resolve_paths]
    does not fail, and what it returns are the paths of the regular
    files of that directory whose names match the last component of the
    pattern: all of them and nothing else, so the empty list when
    nothing matches. *)
Theorem resolve_paths_glob :
  forall (self : BaseParser.t) (path_pattern : string),
    contains "*" path_pattern = true ->
    fs_exists (parent (resolve_path self path_pattern)) = true ->
    fs_is_dir (parent (resolve_path self path_pattern)) = true ->
    Forall (fun n => plain_name n = true)
           (fs_listdir (parent (resolve_path self path_pattern))) ->
    exists l,
      resolve_paths self path_pattern = Ok l
      /\ (List.length l
          <= List.length (fs_listdir (parent (resolve_path self path_pattern))))%nat
      /\ forall x : string,
          In x l <->
          exists n,
            In n (fs_listdir (parent (resolve_path self path_pattern)))
            /\ fs_is_file (joinpath (parent (resolve_path self path_pattern))
                             (of_str n)) = true
            /\ _matches_pattern n (PyPath.name (resolve_path self path_pattern))
               = true
            /\ x = to_str (joinpath (parent (resolve_path self path_pattern))
                             (of_str n)).
Proof.
  intros self pat Hstar Hex Hdir Hplain.
  unfold resolve_paths. rewrite Hstar, Hex, Hdir. cbn [negb orb].
  eexists. split; [reflexivity|]. split.
  - rewrite length_map. unfold iterdir.
    etransitivity; [apply filter_length_le|]. now rewrite length_map.
  - intros x. rewrite in_map_iff. unfold iterdir. split.
    + intros (fp & <- & Hin). apply filter_In in Hin as [Hin Hok].
      apply in_map_iff in Hin as (n & <- & Hn).
      apply andb_true_iff in Hok as [Hfile Hmatch].
      rewrite Forall_forall in Hplain.
      rewrite (name_joinpath_plain _ n (Hplain n Hn)) in Hmatch.
      exists n. auto.
    + intros (n & Hn & Hfile & Hmatch & ->).
      eexists. split; [reflexivity|].
      apply filter_In. split; [apply in_map_iff; eauto|].
      rewrite Forall_forall in Hplain.
      rewrite (name_joinpath_plain _ n (Hplain n Hn)).
      now rewrite Hfile, Hmatch.
Qed.

End GlobFacts.

Lemma resolve_paths_glob_witness :
  resolve_paths (FS := Interp.file_system) Examples.parser "../lib/*.lef"
  = Ok ["/a/lib/a.lef"; "/a/lib/b.lef"]
  /\ resolve_paths (FS := Interp.file_system) Examples.parser "../lib/*.gds"
     = Ok [].
Proof.
  destruct (resolve_paths_glob (FS := Interp.file_system) Examples.parser
              "../lib/*.lef") as (l & Hl & _ & _);
    [reflexivity | reflexivity | reflexivity | repeat constructor |].
  split; reflexivity.
Defined.

(** ** The macro table *)

Section MacroTableFacts.

Lemma span_word_spec (s w r : string) :
  span_word s = (w, r) -> no_space w = true /\ s = w ++ r.
Proof.
  revert w r; induction s as [|c s IH]; intros w r H; cbn in H.
  - injection H as <- <-. auto.
  - destruct (is_space c) eqn:E.
    + injection H as <- <-. auto.
    + destruct (span_word s) as [w' r'] eqn:Es. injection H as <- <-.
      destruct (IH _ _ eq_refl) as [Hw ->]. cbn. now rewrite E, Hw.
Qed.

Lemma strip_no_space (w : string) : no_space w = true -> strip w = w.
Proof.
  intros H. destruct w as [|c w]; [reflexivity|].
  destruct (no_space_last (String c w) ltac:(discriminate) H)
    as (u & d & Hu & Hd).
  cbn in H. apply andb_true_iff in H as [Hc _]. apply negb_true_iff in Hc.
  unfold strip. cbn [lstrip]. rewrite Hc, Hu. now apply rstrip_snoc.
Qed.

(** What [rstrip] leaves is empty or ends with a character that is not
    white space. *)
Lemma rstrip_last (s : string) :
  rstrip s = "" \/ exists w c, rstrip s = w ++ String c "" /\ is_space c = false.
Proof.
  unfold rstrip. destruct (lstrip (rev s)) as [|c t] eqn:E.
  - now left.
  - right. exists (rev t), c. split; [apply rev_cons|].
    exact (lstrip_head _ _ _ E).
Qed.

Lemma strip_idempotent (s : string) : strip (strip s) = strip s.
Proof.
  destruct (lstrip s) as [|c r] eqn:E.
  - unfold strip. rewrite E. reflexivity.
  - destruct (strip_head _ _ _ E) as (r' & Hr').
    pose proof (lstrip_head _ _ _ E) as Hc.
    destruct (rstrip_last (lstrip s)) as [H|(w & d & Hw & Hd)].
    + unfold strip in Hr'. rewrite H in Hr'. discriminate.
    + fold (strip s) in Hw. unfold strip at 1.
      replace (lstrip (strip s)) with (strip s)
        by (rewrite Hr'; cbn; now rewrite Hc).
      rewrite Hw. now apply rstrip_snoc.
Qed.

(** The two parts [split(maxsplit=1)] gives, when it gives two. *)
Lemma split_max1_two (s k v : string) :
  split_max1 s = [k; v] ->
  k <> "" /\ no_space k = true /\ exists c v', v = String c v' /\ is_space c = false.
Proof.
  unfold split_max1.
  destruct (lstrip s) as [|c r] eqn:E; [discriminate|].
  cbn [String.eqb].
  destruct (span_word (String c r)) as [w rest] eqn:Ew.
  destruct (lstrip rest) as [|d v'] eqn:Er; [discriminate|].
  cbn [String.eqb]. intros [= <- <-].
  destruct (span_word_spec _ _ _ Ew) as [Hw _].
  split; [|split; [exact Hw|]].
  - cbn in Ew. rewrite (lstrip_head _ _ _ E) in Ew.
    destruct (span_word r). injection Ew as <- _. discriminate.
  - exists d, v'. split; [reflexivity|]. exact (lstrip_head _ _ _ Er).
Qed.

Lemma dict_keys_set {V} (k : string) (v : V) (d : dict V) :
  dict_keys (dict_set k v d)
  = if dict_has k d then dict_keys d else (dict_keys d ++ [k])%list.
Proof.
  unfold dict_keys, dict_has.
  induction d as [|[k0 v0] d IH]; cbn; [reflexivity|].
  destruct (String.eqb k0 k) eqn:E; cbn; [reflexivity|].
  rewrite IH. now destruct (dict_get k d).
Qed.

Lemma dict_set_NoDup {V} (k : string) (v : V) (d : dict V) :
  NoDup (dict_keys d) -> NoDup (dict_keys (dict_set k v d)).
Proof.
  intros H. rewrite dict_keys_set.
  destruct (dict_has k d) eqn:E; [exact H|].
  apply NoDup_app; [exact H | repeat constructor; now intros [] |].
  intros x Hx [<-|[]]. apply dict_has_In in Hx. congruence.
Qed.

Lemma parse_defines_line_invariant (st : dict string * list string)
    (line : string) :
  NoDup (dict_keys (fst st)) /\ Forall well_formed_macro (fst st) ->
  NoDup (dict_keys (fst (parse_defines_line st line)))
  /\ Forall well_formed_macro (fst (parse_defines_line st line)).
Proof.
  destruct st as [defines out]. cbn [fst]. intros [Hnd Hwf].
  unfold parse_defines_line.
  destruct (startswith line "#!define"); [|auto].
  destruct (split_max1 (strip (slice_from line 8)))
    as [|k [|v [|? ?]]] eqn:E; auto.
  cbn [fst]. split; [now apply dict_set_NoDup|].
  destruct (split_max1_two _ _ _ E) as (Hk & Hks & c & v' & Hv & Hc).
  assert (Hmacro : well_formed_macro (strip k, strip v)).
  { unfold well_formed_macro. cbn [fst snd].
    rewrite (strip_no_space _ Hks). repeat split; auto.
    - assert (Hl : lstrip v = String c v') by (rewrite Hv; cbn; now rewrite Hc).
      destruct (strip_head _ _ _ Hl) as (r' & ->). discriminate.
    - apply strip_idempotent. }
  clear E Hnd. induction Hwf as [|[k0 v0] d H0 Hd IH]; cbn.
  - constructor; [exact Hmacro | constructor].
  - destruct (String.eqb k0 (strip k)) eqn:Ek; constructor; auto.
    apply String.eqb_eq in Ek. subst k0. exact Hmacro.
Qed.

(** X4: whatever the text, the macro table [parse_defines] leaves has
    no key twice, and each of its macros has a key that is not empty
    and holds no white space, and a value that is not empty and has no
    white space at its ends: no replacement is ever of the empty key or
    by the empty text. *)
Theorem macro_table_invariant :
  forall (self : BaseParser.t) (content : string),
    NoDup (dict_keys (_defines (fst (parse_defines self content))))
    /\ Forall well_formed_macro (_defines (fst (parse_defines self content))).
Proof.
  intros self content. unfold parse_defines, parse_defines_lines.
  assert (H : forall lines st,
             NoDup (dict_keys (fst st)) /\ Forall well_formed_macro (fst st) ->
             NoDup (dict_keys (fst (fold_left parse_defines_line lines st)))
             /\ Forall well_formed_macro
                  (fst (fold_left parse_defines_line lines st))).
  { induction lines as [|l lines IH]; intros st Hst; [exact Hst|].
    cbn [fold_left]. apply IH. now apply parse_defines_line_invariant. }
  specialize (H (splitlines content) (([] : dict string), [])
                (conj (NoDup_nil _) (Forall_nil _))).
  revert H.
  match goal with
  | |- context [fold_left parse_defines_line ?l ?i] =>
      destruct (fold_left parse_defines_line l i) as [defines out]
  end.
  cbn [fst _defines]. auto.
Qed.

(** X5: a text without directives comes out line by line as it is,
    its line ends turned into LF and a last line end dropped, and with
    an empty macro table; the table and the current file the parser had
    before play no part. *)
Theorem parse_defines_without_directives :
  forall (self : BaseParser.t) (content : string),
    Forall (fun l => is_directive l = false) (splitlines content) ->
    parse_defines self content
    = (BaseParser.mk (current_file_path self) [],
       join (String LF "") (splitlines content)).
Proof.
  intros self content H. unfold parse_defines, parse_defines_lines.
  rewrite (parse_defines_plain_lines _ [] [] H).
  assert (Hid : forall ls, map (resolve_macros []) ls = ls).
  { induction ls as [|l ls IH]; [reflexivity|]. cbn [map]. now rewrite IH. }
  now rewrite Hid.
Qed.

Lemma parse_defines_without_directives_witness :
  parse_defines Examples.parser
    (String "a" (String CR (String LF (String "b" (String LF "")))))
  = (Examples.parser, text ["a"; "b"]).
Proof.
  apply (parse_defines_without_directives Examples.parser).
  repeat constructor.
Defined.

(** X6: a directive for a key that the table already has puts the new
    value in the place of the old: the table keeps its keys in their
    order, the key reads as the new value and every other key as
    before; for a new key the macro goes to the end of the table. *)
Theorem directive_sets_macro :
  forall (pre : list string) (d key value : string),
    defines_macro d key value ->
    fst (parse_defines_lines (pre ++ [d]))
    = dict_set key value (fst (parse_defines_lines pre))
    /\ dict_get key (fst (parse_defines_lines (pre ++ [d]))) = Some value
    /\ (forall k, k <> key ->
                  dict_get k (fst (parse_defines_lines (pre ++ [d])))
                  = dict_get k (fst (parse_defines_lines pre)))
    /\ dict_keys (fst (parse_defines_lines (pre ++ [d])))
       = if dict_has key (fst (parse_defines_lines pre))
         then dict_keys (fst (parse_defines_lines pre))
         else (dict_keys (fst (parse_defines_lines pre)) ++ [key])%list.
Proof.
  intros pre d key value Hd.
  assert (Hset : fst (parse_defines_lines (pre ++ [d]))
                 = dict_set key value (fst (parse_defines_lines pre))).
  { unfold parse_defines_lines. rewrite fold_left_app. cbn [fold_left].
    match goal with
    | |- context [fold_left parse_defines_line pre ?i] =>
        destruct (fold_left parse_defines_line pre i) as [defines out]
    end.
    now rewrite (parse_defines_directive d key value _ _ Hd). }
  rewrite Hset. split; [reflexivity|]. split; [|split].
  - now rewrite dict_get_set, String.eqb_refl.
  - intros k Hk. rewrite dict_get_set.
    apply not_eq_sym, String.eqb_neq in Hk. now rewrite Hk.
  - apply dict_keys_set.
Qed.

Lemma directive_sets_macro_witness :
  fst (parse_defines_lines ["#!define A 1"; "#!define B 2"; "#!define A 3"])
  = [("A", "3"); ("B", "2")].
Proof.
  destruct (directive_sets_macro ["#!define A 1"; "#!define B 2"]
              "#!define A 3" "A" "3") as (Hset & _).
  - apply (literal_directive "A" "3");
      [discriminate | reflexivity | discriminate | reflexivity | reflexivity].
  - etransitivity; [exact Hset | reflexivity].
Defined.

End MacroTableFacts.

(** ** Macros in use *)

Section ReplaceFacts.

Lemma contains_of_prefix (p s : string) :
  prefix p s = true -> contains p s = true.
Proof. intros H. destruct s; cbn [contains]; now rewrite H. Qed.

Lemma contains_iff (p s : string) :
  contains p s = true <-> exists a b, s = a ++ p ++ b.
Proof.
  split.
  - induction s as [|c s IH]; cbn [contains]; intros H.
    + rewrite orb_false_r in H. apply prefix_iff in H as (r & Hr).
      now exists "", r.
    + apply orb_true_iff in H as [H|H].
      * apply prefix_iff in H as (r & Hr). now exists "", r.
      * destruct (IH H) as (a & b & ->). now exists (String c a), b.
  - intros (a & b & ->). induction a as [|c a IH].
    + change ("" ++ p ++ b) with (p ++ b).
      apply contains_of_prefix, prefix_append.
    + change (String c a ++ p ++ b) with (String c (a ++ p ++ b)).
      cbn [contains]. rewrite IH. apply orb_true_r.
Qed.


(** A text in which [old] occurs, cut at the leftmost occurrence. *)
Lemma contains_leftmost (old s : string) :
  old <> "" -> contains old s = true ->
  exists a b,
    s = a ++ old ++ b
    /\ contains old (a ++ take (String.length old - 1) old) = false.
Proof.
  intros Hne.
  assert (Hshort : contains old (take (String.length old - 1) old) = false).
  { apply contains_short. destruct old as [|c old]; [congruence|].
    rewrite length_take; simpl; lia. }
  induction s as [|c s IH]; intros H.
  - cbn [contains] in H. rewrite orb_false_r in H.
    apply prefix_iff in H as (r & Hr). now exists "", r.
  - destruct (prefix old (String c s)) eqn:Hp.
    + apply prefix_iff in Hp as (r & Hr). now exists "", r.
    + cbn [contains] in H. rewrite Hp in H. cbn [orb] in H.
      destruct (IH H) as (a & b & -> & Hleft).
      exists (String c a), b. split; [reflexivity|].
      change (String c a ++ take (String.length old - 1) old)
        with (String c (a ++ take (String.length old - 1) old)).
      cbn [contains]. rewrite Hleft, orb_false_r.
      assert (E : String c (a ++ old ++ b)
                  = String c (a ++ take (String.length old - 1) old)
                    ++ (drop (String.length old - 1) old ++ b)).
      { cbn [append]. f_equal. rewrite append_assoc. f_equal.
        rewrite <- append_assoc. now rewrite take_drop. }
      rewrite E in Hp. rewrite prefix_append_long in Hp; [exact Hp|].
      destruct old as [|x old]; [congruence|].
      cbn [String.length]. rewrite length_append, length_take; simpl; lia.
Qed.

(** Where [old] occurs, the replacement brings [new] in. *)
Lemma contains_replace_new (old new s : string) :
  old <> "" -> contains old s = true ->
  contains new (replace old new s) = true.
Proof.
  intros Hne H.
  destruct (contains_leftmost _ _ Hne H) as (a & b & -> & Hleft).
  rewrite (replace_occurrence _ _ _ _ Hne Hleft).
  apply contains_iff. eauto.
Qed.







End ReplaceFacts.

Section MacroUseFacts.

(** Macros whose keys do not occur leave the line as it is. *)
Lemma resolve_macros_absent (defines : dict string) (line : string) :
  untouched_by defines line -> resolve_macros defines line = line.
Proof.
  unfold untouched_by, resolve_macros.
  induction 1 as [|[k v] d Hk _ IH]; [reflexivity|].
  cbn [fold_left fst snd] in *. now rewrite (replace_absent _ _ _ Hk).
Qed.

(** A table of which one macro alone applies to the line. *)
Lemma resolve_macros_single (defines : dict string)
    (key value line : string) :
  NoDup (dict_keys defines) ->
  dict_get key defines = Some value ->
  (forall k v, In (k, v) defines -> k <> key ->
               contains k line = false
               /\ contains k (replace key value line) = false) ->
  resolve_macros defines line = replace key value line.
Proof.
  induction defines as [|[k0 v0] d IH]; intros Hnd Hget Hothers;
    [discriminate Hget|].
  unfold dict_keys in Hnd. cbn [map fst] in Hnd.
  apply NoDup_cons_iff in Hnd as [Hk0 Hnd].
  change (resolve_macros ((k0, v0) :: d) line)
    with (resolve_macros d (replace k0 v0 line)).
  cbn [dict_get] in Hget. destruct (String.eqb k0 key) eqn:E.
  - apply String.eqb_eq in E. subst k0. injection Hget as ->.
    apply resolve_macros_absent. unfold untouched_by.
    apply Forall_forall. intros [k v] Hin. cbn [fst].
    apply (Hothers k v (or_intror Hin)).
    intros ->. apply Hk0. change key with (fst (key, v)).
    now apply in_map.
  - apply String.eqb_neq in E.
    destruct (Hothers k0 v0 (or_introl eq_refl) E) as [Habs _].
    rewrite (replace_absent _ _ _ Habs).
    apply IH; [exact Hnd | exact Hget |].
    intros k v Hin. apply (Hothers k v). now right.
Qed.

Lemma defines_macro_functional (d k v k' v' : string) :
  defines_macro d k v -> defines_macro d k' v' -> k = k' /\ v = v'.
Proof.
  intros [_ (a & b & Hs & -> & ->)] [_ (a' & b' & Hs' & -> & ->)].
  rewrite Hs in Hs'. now injection Hs' as <- <-.
Qed.

Lemma defines_macro_key (d k v : string) : defines_macro d k v -> k <> "".
Proof.
  intros [_ (a & b & Hs & -> & _)].
  destruct (split_max1_two _ _ _ Hs) as (Ha & Hsp & _).
  now rewrite (strip_no_space _ Hsp).
Qed.

(** What a line does to the table: nothing, or the macro it defines. *)
Lemma parse_defines_line_cases (st : dict string * list string)
    (l : string) :
  fst (parse_defines_line st l) = fst st
  \/ exists k v, defines_macro l k v
                 /\ fst (parse_defines_line st l) = dict_set k v (fst st).
Proof.
  destruct st as [defines out]. unfold parse_defines_line.
  destruct (startswith l "#!define") eqn:Hd; [|now left].
  destruct (split_max1 (strip (slice_from l 8))) as [|k [|v [|? ?]]] eqn:E;
    try (now left).
  right. exists (strip k), (strip v). split; [|reflexivity].
  split; [exact Hd | eauto].
Qed.

Lemma table_NoDup (lines : list string) (st : dict string * list string) :
  NoDup (dict_keys (fst st)) /\ Forall well_formed_macro (fst st) ->
  NoDup (dict_keys (fst (fold_left parse_defines_line lines st))).
Proof.
  revert st; induction lines as [|l lines IH]; intros st H; [apply H|].
  cbn [fold_left]. apply IH. now apply parse_defines_line_invariant.
Qed.

(** A macro stays as it is over lines that do not redefine it. *)
Lemma table_get_kept (key value : string) (lines : list string)
    (st : dict string * list string) :
  dict_get key (fst st) = Some value ->
  Forall (keeps_macro key value) lines ->
  dict_get key (fst (fold_left parse_defines_line lines st)) = Some value.
Proof.
  intros Hget H; revert st Hget.
  induction H as [|l lines Hl _ IH]; intros st Hget; [exact Hget|].
  cbn [fold_left]. apply IH.
  destruct (parse_defines_line_cases st l) as [-> | (k & v & Hd & ->)];
    [exact Hget|].
  rewrite dict_get_set. destruct (String.eqb k key) eqn:E; [|exact Hget].
  apply String.eqb_eq in E. subst k. now rewrite (Hl v Hd).
Qed.

Lemma In_dict_set {V} (k k0 : string) (v v0 : V) (d : dict V) :
  In (k, v) (dict_set k0 v0 d) -> (k, v) = (k0, v0) \/ In (k, v) d.
Proof.
  induction d as [|[k1 v1] d IH]; cbn.
  - intros [H|[]]. now left.
  - destruct (String.eqb k1 k0) eqn:E; cbn; intros [H|H]; auto.
    + apply String.eqb_eq in E. subst k1. now left.
    + destruct (IH H); auto.
Qed.

(** Every macro of the table was defined by a line. *)
Lemma table_entries_defined (P : string -> Prop) (lines : list string)
    (st : dict string * list string) :
  (forall k v, In (k, v) (fst st) -> P k) ->
  Forall (fun l => forall k v, defines_macro l k v -> P k) lines ->
  forall k v, In (k, v) (fst (fold_left parse_defines_line lines st)) -> P k.
Proof.
  intros Hst H; revert st Hst.
  induction H as [|l lines Hl _ IH]; intros st Hst; [exact Hst|].
  cbn [fold_left]. apply IH.
  destruct (parse_defines_line_cases st l) as [-> | (k0 & v0 & Hd & ->)];
    [exact Hst|].
  intros k v Hin. apply In_dict_set in Hin as [[= -> ->]|Hin].
  - exact (Hl _ _ Hd).
  - exact (Hst _ _ Hin).
Qed.

Lemma count_without_directive (pre mid : list string) (d : string) :
  is_directive d = true ->
  filter (fun l => negb (is_directive l)) (pre ++ d :: mid)%list
  = filter (fun l => negb (is_directive l)) (pre ++ mid)%list.
Proof.
  intros Hd. rewrite !filter_app. cbn [filter]. now rewrite Hd.
Qed.



(** C5, as stated, fails: with [FO] defined as [x] before [FOO] is
    defined as [bar], the line [a: FOO] comes out as [a: xO]; and with
    [FOO] defined again as [baz] before the line, it comes out as
    [a: baz]. In neither is [FOO] replaced by [bar]. *)
Lemma define_then_use_interference :
  snd (parse_defines init
         (text ["#!define FO x"; "#!define FOO bar"; "a: FOO"]))
  = "a: xO"
  /\ snd (parse_defines init
            (text ["#!define FOO bar"; "#!define FOO baz"; "a: FOO"]))
     = "a: baz"
  /\ replace "FOO" "bar" "a: FOO" = "a: bar".
Proof. repeat split; reflexivity. Qed.

(** C5, amended: let the text hold a directive [d] that defines [key]
    as [value] ([#!define FOO bar] defines [FOO] as [bar]) and a later
    line [L] that is no directive; let no directive between [d] and [L]
    give [key] another value, and let the key of every other macro
    defined before [L] occur neither in [L] nor in [L] with [key]
    replaced by [value]. Then the output has, for [L], the line [L]
    with [key] replaced by [value], at the place of [L] among the lines
    that are no directives; no directive is in the output, which has
    one line per line of the input that is no directive. The
    replacement is of substrings: the leftmost occurrence of [key] in
    [L] is replaced whatever text stands around it, the scan going on
    behind it, and where [key] occurs in [L] the output line holds
    [value]. *)
Theorem define_then_use :
  forall (self : BaseParser.t) (content d key value L : string)
         (pre mid post : list string),
    splitlines content = (pre ++ d :: mid ++ L :: post)%list ->
    defines_macro d key value ->
    is_directive L = false ->
    Forall (keeps_macro key value) mid ->
    Forall (leaves_alone key value L) (pre ++ mid)%list ->
    (exists before after : list string,
        snd (parse_defines self content)
        = join (String LF "") (before ++ replace key value L :: after)%list
        /\ List.length before
           = List.length (filter (fun l => negb (is_directive l))
                                 (pre ++ mid)%list)
        /\ List.length after
           = List.length (filter (fun l => negb (is_directive l)) post))
    /\ List.length (snd (parse_defines_lines (splitlines content)))
       = List.length (filter (fun l => negb (is_directive l))
                             (splitlines content))
    /\ (forall a b : string,
           L = a ++ key ++ b ->
           contains key (a ++ take (String.length key - 1) key) = false ->
           replace key value L = a ++ value ++ replace key value b)
    /\ (contains key L = true ->
        contains value (replace key value L) = true).
Proof.
  intros self content d key value L pre mid post Hlines Hd HL Hkeep Halone.
  pose proof (defines_macro_key _ _ _ Hd) as Hkey.
  split; [|split; [|split]].
  - unfold parse_defines, parse_defines_lines. rewrite Hlines.
    change (pre ++ d :: mid ++ L :: post)%list
      with (pre ++ d :: mid ++ [L] ++ post)%list.
    replace (pre ++ d :: mid ++ [L] ++ post)%list
      with ((pre ++ d :: mid) ++ [L] ++ post)%list
      by now rewrite <- app_assoc.
    rewrite fold_left_app.
    set (init_state := (([] : dict string), ([] : list string))).
    pose proof (table_NoDup (pre ++ d :: mid) init_state
                  (conj (NoDup_nil _) (Forall_nil _))) as Hnd.
    assert (Hget : dict_get key
                     (fst (fold_left parse_defines_line (pre ++ d :: mid)
                             init_state)) = Some value).
    { change (pre ++ d :: mid)%list with (pre ++ [d] ++ mid)%list.
      rewrite app_assoc, fold_left_app.
      apply table_get_kept; [|exact Hkeep].
      rewrite fold_left_app. cbn [fold_left].
      destruct (fold_left parse_defines_line pre init_state)
        as [defines out].
      rewrite (parse_defines_directive d key value _ _ Hd). cbn [fst].
      now rewrite dict_get_set, String.eqb_refl. }
    assert (Hothers : forall k v,
               In (k, v) (fst (fold_left parse_defines_line (pre ++ d :: mid)
                                 init_state)) ->
               k <> key ->
               contains k L = false
               /\ contains k (replace key value L) = false).
    { apply (table_entries_defined
               (fun k => k <> key ->
                         contains k L = false
                         /\ contains k (replace key value L) = false)).
      - intros k v [].
      - apply Forall_app in Halone as [Hpre Hmid].
        apply Forall_app. split; [|constructor].
        + eapply Forall_impl; [|exact Hpre]. intros l Hl k v Hk.
          exact (Hl k v Hk).
        + intros k v Hk Hne.
          destruct (defines_macro_functional _ _ _ _ _ Hd Hk) as [<- _].
          now elim Hne.
        + eapply Forall_impl; [|exact Hmid]. intros l Hl k v Hk.
          exact (Hl k v Hk). }
    pose proof (parse_defines_line_count (pre ++ d :: mid) []) as Hcount.
    fold init_state in Hcount.
    destruct (fold_left parse_defines_line (pre ++ d :: mid) init_state)
      as [defines out] eqn:Etable.
    cbn [fst snd] in Hnd, Hget, Hothers, Hcount.
    rewrite fold_left_app. cbn [fold_left].
    unfold parse_defines_line at 2. unfold is_directive in HL. rewrite HL.
    rewrite (resolve_macros_single _ _ _ _ Hnd Hget Hothers).
    rewrite parse_defines_line_acc. cbn [fst snd].
    exists out, (snd (fold_left parse_defines_line post (defines, []))).
    split; [now rewrite <- app_assoc|]. split.
    + rewrite Hcount. f_equal.
      apply count_without_directive. exact (proj1 Hd).
    + apply parse_defines_line_count.
  - apply parse_defines_line_count.
  - intros a b -> Hfirst. now apply replace_occurrence.
  - intros Hocc. now apply contains_replace_new.
Qed.

Lemma define_then_use_witness :
  snd (parse_defines init
         (text ["#!define BAZ qux"; "# lib"; "#!define FOO bar";
                "#!define OTHER BAZ"; "a: FOO"; "b: xFOOy FOOD"; "c: BAZ"]))
  = text ["# lib"; "a: bar"; "b: xbary barD"; "c: qux"]
  /\ (exists before after : list string,
         snd (parse_defines init
                (text ["#!define BAZ qux"; "# lib"; "#!define FOO bar";
                       "#!define OTHER BAZ"; "a: FOO"; "b: xFOOy FOOD";
                       "c: BAZ"]))
         = join (String LF "")
             (before ++ replace "FOO" "bar" "b: xFOOy FOOD" :: after)%list
         /\ List.length before = 2%nat /\ List.length after = 1%nat)
  /\ replace "FOO" "bar" "b: xFOOy FOOD" = "b: xbary barD".
Proof.
  assert (Hfoo : defines_macro "#!define FOO bar" "FOO" "bar").
  { apply (literal_directive "FOO" "bar");
      [discriminate | reflexivity | discriminate | reflexivity | reflexivity]. }
  assert (Hbaz : defines_macro "#!define BAZ qux" "BAZ" "qux").
  { apply (literal_directive "BAZ" "qux");
      [discriminate | reflexivity | discriminate | reflexivity | reflexivity]. }
  assert (Hother : defines_macro "#!define OTHER BAZ" "OTHER" "BAZ").
  { apply (literal_directive "OTHER" "BAZ");
      [discriminate | reflexivity | discriminate | reflexivity | reflexivity]. }
  assert (Hplain : forall l k v,
             is_directive l = false -> ~ defines_macro l k v).
  { intros l k v Hl [Hd _]. congruence. }
  destruct (define_then_use init
              (text ["#!define BAZ qux"; "# lib"; "#!define FOO bar";
                     "#!define OTHER BAZ"; "a: FOO"; "b: xFOOy FOOD";
                     "c: BAZ"])
              "#!define FOO bar" "FOO" "bar" "b: xFOOy FOOD"
              ["#!define BAZ qux"; "# lib"]
              ["#!define OTHER BAZ"; "a: FOO"] ["c: BAZ"])
    as (Hout & _ & Hsub & _).
  - reflexivity.
  - exact Hfoo.
  - reflexivity.
  - constructor; [|constructor; [|constructor]].
    + intros v' Hv'.
      destruct (defines_macro_functional _ _ _ _ _ Hother Hv') as [E _].
      discriminate E.
    + intros v' Hv'. now elim (Hplain "a: FOO" _ _ eq_refl Hv').
  - constructor; [|constructor; [|constructor; [|constructor; [|constructor]]]].
    + intros k' v' Hk' _.
      destruct (defines_macro_functional _ _ _ _ _ Hbaz Hk') as [<- _].
      split; reflexivity.
    + intros k' v' Hk'. now elim (Hplain "# lib" _ _ eq_refl Hk').
    + intros k' v' Hk' _.
      destruct (defines_macro_functional _ _ _ _ _ Hother Hk') as [<- _].
      split; reflexivity.
    + intros k' v' Hk'. now elim (Hplain "a: FOO" _ _ eq_refl Hk').
  - split; [reflexivity|]. split.
    + destruct Hout as (before & after & Hjoin & Hb & Ha).
      exists before, after. split; [exact Hjoin|]. split; [exact Hb|exact Ha].
    + rewrite (Hsub "b: x" "y FOOD"); [reflexivity | reflexivity | reflexivity].
Defined.

End MacroUseFacts.

(** ** The helpers of the base parser *)

Section HelperFacts.
Context {F : PyFloat} {B : PyBuiltins} {FS : FileSystem}.

Lemma py_float_raises (v : yaml) (e : exn) (lg : list string) :
  py_float v = Raise e lg ->
  lg = []
  /\ (exn_class e = OverflowError \/ exn_class e = ValueError
      \/ exn_class e = TypeError).
Proof.
  destruct v as [|b|n|f|s|l|m]; cbn [py_float]; unfold builtin_raise, raise;
    try destruct (float_of_int _); try destruct (float_of_str _);
    intros H; try discriminate H; injection H as <- <-; cbn; auto.
Qed.

(** X7: [parse_coordinate] gives the coordinate of a sequence of two
    values that convert to floats, and gives a coordinate for nothing
    else; whatever else it is handed, it raises a Parser Error, or the
    [OverflowError] of an integer too large for a float: the
    [ValueError] and [TypeError] of the conversions do not come
    through. *)
Theorem parse_coordinate_outcome :
  forall v : yaml,
    (forall (a b : yaml) (x y : pyfloat),
        v = YList [a; b] -> py_float a = Ok x -> py_float b = Ok y ->
        parse_coordinate v = Ok (Coordinate.mk _ x y))
    /\ (forall c : Coordinate.t,
           parse_coordinate v = Ok c ->
           exists a b, v = YList [a; b]
                       /\ py_float a = Ok (Coordinate.x c)
                       /\ py_float b = Ok (Coordinate.y c))
    /\ (forall (e : exn) (lg : list string),
           parse_coordinate v = Raise e lg ->
           exn_class e = ParserError \/ exn_class e = OverflowError)
    /\ (is_pair v = false ->
        parse_coordinate v = log_error "Coordinate must be an array [x, y]").
Proof.
  intros v. split; [|split; [|split]].
  - intros a b x y -> Ha Hb. unfold parse_coordinate.
    cbn [bind]. now rewrite Ha, Hb.
  - intros c H.
    destruct v as [| | | | |[|a [|b [|? ?]]]|]; try discriminate H.
    exists a, b. split; [reflexivity|].
    unfold parse_coordinate in H. cbn [bind] in H.
    destruct (py_float a) as [x|e lg] eqn:Ha.
    + destruct (py_float b) as [y|e lg] eqn:Hb.
      * cbn in H. injection H as <-. auto.
      * cbn [bind] in H. destruct (py_float_raises _ _ _ Hb) as [_ [K|[K|K]]];
          unfold try_except in H; rewrite K in H; discriminate H.
    + cbn [bind] in H. destruct (py_float_raises _ _ _ Ha) as [_ [K|[K|K]]];
        unfold try_except in H; rewrite K in H; discriminate H.
  - intros e lg H.
    destruct v as [| | | | |[|a [|b [|? ?]]]|];
      try (injection H as <- _; now left).
    unfold parse_coordinate in H. cbn [bind] in H.
    destruct (py_float a) as [x|e1 lg1] eqn:Ha.
    + destruct (py_float b) as [y|e2 lg2] eqn:Hb; [discriminate H|].
      cbn [bind] in H. destruct (py_float_raises _ _ _ Hb) as [_ [K|[K|K]]];
        unfold try_except in H; rewrite K in H; cbn in H;
        injection H as <- _; cbn; auto.
    + cbn [bind] in H. destruct (py_float_raises _ _ _ Ha) as [_ [K|[K|K]]];
        unfold try_except in H; rewrite K in H; cbn in H;
        injection H as <- _; cbn; auto.
  - intros H. destruct v as [| | | | |[|a [|b [|? ?]]]|];
      try reflexivity. discriminate H.
Qed.

Lemma comprehension_Ok {A R} (f : A -> result R) (l : list A) (rs : list R) :
  comprehension f l = Ok rs <-> Forall2 (fun a r => f a = Ok r) l rs.
Proof.
  revert rs; induction l as [|a l IH]; intros rs; cbn.
  - split; [intros [= <-]; constructor | now inversion 1].
  - split.
    + intros H. apply bind_Ok_inv in H as (r & Hr & H).
      apply bind_Ok_inv in H as (rs' & Hrs & H). injection H as <-.
      constructor; [exact Hr | now apply IH].
    + inversion 1 as [|? r ? rs' Hr Hrs]; subst.
      rewrite Hr. cbn [bind]. apply IH in Hrs. now rewrite Hrs.
Qed.

(** X8: [parse_coordinates] turns a value that is no sequence into the
    empty list without a word; of a sequence it gives the coordinates
    of the elements, one for one and in their order, when each of them
    is a coordinate, and nothing otherwise. *)
Theorem parse_coordinates_elementwise :
  forall coords_node : yaml,
    ((forall l, coords_node <> YList l) -> parse_coordinates coords_node = Ok [])
    /\ (forall (l : list yaml) (cs : list Coordinate.t),
           coords_node = YList l ->
           (parse_coordinates coords_node = Ok cs
            <-> Forall2 (fun v c => parse_coordinate v = Ok c) l cs)).
Proof.
  intros v. split.
  - intros H. destruct v; try reflexivity. now elim (H l).
  - intros l cs ->. apply comprehension_Ok.
Qed.

Lemma try_except_conversion {A} (body : result A) (msg : exn -> string)
    (e : exn) (lg : list string) :
  try_except body [ValueError; TypeError] (fun e => log_error (msg e))
  = Raise e lg ->
  exn_class e <> ValueError /\ exn_class e <> TypeError.
Proof.
  unfold try_except. destruct body as [a|e0 lg0]; [discriminate|].
  cbn [existsb].
  destruct (exn_class e0) eqn:K; cbn; intros [= <- _]; cbn;
    rewrite ?K; split; discriminate.
Qed.

(** X9: on a mapping, [extract_value] as [str] never fails: it gives
    [None] for a key that is absent or null and the [str] of the value
    otherwise. As any type it raises neither [ValueError] nor
    [TypeError]: a text that is no float, asked for as [float], is the
    Parser Error "Error parsing value for" the key. *)
Theorem extract_value_on_mapping :
  forall (m : dict yaml) (key : string),
    extract_value (YMap m) key VT_str
    = Ok (match dict_get key m with
          | None | Some YNull => None
          | Some v => Some (py_str v)
          end)
    /\ (forall (A : Type) (vt : value_type A) (e : exn) (lg : list string),
           extract_value (YMap m) key vt = Raise e lg ->
           exn_class e <> ValueError /\ exn_class e <> TypeError)
    /\ (forall s : string,
           dict_get key m = Some (YStr s) ->
           float_of_str s = None ->
           extract_value (YMap m) key VT_float
           = log_error ("Error parsing value for '" ++ key ++ "': "
                        ++ builtin_error "float" (YStr s))).
Proof.
  intros m key. split; [|split].
  - destruct (dict_get key m) as [v|] eqn:E.
    + rewrite (extract_value_str _ _ _ E). now destruct v.
    + unfold extract_value. cbn [py_contains bind]. unfold dict_has.
      now rewrite E.
  - intros A vt e lg H. unfold extract_value in H.
    cbn [py_contains bind] in H.
    destruct (dict_has key m); cbn [negb] in H; [|discriminate H].
    exact (try_except_conversion _ _ _ _ H).
  - intros s Hs Hf. unfold extract_value. cbn [py_contains bind].
    rewrite (dict_get_has _ _ _ Hs). cbn [negb py_getitem]. rewrite Hs.
    cbn [bind convert py_float]. now rewrite Hf.
Qed.

Lemma include_loop (self : BaseParser.t) (l : list yaml) (acc : list string) :
  Forall (fun s => contains "*" s = false) (include_strings l) ->
  for_each
    (fun acc include =>
       let include_str :=
         match include with
         | YNull => ""
         | _ => py_str include
         end in
       if negb (String.eqb include_str "") then
         ps <- resolve_paths self include_str ;;
         Ok (acc ++ ps)%list
       else Ok acc)
    l acc
  = Ok (acc ++ map (fun s => to_str (resolve_path self s)) (include_strings l))%list.
Proof.
  revert acc; induction l as [|v l IH]; intros acc H.
  - cbn. now rewrite app_nil_r.
  - cbn [for_each]. unfold include_strings in H, IH |- *. cbn [map filter] in *.
    set (s := match v with YNull => "" | _ => py_str v end) in *.
    destruct (negb (String.eqb s "")) eqn:E.
    + inversion H as [|? ? Hs Hrest]; subst.
      rewrite (resolve_paths_plain self s Hs). cbn [bind].
      rewrite (IH _ Hrest). cbn [map]. now rewrite <- app_assoc.
    + cbn [bind]. now apply IH.
Qed.

(** X10: the Header of a mapping whose [precision] is absent or
    converts to an integer, and whose include entries hold no [*]: the
    texts of [version] and [unit], empty when absent or null; the
    [precision], 1 when absent; and as [includes] the paths of the
    include entries in their order, null and empty entries left out,
    or nothing at all when [include] is absent or is no sequence. *)
Theorem header_of_mapping :
  forall (self : BaseParser.t) (m : dict yaml) (precision : Z),
    match dict_get "precision" m with
    | None => precision = 1%Z
    | Some v => py_int v = Ok precision
    end ->
    (forall l, dict_get "include" m = Some (YList l) ->
               Forall (fun s => contains "*" s = false) (include_strings l)) ->
    parse_header self (YMap m)
    = Ok (Header.mk (text_field m "version") (text_field m "unit") precision
            match dict_get "include" m with
            | Some (YList l) =>
                map (fun s => to_str (resolve_path self s)) (include_strings l)
            | _ => []
            end).
Proof.
  intros self m precision Hp Hinc.
  assert (Htext : forall key,
             when_in key (YMap m) ""
               (v <- extract_value (YMap m) key VT_str ;; Ok (or_empty v))
             = Ok (text_field m key)).
  { intros key. unfold when_in, text_field. cbn [py_contains bind].
    unfold dict_has. destruct (dict_get key m) as [v|] eqn:E; [|reflexivity].
    rewrite (extract_value_str _ _ _ E). now destruct v. }
  unfold parse_header. cbn [Header.default Header.version Header.unit
                             Header.precision Header.includes].
  rewrite !Htext. cbn [bind].
  unfold when_in. cbn [py_contains py_getitem bind]. unfold dict_has.
  destruct (dict_get "precision" m) as [pv|].
  - cbn [bind]. rewrite Hp. cbn [bind].
    destruct (dict_get "include" m) as [iv|]; [|reflexivity].
    cbn [bind]. destruct iv; try reflexivity.
    pose proof (include_loop self l [] (Hinc l eq_refl)) as Hloop.
    match goal with
    | |- bind ?loop _ = _ =>
        replace loop
          with (Ok (A := list string)
                  ([] ++ map (fun s => to_str (resolve_path self s))
                           (include_strings l))%list)
          by (symmetry; exact Hloop)
    end.
    reflexivity.
  - subst precision. cbn [bind].
    destruct (dict_get "include" m) as [iv|]; [|reflexivity].
    cbn [bind]. destruct iv; try reflexivity.
    pose proof (include_loop self l [] (Hinc l eq_refl)) as Hloop.
    match goal with
    | |- bind ?loop _ = _ =>
        replace loop
          with (Ok (A := list string)
                  ([] ++ map (fun s => to_str (resolve_path self s))
                           (include_strings l))%list)
          by (symmetry; exact Hloop)
    end.
    reflexivity.
Qed.

End HelperFacts.

Lemma parse_coordinate_outcome_witness :
  parse_coordinate (B := Interp.builtins) (YList [YInt 3; YStr "4.5"])
  = Ok (Coordinate.mk Interp.floats (inject_Z 3) (9 # 2))
  /\ parse_coordinate (B := Interp.builtins) (YList [YInt 3])
     = log_error "Coordinate must be an array [x, y]".
Proof.
  split.
  - eapply (proj1 (parse_coordinate_outcome (B := Interp.builtins) _));
      reflexivity.
  - apply (proj2 (proj2 (proj2
             (parse_coordinate_outcome (B := Interp.builtins)
                (YList [YInt 3]))))).
    reflexivity.
Defined.

Lemma parse_coordinates_elementwise_witness :
  parse_coordinates (B := Interp.builtins) (YStr "none") = Ok []
  /\ parse_coordinates (B := Interp.builtins)
       (YList [YList [YInt 0; YInt 1]; YList [YInt 2; YInt 3]])
     = Ok [Coordinate.mk Interp.floats (inject_Z 0) (inject_Z 1);
           Coordinate.mk Interp.floats (inject_Z 2) (inject_Z 3)].
Proof.
  split.
  - apply (proj1 (parse_coordinates_elementwise (B := Interp.builtins)
                    (YStr "none"))).
    discriminate.
  - eapply (proj2 (parse_coordinates_elementwise (B := Interp.builtins) _));
      [reflexivity|].
    repeat constructor.
Defined.

Lemma extract_value_on_mapping_witness :
  extract_value (B := Interp.builtins) (YMap [("z", YStr "abc")]) "z" VT_float
  = log_error "Error parsing value for 'z': float() cannot convert 'abc'".
Proof.
  apply (proj2 (proj2 (extract_value_on_mapping (B := Interp.builtins)
                         [("z", YStr "abc")] "z")) "abc"); reflexivity.
Defined.

Lemma header_of_mapping_witness :
  parse_header (B := Interp.builtins) (FS := Interp.file_system)
    Examples.parser
    (YMap [("version", YNull);
           ("include", YList [YStr "x.3dbv"; YNull; YStr "../lib/y.3dbv"])])
  = Ok (Header.mk "" "" 1 ["/a/b/x.3dbv"; "/a/lib/y.3dbv"])
  /\ parse_header (B := Interp.builtins) (FS := Interp.file_system)
       Examples.parser (YMap [("include", YStr "x.3dbv")])
     = Ok Header.default.
Proof.
  split.
  - apply (header_of_mapping (B := Interp.builtins)
             (FS := Interp.file_system) Examples.parser
             [("version", YNull);
              ("include", YList [YStr "x.3dbv"; YNull; YStr "../lib/y.3dbv"])]
             1%Z); [reflexivity|].
    intros l [= <-]. repeat constructor.
  - apply (header_of_mapping (B := Interp.builtins)
             (FS := Interp.file_system) Examples.parser
             [("include", YStr "x.3dbv")] 1%Z); [reflexivity|].
    intros l H. discriminate H.
Defined.

(** ** Dictionaries built entry by entry *)

Section CollectFacts.
Variables (N V : Type) (f : string * N -> result V).

(** The loop that files under its key what [f] makes of each entry. *)
Lemma collect_spec (items : list (string * N)) (acc acc' : dict V)
    (P : string -> V -> Prop) :
  for_each (fun acc item => x <- f item ;; Ok (dict_set (fst item) x acc))
           items acc = Ok acc' ->
  (forall item x, In item items -> f item = Ok x -> P (fst item) x) ->
  (NoDup (dict_keys acc) -> NoDup (dict_keys acc'))
  /\ (forall k, dict_has k acc' = dict_has k acc || dict_has k items)
  /\ (Forall (fun kv => P (fst kv) (snd kv)) acc ->
      Forall (fun kv => P (fst kv) (snd kv)) acc')
  /\ (NoDup (dict_keys acc ++ dict_keys items) ->
      dict_keys acc' = (dict_keys acc ++ dict_keys items)%list).
Proof.
  revert acc; induction items as [|[k n] items IH]; intros acc H HP.
  - injection H as <-. repeat split; auto.
    + intros k. unfold dict_has at 3. cbn. now rewrite orb_false_r.
    + unfold dict_keys. cbn. now rewrite app_nil_r.
  - cbn [for_each] in H. apply bind_Ok_inv in H as (mid & Hmid & H).
    apply bind_Ok_inv in Hmid as (x & Hx & Hmid). injection Hmid as <-.
    cbn [fst] in H.
    destruct (IH _ H (fun item y Hin => HP item y (or_intror Hin)))
      as (Hnd & Hhas & Hall & Hkeys).
    split; [|split; [|split]].
    + intros Hacc. now apply Hnd, dict_set_NoDup.
    + intros k'. rewrite Hhas, dict_has_set. unfold dict_has at 4. cbn.
      destruct (String.eqb k k') eqn:E; cbn.
      * now rewrite orb_true_r.
      * reflexivity.
    + intros Hacc. apply Hall.
      assert (Hnew : P k x) by exact (HP (k, n) x (or_introl eq_refl) Hx).
      clear - Hacc Hnew. induction Hacc as [|[k0 v0] d H0 Hd IHd]; cbn.
      * repeat constructor. exact Hnew.
      * destruct (String.eqb k0 k) eqn:E; constructor; auto.
        apply String.eqb_eq in E. now subst k0.
    + intros Hnodup. unfold dict_keys in Hnodup. cbn [map] in Hnodup.
      assert (Hk : dict_has k acc = false).
      { destruct (dict_has k acc) eqn:E; [|reflexivity].
        apply dict_has_In in E. apply NoDup_remove_2 in Hnodup.
        elim Hnodup. apply in_or_app. now left. }
      rewrite Hkeys.
      * rewrite dict_keys_set, Hk. unfold dict_keys. cbn [map].
        now rewrite <- app_assoc.
      * rewrite dict_keys_set, Hk. unfold dict_keys.
        rewrite <- app_assoc. cbn [app].
        exact Hnodup.
Qed.

End CollectFacts.

(** ** The chiplet-library parser, field by field *)

Section ChipletFacts.
Context {F : PyFloat} {B : PyBuiltins} {FS : FileSystem}.

Import DbvParser.

(** What a successful [_parse_chiplet] went through, block by block. *)
Lemma parse_chiplet_blocks (self : BaseParser.t)
    (chiplet parsed : ChipletDef.t) (node : yaml) :
  _parse_chiplet self chiplet node = Ok parsed ->
  exists area offset seal scribe thickness shrink tsv regions external,
    design_area_block chiplet node = Ok area
    /\ when_in "offset" node (ChipletDef.offset chiplet)
         (v <- py_getitem node "offset" ;; parse_coordinate v) = Ok offset
    /\ four_sides node "seal_ring_width" (ChipletDef.name chiplet)
         (ChipletDef.seal_ring_left chiplet,
          ChipletDef.seal_ring_bottom chiplet,
          ChipletDef.seal_ring_right chiplet,
          ChipletDef.seal_ring_top chiplet) = Ok seal
    /\ four_sides node "scribe_line_remaining_width" (ChipletDef.name chiplet)
         (ChipletDef.scribe_line_left chiplet,
          ChipletDef.scribe_line_bottom chiplet,
          ChipletDef.scribe_line_right chiplet,
          ChipletDef.scribe_line_top chiplet) = Ok scribe
    /\ float_field node "thickness" (ChipletDef.thickness chiplet)
       = Ok thickness
    /\ float_field node "shrink" (ChipletDef.shrink chiplet) = Ok shrink
    /\ when_in "tsv" node (ChipletDef.tsv chiplet)
         (v <- py_getitem node "tsv" ;; Ok (py_bool v)) = Ok tsv
    /\ when_in "regions" node (ChipletDef.regions chiplet)
         (v <- py_getitem node "regions" ;; _parse_regions self v)
       = Ok regions
    /\ when_in "external" node (ChipletDef.external chiplet)
         (v <- py_getitem node "external" ;;
          _parse_external self v (ChipletDef.name chiplet)) = Ok external
    /\ ChipletDef.design_width parsed = fst area
    /\ ChipletDef.design_height parsed = snd area
    /\ ChipletDef.offset parsed = offset
    /\ (ChipletDef.seal_ring_left parsed, ChipletDef.seal_ring_bottom parsed,
        ChipletDef.seal_ring_right parsed, ChipletDef.seal_ring_top parsed)
       = seal
    /\ (ChipletDef.scribe_line_left parsed, ChipletDef.scribe_line_bottom parsed,
        ChipletDef.scribe_line_right parsed, ChipletDef.scribe_line_top parsed)
       = scribe
    /\ ChipletDef.thickness parsed = thickness
    /\ ChipletDef.shrink parsed = shrink
    /\ ChipletDef.tsv parsed = tsv
    /\ ChipletDef.regions parsed = regions
    /\ ChipletDef.external parsed = external.
Proof.
  unfold _parse_chiplet. intros H.
  apply bind_Ok_inv in H as (has_type & _ & H).
  apply bind_Ok_inv in H as (_u & _ & H).
  apply bind_Ok_inv in H as (type_node & _ & H).
  apply bind_Ok_inv in H as (area & Harea & H).
  apply bind_Ok_inv in H as (offset & Hoffset & H).
  apply bind_Ok_inv in H as (seal & Hseal & H).
  apply bind_Ok_inv in H as (scribe & Hscribe & H).
  apply bind_Ok_inv in H as (thickness & Hthickness & H).
  apply bind_Ok_inv in H as (shrink & Hshrink & H).
  apply bind_Ok_inv in H as (tsv & Htsv & H).
  apply bind_Ok_inv in H as (regions & Hregions & H).
  apply bind_Ok_inv in H as (external & Hexternal & H).
  exists area, offset, seal, scribe, thickness, shrink, tsv, regions, external.
  destruct seal as [[[sl sb] sr] st]. destruct scribe as [[[cl cb] cr] ct].
  injection H as <-. cbn. repeat split; assumption.
Qed.

Lemma when_in_absent {S} (key : string) (m : dict yaml) (s : S)
    (body : result S) :
  dict_has key m = false -> when_in key (YMap m) s body = Ok s.
Proof. intros H. unfold when_in. cbn [py_contains bind]. now rewrite H. Qed.

Lemma when_in_present {S} (key : string) (m : dict yaml) (s : S)
    (body : result S) :
  dict_has key m = true -> when_in key (YMap m) s body = body.
Proof. intros H. unfold when_in. cbn [py_contains bind]. now rewrite H. Qed.

(** X11: a chiplet that parses keeps, for every optional key that its
    mapping does not have, the fields of that key as they were, the
    defaults of [ChipletDef(name=...)] for a chiplet of the ChipletDef
    section; and a mapping with [type] and none of the optional keys
    does parse. *)
Theorem chiplet_absent_keys_keep_fields :
  forall (self : BaseParser.t) (chiplet : ChipletDef.t) (m : dict yaml),
    (forall parsed : ChipletDef.t,
        _parse_chiplet self chiplet (YMap m) = Ok parsed ->
        ChipletDef.name parsed = ChipletDef.name chiplet
        /\ (dict_has "design_area" m = false ->
            ChipletDef.design_width parsed = ChipletDef.design_width chiplet
            /\ ChipletDef.design_height parsed
               = ChipletDef.design_height chiplet)
        /\ (dict_has "offset" m = false ->
            ChipletDef.offset parsed = ChipletDef.offset chiplet)
        /\ (dict_has "seal_ring_width" m = false ->
            ChipletDef.seal_ring_left parsed = ChipletDef.seal_ring_left chiplet
            /\ ChipletDef.seal_ring_bottom parsed
               = ChipletDef.seal_ring_bottom chiplet
            /\ ChipletDef.seal_ring_right parsed
               = ChipletDef.seal_ring_right chiplet
            /\ ChipletDef.seal_ring_top parsed
               = ChipletDef.seal_ring_top chiplet)
        /\ (dict_has "scribe_line_remaining_width" m = false ->
            ChipletDef.scribe_line_left parsed
            = ChipletDef.scribe_line_left chiplet
            /\ ChipletDef.scribe_line_bottom parsed
               = ChipletDef.scribe_line_bottom chiplet
            /\ ChipletDef.scribe_line_right parsed
               = ChipletDef.scribe_line_right chiplet
            /\ ChipletDef.scribe_line_top parsed
               = ChipletDef.scribe_line_top chiplet)
        /\ (dict_has "thickness" m = false ->
            ChipletDef.thickness parsed = ChipletDef.thickness chiplet)
        /\ (dict_has "shrink" m = false ->
            ChipletDef.shrink parsed = ChipletDef.shrink chiplet)
        /\ (dict_has "tsv" m = false ->
            ChipletDef.tsv parsed = ChipletDef.tsv chiplet)
        /\ (dict_has "regions" m = false ->
            ChipletDef.regions parsed = ChipletDef.regions chiplet)
        /\ (dict_has "external" m = false ->
            ChipletDef.external parsed = ChipletDef.external chiplet))
    /\ (forall t : yaml,
           m = [("type", t)] ->
           _parse_chiplet self (ChipletDef.default (ChipletDef.name chiplet))
             (YMap m)
           = Ok (ChipletDef.mk _ (ChipletDef.name chiplet) (py_str t)
                   float_minus_one float_minus_one Coordinate.default
                   float_minus_one float_minus_one float_minus_one
                   float_minus_one float_minus_one float_minus_one
                   float_minus_one float_minus_one float_minus_one
                   float_minus_one false [] ChipletExternal.default)).
Proof.
  intros self chiplet m. split.
  - intros parsed H.
    pose proof (parse_chiplet_inv _ _ _ _ H) as (_ & _ & _ & _ & Hname & _).
    apply parse_chiplet_blocks in H
      as (area & offset & seal & scribe & thickness & shrink & tsv & regions
          & external & Harea & Hoffset & Hseal & Hscribe & Hthick & Hshrink
          & Htsv & Hregions & Hexternal & Ew & Eh & Eo & Es & Ec & Et & Er
          & Ev & Eg & Ex).
    split; [exact Hname|].
    repeat match goal with |- _ /\ _ => split end; intros Habs.
    + unfold design_area_block in Harea.
      rewrite (when_in_absent _ _ _ _ Habs) in Harea.
      injection Harea as <-. split; [exact Ew | exact Eh].
    + rewrite (when_in_absent _ _ _ _ Habs) in Hoffset. congruence.
    + unfold four_sides in Hseal.
      rewrite (when_in_absent _ _ _ _ Habs) in Hseal.
      injection Hseal as <-. injection Es as -> -> -> ->. auto.
    + unfold four_sides in Hscribe.
      rewrite (when_in_absent _ _ _ _ Habs) in Hscribe.
      injection Hscribe as <-. injection Ec as -> -> -> ->. auto.
    + unfold float_field in Hthick.
      rewrite (when_in_absent _ _ _ _ Habs) in Hthick. congruence.
    + unfold float_field in Hshrink.
      rewrite (when_in_absent _ _ _ _ Habs) in Hshrink. congruence.
    + rewrite (when_in_absent _ _ _ _ Habs) in Htsv. congruence.
    + rewrite (when_in_absent _ _ _ _ Habs) in Hregions. congruence.
    + rewrite (when_in_absent _ _ _ _ Habs) in Hexternal. congruence.
  - intros t ->. reflexivity.
Qed.

(** X12: a chiplet that parses with a [seal_ring_width], or a
    [scribe_line_remaining_width], of four elements has their floats
    as its left, bottom, right and top widths, in this order; with a
    value of any other shape under one of these keys the chiplet does
    not parse, and for a chiplet of [type] and this key alone the error
    is the Parser Error "must have 4 values for chiplet" with the key
    and the name. *)
Theorem four_widths_in_order :
  forall (self : BaseParser.t) (chiplet : ChipletDef.t) (m : dict yaml),
    (forall (a b c d : yaml) (parsed : ChipletDef.t),
        dict_get "seal_ring_width" m = Some (YList [a; b; c; d]) ->
        _parse_chiplet self chiplet (YMap m) = Ok parsed ->
        py_float a = Ok (ChipletDef.seal_ring_left parsed)
        /\ py_float b = Ok (ChipletDef.seal_ring_bottom parsed)
        /\ py_float c = Ok (ChipletDef.seal_ring_right parsed)
        /\ py_float d = Ok (ChipletDef.seal_ring_top parsed))
    /\ (forall (a b c d : yaml) (parsed : ChipletDef.t),
           dict_get "scribe_line_remaining_width" m
           = Some (YList [a; b; c; d]) ->
           _parse_chiplet self chiplet (YMap m) = Ok parsed ->
           py_float a = Ok (ChipletDef.scribe_line_left parsed)
           /\ py_float b = Ok (ChipletDef.scribe_line_bottom parsed)
           /\ py_float c = Ok (ChipletDef.scribe_line_right parsed)
           /\ py_float d = Ok (ChipletDef.scribe_line_top parsed))
    /\ (forall (key : string) (v : yaml),
           key = "seal_ring_width" \/ key = "scribe_line_remaining_width" ->
           dict_get key m = Some v ->
           (forall a b c d, v <> YList [a; b; c; d]) ->
           is_ok (_parse_chiplet self chiplet (YMap m)) = false)
    /\ (forall (key : string) (t v : yaml),
           key = "seal_ring_width" \/ key = "scribe_line_remaining_width" ->
           (forall a b c d, v <> YList [a; b; c; d]) ->
           _parse_chiplet self chiplet (YMap [("type", t); (key, v)])
           = log_error (key ++ " must have 4 values for chiplet "
                        ++ ChipletDef.name chiplet)).
Proof.
  intros self chiplet m.
  assert (Hfour : forall key a b c d old r,
             dict_get key m = Some (YList [a; b; c; d]) ->
             four_sides (YMap m) key (ChipletDef.name chiplet) old = Ok r ->
             py_float a = Ok (fst (fst (fst r)))
             /\ py_float b = Ok (snd (fst (fst r)))
             /\ py_float c = Ok (snd (fst r))
             /\ py_float d = Ok (snd r)).
  { intros key a b c d old r Hget H. unfold four_sides in H.
    rewrite (when_in_present _ _ _ _ (dict_get_has _ _ _ Hget)) in H.
    cbn [py_getitem] in H. rewrite Hget in H. cbn [bind] in H.
    apply bind_Ok_inv in H as (x1 & H1 & H).
    apply bind_Ok_inv in H as (x2 & H2 & H).
    apply bind_Ok_inv in H as (x3 & H3 & H).
    apply bind_Ok_inv in H as (x4 & H4 & H).
    injection H as <-. cbn. auto. }
  assert (Hbad : forall key v old,
             dict_get key m = Some v ->
             (forall a b c d, v <> YList [a; b; c; d]) ->
             four_sides (YMap m) key (ChipletDef.name chiplet) old
             = log_error (key ++ " must have 4 values for chiplet "
                          ++ ChipletDef.name chiplet)).
  { intros key v old Hget Hshape. unfold four_sides.
    rewrite (when_in_present _ _ _ _ (dict_get_has _ _ _ Hget)).
    cbn [py_getitem]. rewrite Hget. cbn [bind].
    destruct v as [| | | | |[|a [|b [|c [|d [|? ?]]]]]|]; try reflexivity.
    now elim (Hshape a b c d). }
  split; [|split; [|split]].
  - intros a b c d parsed Hget H.
    apply parse_chiplet_blocks in H
      as (area & offset & seal & scribe & thickness & shrink & tsv & regions
          & external & _ & _ & Hseal & _ & _ & _ & _ & _ & _ & _ & _ & _
          & Es & _).
    destruct (Hfour _ _ _ _ _ _ _ Hget Hseal) as (H1 & H2 & H3 & H4).
    rewrite <- Es in H1, H2, H3, H4. cbn in H1, H2, H3, H4. auto.
  - intros a b c d parsed Hget H.
    apply parse_chiplet_blocks in H
      as (area & offset & seal & scribe & thickness & shrink & tsv & regions
          & external & _ & _ & _ & Hscribe & _ & _ & _ & _ & _ & _ & _ & _
          & _ & Ec & _).
    destruct (Hfour _ _ _ _ _ _ _ Hget Hscribe) as (H1 & H2 & H3 & H4).
    rewrite <- Ec in H1, H2, H3, H4. cbn in H1, H2, H3, H4. auto.
  - intros key v Hkey Hget Hshape.
    destruct (_parse_chiplet self chiplet (YMap m)) as [parsed|] eqn:H;
      [|reflexivity].
    apply parse_chiplet_blocks in H
      as (area & offset & seal & scribe & thickness & shrink & tsv & regions
          & external & _ & _ & Hseal & Hscribe & _).
    destruct Hkey as [-> | ->].
    + rewrite (Hbad _ _ _ Hget Hshape) in Hseal. discriminate.
    + rewrite (Hbad _ _ _ Hget Hshape) in Hscribe. discriminate.
  - intros key t v Hkey Hshape.
    destruct Hkey as [-> | ->];
      destruct v as [| | | | |[|a [|b [|c [|d [|? ?]]]]]|];
      try reflexivity; now elim (Hshape a b c d).
Qed.

(** X13: the ChipletDef section that parses gives a dictionary with no
    key twice and with the keys of the mapping; each chiplet is filed
    under its own name and is what [_parse_chiplet] makes of an entry of
    that name; and when the mapping has no key twice, the chiplets come
    in the order of the mapping. *)
Theorem chiplet_defs_by_name :
  forall (self : BaseParser.t) (chiplets_node : yaml)
         (defs : dict ChipletDef.t),
    _parse_chiplet_defs self chiplets_node = Ok defs ->
    exists items,
      chiplets_node = YMap items
      /\ NoDup (dict_keys defs)
      /\ (forall k, dict_has k defs = dict_has k items)
      /\ Forall (fun kv =>
                   ChipletDef.name (snd kv) = fst kv
                   /\ exists node,
                       In (fst kv, node) items
                       /\ _parse_chiplet self (ChipletDef.default (fst kv)) node
                          = Ok (snd kv))
                defs
      /\ (NoDup (dict_keys items) -> dict_keys defs = dict_keys items).
Proof.
  intros self node defs H. unfold _parse_chiplet_defs in H.
  apply bind_Ok_inv in H as (items & Hitems & H).
  destruct node; try discriminate Hitems. injection Hitems as ->.
  exists items. split; [reflexivity|].
  destruct (collect_spec yaml ChipletDef.t
              (fun item => _parse_chiplet self (ChipletDef.default (fst item))
                             (snd item))
              items [] defs
              (fun k c => ChipletDef.name c = k
                          /\ exists node,
                              In (k, node) items
                              /\ _parse_chiplet self (ChipletDef.default k) node
                                 = Ok c)
              H)
    as (Hnd & Hhas & Hall & Hkeys).
  - intros [k n] c Hin Hc. cbn [fst snd] in *. split; [|eauto].
    apply parse_chiplet_inv in Hc as (_ & _ & _ & _ & Hname & _).
    exact Hname.
  - split; [apply Hnd; constructor|]. split; [exact Hhas|].
    split; [apply Hall; constructor | exact Hkeys].
Qed.

(** X14: under [LEF_file], [APR_tech_file] and [liberty_file] a value
    that is no sequence counts as the sequence of that one value: the
    external references of a chiplet are the same for [key: v] and for
    [key: [v]]. *)
Theorem external_scalar_is_singleton :
  forall (self : BaseParser.t) (m : dict yaml) (key chiplet_name : string)
         (v : yaml),
    key = "LEF_file" \/ key = "APR_tech_file" \/ key = "liberty_file" ->
    dict_get key m = Some v ->
    (forall l, v <> YList l) ->
    _parse_external self (YMap (dict_set key (YList [v]) m)) chiplet_name
    = _parse_external self (YMap m) chiplet_name.
Proof.
  intros self m key name v Hkey Hget Hscalar.
  assert (Hext : forall files,
             extend_resolved self files (YList [v])
             = extend_resolved self files v).
  { intros files. destruct v; try reflexivity;
      cbn [extend_resolved for_each];
      try (destruct (resolve_paths self _); reflexivity).
    now elim (Hscalar l). }
  pose proof (dict_get_has _ _ _ Hget) as Hhas.
  unfold _parse_external, when_in. cbn [py_contains py_getitem bind].
  rewrite !dict_has_set, !dict_get_set.
  destruct Hkey as [-> | [-> | ->]]; cbn [String.eqb Ascii.eqb Bool.eqb orb];
    rewrite ?Hhas, ?Hget; cbn [bind]; rewrite ?Hext; reflexivity.
Qed.

End ChipletFacts.

Lemma chiplet_absent_keys_keep_fields_witness :
  (exists parsed : @ChipletDef.t Interp.floats,
      DbvParser._parse_chiplet (B := Interp.builtins)
        (FS := Interp.file_system) Examples.parser (ChipletDef.default "die")
        (YMap [("type", YStr "hard"); ("thickness", YInt 5)]) = Ok parsed
      /\ ChipletDef.thickness parsed = inject_Z 5
      /\ ChipletDef.shrink parsed = float_minus_one
      /\ ChipletDef.regions parsed = [])
  /\ is_ok (DbvParser._parse_chiplet (B := Interp.builtins)
              (FS := Interp.file_system) Examples.parser
              (ChipletDef.default "die") (YMap [("type", YNull)])) = true.
Proof.
  split.
  - eexists. split; [reflexivity|]. split; [reflexivity|].
    destruct (proj1 (chiplet_absent_keys_keep_fields
                       (B := Interp.builtins) (FS := Interp.file_system)
                       Examples.parser (ChipletDef.default "die")
                       [("type", YStr "hard"); ("thickness", YInt 5)])
                _ eq_refl)
      as (_ & _ & _ & _ & _ & _ & Hshrink & _ & Hregions & _).
    split; [exact (Hshrink eq_refl) | exact (Hregions eq_refl)].
  - pose proof (proj2 (chiplet_absent_keys_keep_fields
                         (B := Interp.builtins) (FS := Interp.file_system)
                         Examples.parser (ChipletDef.default "die")
                         [("type", YNull)]) YNull eq_refl) as H.
    cbn [ChipletDef.name ChipletDef.default] in H. now rewrite H.
Defined.

Lemma four_widths_in_order_witness :
  (exists parsed : @ChipletDef.t Interp.floats,
      DbvParser._parse_chiplet (B := Interp.builtins)
        (FS := Interp.file_system) Examples.parser (ChipletDef.default "die")
        (YMap [("type", YStr "hard");
               ("seal_ring_width", YList [YInt 1; YInt 2; YInt 3; YInt 4])])
      = Ok parsed
      /\ py_float (B := Interp.builtins) (YInt 1)
         = Ok (ChipletDef.seal_ring_left parsed)
      /\ py_float (B := Interp.builtins) (YInt 4)
         = Ok (ChipletDef.seal_ring_top parsed))
  /\ is_ok (DbvParser._parse_chiplet (B := Interp.builtins)
              (FS := Interp.file_system) Examples.parser
              (ChipletDef.default "die")
              (YMap [("type", YStr "hard");
                     ("seal_ring_width", YList [YInt 1; YInt 2; YInt 3])]))
     = false.
Proof.
  split.
  - eexists. split; [reflexivity|].
    destruct (proj1 (four_widths_in_order
                       (B := Interp.builtins) (FS := Interp.file_system)
                       Examples.parser (ChipletDef.default "die")
                       [("type", YStr "hard");
                        ("seal_ring_width",
                         YList [YInt 1; YInt 2; YInt 3; YInt 4])])
                (YInt 1) (YInt 2) (YInt 3) (YInt 4) _ eq_refl eq_refl)
      as (Hl & _ & _ & Ht).
    split; [exact Hl | exact Ht].
  - apply (proj1 (proj2 (proj2 (four_widths_in_order
                           (B := Interp.builtins) (FS := Interp.file_system)
                           Examples.parser (ChipletDef.default "die")
                           [("type", YStr "hard");
                            ("seal_ring_width",
                             YList [YInt 1; YInt 2; YInt 3])])))
             "seal_ring_width" (YList [YInt 1; YInt 2; YInt 3])).
    + now left.
    + reflexivity.
    + discriminate.
Defined.

Lemma chiplet_defs_by_name_witness :
  exists defs : dict (@ChipletDef.t Interp.floats),
    DbvParser._parse_chiplet_defs (B := Interp.builtins)
      (FS := Interp.file_system) Examples.parser
      (YMap [("top", YMap [("type", YStr "hard")]);
             ("base", YMap [("type", YStr "soft")])]) = Ok defs
    /\ dict_keys defs = ["top"; "base"]
    /\ Forall (fun kv => ChipletDef.name (snd kv) = fst kv) defs.
Proof.
  eexists. split; [reflexivity|].
  match goal with
  | |- dict_keys ?d = _ /\ _ =>
      destruct (chiplet_defs_by_name (B := Interp.builtins)
                  (FS := Interp.file_system) Examples.parser
                  (YMap [("top", YMap [("type", YStr "hard")]);
                         ("base", YMap [("type", YStr "soft")])])
                  d eq_refl)
        as (items & Hitems & _ & _ & Hall & Hkeys)
  end.
  injection Hitems as <-. split.
  - apply Hkeys. repeat constructor; cbn; intuition discriminate.
  - eapply Forall_impl; [|exact Hall]. intros kv H. exact (proj1 H).
Defined.

Lemma external_scalar_is_singleton_witness :
  DbvParser._parse_external (B := Interp.builtins) (FS := Interp.file_system)
    Examples.parser (YMap [("LEF_file", YList [YStr "../lib/*.lef"])]) "die"
  = DbvParser._parse_external (B := Interp.builtins)
      (FS := Interp.file_system) Examples.parser
      (YMap [("LEF_file", YStr "../lib/*.lef")]) "die".
Proof.
  apply (external_scalar_is_singleton (B := Interp.builtins)
           (FS := Interp.file_system) Examples.parser
           [("LEF_file", YStr "../lib/*.lef")] "LEF_file" "die"
           (YStr "../lib/*.lef")).
  - now left.
  - reflexivity.
  - discriminate.
Defined.

(** ** The design parser, field by field *)

Section DesignFacts.
Context {F : PyFloat} {B : PyBuiltins} {FS : FileSystem}.

Import DbxParser.

Lemma extract_value_text (m : dict yaml) (key : string) :
  dict_has key m = true ->
  v <- extract_value (YMap m) key VT_str ;; Ok (or_empty v)
  = Ok (text_field m key).
Proof.
  intros H. apply dict_has_get in H as (v & Hv). unfold text_field.
  rewrite (extract_value_str _ _ _ Hv), Hv. now destruct v.
Qed.

Lemma file_field_of_mapping (self : BaseParser.t) (m : dict yaml)
    (key : string) :
  file_field self (YMap m) key "" = Ok (file_reference self m key).
Proof.
  unfold file_field, when_in, file_reference. cbn [py_contains bind].
  unfold dict_has. destruct (dict_get key m) as [v|] eqn:E; [|reflexivity].
  rewrite (extract_value_str _ _ _ E). now destruct v.
Qed.

(** X15: on a mapping, the external references of a design and of a
    chiplet instance never fail: each file is empty when its key is
    absent or null, and the resolved path of its text otherwise. *)
Theorem external_references_of_mapping :
  forall (self : BaseParser.t) (m : dict yaml),
    _parse_design_external self (YMap m)
    = Ok (DesignExternal.mk (file_reference self m "verilog_file"))
    /\ _parse_chiplet_inst_external self (YMap m)
       = Ok (ChipletInstExternal.mk (file_reference self m "verilog_file")
               (file_reference self m "sdc_file")
               (file_reference self m "def_file")).
Proof.
  intros self m. unfold _parse_design_external, _parse_chiplet_inst_external.
  cbn [DesignExternal.default DesignExternal.verilog_file
       ChipletInstExternal.default ChipletInstExternal.verilog_file
       ChipletInstExternal.sdc_file ChipletInstExternal.def_file].
  now rewrite !file_field_of_mapping.
Qed.

(** X16: a Design mapping without [name] is refused with the Parser
    Error "DBX Design name is required"; with [name] the design has the
    text of the name, empty for a null name, and the external
    references of its [external] mapping, or none when [external] is
    absent. *)
Theorem design_of_mapping :
  forall (self : BaseParser.t) (m : dict yaml),
    (dict_has "name" m = false ->
     _parse_design self (YMap m) = log_error "DBX Design name is required")
    /\ (dict_has "name" m = true ->
        dict_has "external" m = false ->
        _parse_design self (YMap m)
        = Ok (DesignDef.mk (text_field m "name") DesignExternal.default))
    /\ (forall e : dict yaml,
           dict_has "name" m = true ->
           dict_get "external" m = Some (YMap e) ->
           _parse_design self (YMap m)
           = Ok (DesignDef.mk (text_field m "name")
                   (DesignExternal.mk
                      (file_reference self e "verilog_file")))).
Proof.
  intros self m. split; [|split].
  - intros H. unfold _parse_design. cbn [py_contains bind]. now rewrite H.
  - intros Hname Hext. unfold _parse_design. cbn [py_contains bind].
    rewrite Hname. cbn [negb bind].
    pose proof (extract_value_text m "name" Hname) as Ht.
    destruct (extract_value (YMap m) "name" VT_str) as [v|] eqn:E;
      [|discriminate Ht].
    cbn [bind] in Ht |- *. injection Ht as ->.
    now rewrite (when_in_absent _ _ _ _ Hext).
  - intros e Hname Hext. unfold _parse_design. cbn [py_contains bind].
    rewrite Hname. cbn [negb bind].
    pose proof (extract_value_text m "name" Hname) as Ht.
    destruct (extract_value (YMap m) "name" VT_str) as [v|] eqn:E;
      [|discriminate Ht].
    cbn [bind] in Ht |- *. injection Ht as ->.
    rewrite (when_in_present _ _ _ _ (dict_get_has _ _ _ Hext)).
    cbn [py_getitem]. rewrite Hext. cbn [bind].
    rewrite (proj1 (external_references_of_mapping self e)). reflexivity.
Qed.

(** X17: a chiplet instance whose mapping lacks [reference] is refused
    with the Parser Error that names the instance; with [reference] the
    instance has the text of the reference, empty for a null one, and
    the external references of its [external] mapping; its name and its
    placement stay as they were. *)
Theorem chiplet_inst_of_mapping :
  forall (self : BaseParser.t) (instance : ChipletInst.t) (m : dict yaml),
    (dict_has "reference" m = false ->
     _parse_chiplet_inst self instance (YMap m)
     = log_error ("DBX ChipletInst reference is required for instance "
                  ++ ChipletInst.name instance))
    /\ (dict_has "reference" m = true ->
        dict_has "external" m = false ->
        _parse_chiplet_inst self instance (YMap m)
        = Ok (ChipletInst.mk _ (ChipletInst.name instance)
                (text_field m "reference") (ChipletInst.external instance)
                (ChipletInst.loc instance) (ChipletInst.z instance)
                (ChipletInst.orient instance)))
    /\ (forall e : dict yaml,
           dict_has "reference" m = true ->
           dict_get "external" m = Some (YMap e) ->
           _parse_chiplet_inst self instance (YMap m)
           = Ok (ChipletInst.mk _ (ChipletInst.name instance)
                   (text_field m "reference")
                   (ChipletInstExternal.mk
                      (file_reference self e "verilog_file")
                      (file_reference self e "sdc_file")
                      (file_reference self e "def_file"))
                   (ChipletInst.loc instance) (ChipletInst.z instance)
                   (ChipletInst.orient instance))).
Proof.
  intros self instance m. split; [|split].
  - intros H. unfold _parse_chiplet_inst. cbn [py_contains bind].
    now rewrite H.
  - intros Href Hext. unfold _parse_chiplet_inst. cbn [py_contains bind].
    rewrite Href. cbn [negb bind].
    pose proof (extract_value_text m "reference" Href) as Ht.
    destruct (extract_value (YMap m) "reference" VT_str) as [v|] eqn:E;
      [|discriminate Ht].
    cbn [bind] in Ht |- *. injection Ht as ->.
    now rewrite (when_in_absent _ _ _ _ Hext).
  - intros e Href Hext. unfold _parse_chiplet_inst. cbn [py_contains bind].
    rewrite Href. cbn [negb bind].
    pose proof (extract_value_text m "reference" Href) as Ht.
    destruct (extract_value (YMap m) "reference" VT_str) as [v|] eqn:E;
      [|discriminate Ht].
    cbn [bind] in Ht |- *. injection Ht as ->.
    rewrite (when_in_present _ _ _ _ (dict_get_has _ _ _ Hext)).
    cbn [py_getitem]. rewrite Hext. cbn [bind].
    rewrite (proj2 (external_references_of_mapping self e)). reflexivity.
Qed.

(** X18: a Stack entry needs [loc], [z] and [orient], and is checked in
    this order: without [loc] the error is that of the location
    whatever else is there; with a good [loc] and no [z] it is that of
    [z]; with both good and no [orient] it is that of the orientation.
    An entry that has the three, [loc] a coordinate and [z] a float, is
    placed: the instance gets them, with the text of [orient], empty
    for a null one. *)
Theorem stack_entry_requirements :
  forall (instance : ChipletInst.t) (m : dict yaml),
    (dict_has "loc" m = false ->
     _parse_stack_instance instance (YMap m)
     = log_error ("DBX Stack location is required for instance "
                  ++ ChipletInst.name instance))
    /\ (forall (loc_node : yaml) (loc : Coordinate.t),
           dict_get "loc" m = Some loc_node ->
           parse_coordinate loc_node = Ok loc ->
           dict_has "z" m = false ->
           _parse_stack_instance instance (YMap m)
           = log_error ("DBX Stack z is required for instance "
                        ++ ChipletInst.name instance))
    /\ (forall (loc_node z_node : yaml) (loc : Coordinate.t) (z : pyfloat),
           dict_get "loc" m = Some loc_node ->
           parse_coordinate loc_node = Ok loc ->
           dict_get "z" m = Some z_node ->
           py_float z_node = Ok z ->
           (dict_has "orient" m = false ->
            _parse_stack_instance instance (YMap m)
            = log_error ("DBX Stack orientation is required for instance "
                         ++ ChipletInst.name instance))
           /\ (dict_has "orient" m = true ->
               _parse_stack_instance instance (YMap m)
               = Ok (ChipletInst.mk _ (ChipletInst.name instance)
                       (ChipletInst.reference instance)
                       (ChipletInst.external instance) loc z
                       (text_field m "orient"))))
    /\ (forall parsed : ChipletInst.t,
           _parse_stack_instance instance (YMap m) = Ok parsed ->
           dict_has "loc" m = true /\ dict_has "z" m = true
           /\ dict_has "orient" m = true).
Proof.
  intros instance m. split; [|split; [|split]].
  - intros H. unfold _parse_stack_instance. cbn [py_contains bind].
    now rewrite H.
  - intros loc_node loc Hloc Hc Hz. unfold _parse_stack_instance.
    cbn [py_contains py_getitem bind].
    rewrite (dict_get_has _ _ _ Hloc), Hloc. cbn [negb bind].
    rewrite Hc. cbn [bind]. now rewrite Hz.
  - intros loc_node z_node loc z Hloc Hc Hz Hf. split.
    + intros Ho. unfold _parse_stack_instance.
      cbn [py_contains py_getitem bind].
      rewrite (dict_get_has _ _ _ Hloc), Hloc. cbn [negb bind].
      rewrite Hc. cbn [bind].
      rewrite (dict_get_has _ _ _ Hz), Hz. cbn [negb bind].
      rewrite Hf. cbn [bind]. now rewrite Ho.
    + intros Ho. unfold _parse_stack_instance.
      cbn [py_contains py_getitem bind].
      rewrite (dict_get_has _ _ _ Hloc), Hloc. cbn [negb bind].
      rewrite Hc. cbn [bind].
      rewrite (dict_get_has _ _ _ Hz), Hz. cbn [negb bind].
      rewrite Hf. cbn [bind]. rewrite Ho. cbn [negb bind].
      pose proof (extract_value_text m "orient" Ho) as Ht.
      destruct (extract_value (YMap m) "orient" VT_str) as [v|] eqn:E;
        [|discriminate Ht].
      cbn [bind] in Ht |- *. now injection Ht as ->.
  - intros parsed H. unfold _parse_stack_instance in H.
    cbn [py_contains bind] in H.
    destruct (dict_has "loc" m); [|discriminate H]. cbn [negb bind] in H.
    apply bind_Ok_inv in H as (loc_node & _ & H).
    apply bind_Ok_inv in H as (loc & _ & H).
    destruct (dict_has "z" m); [|discriminate H]. cbn [negb bind] in H.
    apply bind_Ok_inv in H as (z_node & _ & H).
    apply bind_Ok_inv in H as (z & _ & H).
    destruct (dict_has "orient" m); [|discriminate H]. auto.
Qed.

End DesignFacts.

(** ** Regions, instances and connections by name *)

Section ByNameFacts.
Context {F : PyFloat} {B : PyBuiltins} {FS : FileSystem}.

Lemma collect_filed {N V} (name_of : V -> string)
    (parse : string -> N -> result V) (items : dict N) (d : dict V) :
  (forall k n x, parse k n = Ok x -> name_of x = k) ->
  for_each (fun acc item =>
              x <- parse (fst item) (snd item) ;;
              Ok (dict_set (fst item) x acc))
           items [] = Ok d ->
  filed_by_name name_of parse items d.
Proof.
  intros Hname H.
  destruct (collect_spec N V (fun item => parse (fst item) (snd item))
              items [] d
              (fun k x => name_of x = k
                          /\ exists node, In (k, node) items
                                          /\ parse k node = Ok x)
              H)
    as (Hnd & Hhas & Hall & Hkeys).
  - intros [k n] x Hin Hx. cbn [fst snd] in *. split; [|eauto].
    exact (Hname _ _ _ Hx).
  - split; [apply Hnd; constructor|]. split; [exact Hhas|].
    split; [apply Hall; constructor | exact Hkeys].
Qed.

Lemma parse_region_name (self : BaseParser.t) (region parsed : ChipletRegion.t)
    (node : yaml) :
  DbvParser._parse_region self region node = Ok parsed ->
  ChipletRegion.name parsed = ChipletRegion.name region.
Proof.
  unfold DbvParser._parse_region. intros H.
  repeat (let x := fresh "x" in
          let Hx := fresh "Hx" in
          apply bind_Ok_inv in H as (x & Hx & H)).
  now injection H as <-.
Qed.

Lemma parse_chiplet_inst_name (self : BaseParser.t)
    (instance parsed : ChipletInst.t) (node : yaml) :
  DbxParser._parse_chiplet_inst self instance node = Ok parsed ->
  ChipletInst.name parsed = ChipletInst.name instance.
Proof.
  unfold DbxParser._parse_chiplet_inst. intros H.
  repeat (let x := fresh "x" in
          let Hx := fresh "Hx" in
          apply bind_Ok_inv in H as (x & Hx & H)).
  now injection H as <-.
Qed.

Lemma parse_connection_name (connection parsed : Connection.t) (node : yaml) :
  DbxParser._parse_connection connection node = Ok parsed ->
  Connection.name parsed = Connection.name connection.
Proof.
  unfold DbxParser._parse_connection. intros H.
  repeat (let x := fresh "x" in
          let Hx := fresh "Hx" in
          apply bind_Ok_inv in H as (x & Hx & H)).
  now injection H as <-.
Qed.

(** X19: the regions of a chiplet, the ChipletInst section and the
    Connection section each give, when they parse, a dictionary with
    the keys of the mapping and no key twice, every object under its
    own name and parsed from an entry of that name, in the order of the
    mapping; a section that is no mapping ends in [AttributeError]. *)
Theorem sections_by_name :
  forall (self : BaseParser.t) (node : yaml),
    (forall regions,
        DbvParser._parse_regions self node = Ok regions ->
        exists items,
          node = YMap items
          /\ filed_by_name ChipletRegion.name
               (fun k n => DbvParser._parse_region self
                             (ChipletRegion.default k) n)
               items regions)
    /\ (forall instances,
           DbxParser._parse_chiplet_insts self node = Ok instances ->
           exists items,
             node = YMap items
             /\ filed_by_name ChipletInst.name
                  (fun k n => DbxParser._parse_chiplet_inst self
                                (ChipletInst.default k) n)
                  items instances)
    /\ (forall connections,
           DbxParser._parse_connections node = Ok connections ->
           exists items,
             node = YMap items
             /\ filed_by_name Connection.name
                  (fun k n => DbxParser._parse_connection
                                (Connection.default k) n)
                  items connections)
    /\ ((forall items, node <> YMap items) ->
        raised (DbvParser._parse_regions self node) = Some AttributeError
        /\ raised (DbxParser._parse_chiplet_insts self node)
           = Some AttributeError
        /\ raised (DbxParser._parse_connections node) = Some AttributeError).
Proof.
  intros self node. split; [|split; [|split]].
  - intros regions H. unfold DbvParser._parse_regions in H.
    apply bind_Ok_inv in H as (items & Hitems & H).
    destruct node; try discriminate Hitems. injection Hitems as ->.
    exists items. split; [reflexivity|].
    apply collect_filed; [|exact H].
    intros k n x Hx. now apply parse_region_name in Hx.
  - intros instances H. unfold DbxParser._parse_chiplet_insts in H.
    apply bind_Ok_inv in H as (items & Hitems & H).
    destruct node; try discriminate Hitems. injection Hitems as ->.
    exists items. split; [reflexivity|].
    apply collect_filed; [|exact H].
    intros k n x Hx. now apply parse_chiplet_inst_name in Hx.
  - intros connections H. unfold DbxParser._parse_connections in H.
    apply bind_Ok_inv in H as (items & Hitems & H).
    destruct node; try discriminate Hitems. injection Hitems as ->.
    exists items. split; [reflexivity|].
    apply collect_filed; [|exact H].
    intros k n x Hx. now apply parse_connection_name in Hx.
  - intros H. destruct node; try (repeat split; reflexivity).
    now elim (H m).
Qed.

(** X20: a region keeps [bmap] and [pmap] as resolved paths, and
    [side], [layer] and [gds_layer] as the [str] of their values, so
    that a null one reads [None]; what is absent stays as it was. A
    [bmap] that is no text ends the parse in [TypeError]. *)
Theorem region_of_mapping :
  forall (self : BaseParser.t) (region : ChipletRegion.t) (r : dict yaml),
    (forall (bmap pmap : string) (coords : list Coordinate.t),
        match dict_get "bmap" r with
        | None => bmap = ChipletRegion.bmap region
        | Some (YStr s) => bmap = to_str (resolve_path self s)
        | Some _ => False
        end ->
        match dict_get "pmap" r with
        | None => pmap = ChipletRegion.pmap region
        | Some (YStr s) => pmap = to_str (resolve_path self s)
        | Some _ => False
        end ->
        match dict_get "coords" r with
        | None => coords = ChipletRegion.coords region
        | Some v => parse_coordinates v = Ok coords
        end ->
        DbvParser._parse_region self region (YMap r)
        = Ok (ChipletRegion.mk _ (ChipletRegion.name region) bmap pmap
                (plain_text r "side" (ChipletRegion.side region))
                (plain_text r "layer" (ChipletRegion.layer region))
                (plain_text r "gds_layer" (ChipletRegion.gds_layer region))
                coords))
    /\ (forall v : yaml,
           dict_get "bmap" r = Some v ->
           (forall s, v <> YStr s) ->
           raised (DbvParser._parse_region self region (YMap r))
           = Some TypeError).
Proof.
  intros self region r.
  assert (Hpath : forall key old p,
             match dict_get key r with
             | None => p = old
             | Some (YStr s) => p = to_str (resolve_path self s)
             | Some _ => False
             end ->
             DbvParser.path_field self (YMap r) key old = Ok p).
  { intros key old p H. unfold DbvParser.path_field, when_in.
    cbn [py_contains py_getitem bind]. unfold dict_has.
    destruct (dict_get key r) as [v|]; [|now subst].
    cbn [bind]. destruct v; try contradiction. now subst. }
  assert (Hstr : forall key old,
             DbvParser.str_field (YMap r) key old
             = Ok (plain_text r key old)).
  { intros key old. unfold DbvParser.str_field, when_in, plain_text.
    cbn [py_contains py_getitem bind]. unfold dict_has.
    now destruct (dict_get key r). }
  split.
  - intros bmap pmap coords Hb Hp Hc. unfold DbvParser._parse_region.
    rewrite (Hpath _ _ _ Hb), (Hpath _ _ _ Hp), !Hstr. cbn [bind].
    unfold when_in. cbn [py_contains py_getitem bind]. unfold dict_has.
    destruct (dict_get "coords" r) as [v|]; cbn [bind].
    + now rewrite Hc.
    + now subst.
  - intros v Hv Hs. unfold DbvParser._parse_region, DbvParser.path_field.
    rewrite (when_in_present _ _ _ _ (dict_get_has _ _ _ Hv)).
    cbn [py_getitem]. rewrite Hv. cbn [bind].
    destruct v; try reflexivity. now elim (Hs s).
Qed.

End ByNameFacts.

(** ** Documents and files *)

Section DocumentFacts.
Context {F : PyFloat} {B : PyBuiltins} {D : YamlDecoder} {FS : FileSystem}.

(** X21: a document is read for its sections by their keys alone: two
    mappings that agree on [Header], [Design], [ChipletInst], [Stack]
    and [Connection] parse alike as .3dbx, whatever the order of their
    keys and whatever else they hold, and so do as .3dbv two mappings
    that agree on [Header] and [ChipletDef]. *)
Theorem sections_in_any_order :
  forall (self : BaseParser.t) (m m' : dict yaml),
    ((forall k, In k dbx_sections -> dict_get k m = dict_get k m') ->
     DbxParser._parse_yaml_root self (YMap m)
     = DbxParser._parse_yaml_root self (YMap m'))
    /\ ((forall k, In k dbv_sections -> dict_get k m = dict_get k m') ->
        DbvParser._parse_yaml_root self (YMap m)
        = DbvParser._parse_yaml_root self (YMap m')).
Proof.
  intros self m m'. split; intros H.
  - unfold DbxParser._parse_yaml_root, when_in.
    cbn [root_or_empty py_contains py_getitem]. unfold dict_has.
    rewrite (H "Header"), (H "Design"), (H "ChipletInst"), (H "Stack"),
      (H "Connection"); cbn; auto 10.
  - unfold DbvParser._parse_yaml_root, when_in.
    cbn [root_or_empty py_contains py_getitem]. unfold dict_has.
    rewrite (H "Header"), (H "ChipletDef"); cbn; auto.
Qed.

(** X22: a text the YAML decoder refuses is a Parser Error that
    carries the decoder's message, "DBX YAML parsing error: " or
    "3DBV YAML parsing error: " before it; an empty document, and a
    mapping with none of the sections, give the data of no section at
    all; a document that is a bare number ends in [TypeError]. *)
Theorem yaml_content_outcome :
  forall (self : BaseParser.t) (content : string),
    (forall msg : string,
        safe_load content = inr msg ->
        DbxParser._parse_yaml_content self content
        = log_error ("DBX YAML parsing error: " ++ msg)
        /\ DbvParser._parse_yaml_content self content
           = log_error ("3DBV YAML parsing error: " ++ msg))
    /\ (safe_load content = inl YNull ->
        DbxParser._parse_yaml_content self content = Ok DbxData.default
        /\ DbvParser._parse_yaml_content self content = Ok DbvData.default)
    /\ (forall m : dict yaml,
           safe_load content = inl (YMap m) ->
           ((forall k, In k dbx_sections -> dict_get k m = None) ->
            DbxParser._parse_yaml_content self content = Ok DbxData.default)
           /\ ((forall k, In k dbv_sections -> dict_get k m = None) ->
               DbvParser._parse_yaml_content self content
               = Ok DbvData.default))
    /\ (forall n : Z,
           safe_load content = inl (YInt n) ->
           raised (DbxParser._parse_yaml_content self content)
           = Some TypeError
           /\ raised (DbvParser._parse_yaml_content self content)
              = Some TypeError).
Proof.
  intros self content. split; [|split; [|split]].
  - intros msg H.
    unfold DbxParser._parse_yaml_content, DbvParser._parse_yaml_content, load.
    rewrite H. split; reflexivity.
  - intros H.
    unfold DbxParser._parse_yaml_content, DbvParser._parse_yaml_content, load.
    rewrite H. split; reflexivity.
  - intros m H. split; intros Hm.
    + unfold DbxParser._parse_yaml_content, load. rewrite H. cbn [bind].
      rewrite (proj1 (sections_in_any_order self m [])); [reflexivity|].
      intros k Hk. now rewrite (Hm k Hk).
    + unfold DbvParser._parse_yaml_content, load. rewrite H. cbn [bind].
      rewrite (proj2 (sections_in_any_order self m [])); [reflexivity|].
      intros k Hk. now rewrite (Hm k Hk).
  - intros n H.
    unfold DbxParser._parse_yaml_content, DbvParser._parse_yaml_content, load.
    rewrite H. split; reflexivity.
Qed.

(** X23: a file that cannot be opened is, for the .3dbv and .3dbx
    parsers, the Parser Error "Cannot open file: " with the file name
    and the reason, and for the bump-map parser an [IOError] with the
    file name, logged once. What the parser object held from an earlier
    file, path or macro table, plays no part; a file that opens is
    parsed as its text after the macros, with this file as the current
    one. *)
Theorem parse_file_outcome :
  forall (self self' : BaseParser.t) (bump bump' : BmapParser.t)
         (filename : string),
    (forall msg : string,
        fs_read (of_str filename) = inr msg ->
        DbxParser.parse_file self filename
        = log_error ("Cannot open file: " ++ filename ++ " - " ++ msg)
        /\ DbvParser.parse_file self filename
           = log_error ("Cannot open file: " ++ filename ++ " - " ++ msg)
        /\ BmapParser.parse_file bump filename
           = Raise (Exn IOError
                      ("Bump Map Parser Error: Cannot open file: "
                       ++ filename))
                   ["Bump Map Parser Error: Cannot open file: " ++ filename])
    /\ (DbxParser.parse_file self filename
        = DbxParser.parse_file self' filename
        /\ DbvParser.parse_file self filename
           = DbvParser.parse_file self' filename
        /\ BmapParser.parse_file bump filename
           = BmapParser.parse_file bump' filename)
    /\ (forall content : string,
           fs_read (of_str filename) = inl content ->
           DbxParser.parse_file self filename
           = DbxParser._parse_yaml_content
               (BaseParser.mk (Some (of_str filename))
                  (fst (parse_defines_lines (splitlines content))))
               (snd (parse_defines self content))
           /\ DbvParser.parse_file self filename
              = DbvParser._parse_yaml_content
                  (BaseParser.mk (Some (of_str filename))
                     (fst (parse_defines_lines (splitlines content))))
                  (snd (parse_defines self content))
           /\ BmapParser.parse_file bump filename
              = BmapParser._parse_content
                  (BmapParser.mk (Some (of_str filename))) content).
Proof.
  intros self self' bump bump' filename. split; [|split].
  - intros msg H.
    unfold DbxParser.parse_file, DbvParser.parse_file, BmapParser.parse_file,
      read_file.
    rewrite H. repeat split; reflexivity.
  - unfold DbxParser.parse_file, DbvParser.parse_file, BmapParser.parse_file,
      parse_defines.
    cbn [BaseParser.current_file_path]. repeat split; reflexivity.
  - intros content H.
    unfold DbxParser.parse_file, DbvParser.parse_file, BmapParser.parse_file,
      read_file, parse_defines.
    rewrite H. cbn [try_except bind BaseParser.current_file_path].
    destruct (parse_defines_lines (splitlines content)) as [defines out].
    repeat split; reflexivity.
Qed.

End DocumentFacts.

(** ** Bump maps as a whole *)

Section BumpMapFacts.
Context {F : PyFloat} {B : PyBuiltins} {FS : FileSystem}.

Import BmapParser.

Lemma parse_line_raises (line : string) (n : nat) (e : exn)
    (lg : list string) :
  _parse_line line n = Raise e lg -> exn_class e = ValueError /\ lg = [].
Proof.
  unfold _parse_line.
  destruct (split line) as [|t0 [|t1 [|t2 [|t3 [|t4 [|t5 [|t6 ts]]]]]]];
    try (intros [= <- <-]; now split).
  cbn [py_float]. unfold builtin_raise, raise.
  destruct (float_of_str t2); [destruct (float_of_str t3)|];
    cbn; intros H; try discriminate H; injection H as <- <-; now split.
Qed.

Lemma parse_content_line_Ok (self : t) (entries entries' : list BumpMapEntry.t)
    (n : nat) (line : string) :
  _parse_content_line self entries (n, line) = Ok entries' ->
  if is_entry_line line
  then exists entry, _parse_line (strip line) n = Ok entry
                     /\ entries' = (entries ++ [entry])%list
  else entries' = entries.
Proof.
  unfold _parse_content_line, is_entry_line. cbn [fst snd].
  destruct (String.eqb (strip line) "" || startswith (strip line) "#");
    cbn [negb].
  - now intros [= <-].
  - destruct (_parse_line (strip line) n) as [entry|e lg] eqn:E.
    + cbn. intros [= <-]. eauto.
    + destruct (parse_line_raises _ _ _ _ E) as [K ->].
      unfold try_except. cbn [bind]. rewrite K. cbn. discriminate.
Qed.

Lemma parse_content_line_raises (self : t) (entries : list BumpMapEntry.t)
    (n : nat) (line : string) (e : exn) (lg : list string) :
  _parse_content_line self entries (n, line) = Raise e lg ->
  exn_class e = ValueError /\ lg = [exn_msg e]
  /\ startswith (exn_msg e)
       ("Bump Map Parser Error: file " ++ file_str self ++ " Line ") = true.
Proof.
  unfold _parse_content_line. cbn [fst snd].
  destruct (String.eqb (strip line) "" || startswith (strip line) "#");
    [discriminate|].
  destruct (_parse_line (strip line) n) as [entry|e0 lg0] eqn:E.
  - cbn. discriminate.
  - destruct (parse_line_raises _ _ _ _ E) as [K ->].
    unfold try_except. cbn [bind]. rewrite K. cbn [existsb exn_kind_eqb orb].
    cbn [app]. intros [= <- <-]. cbn [exn_class exn_msg].
    split; [reflexivity|]. split; [reflexivity|].
    unfold startswith. apply prefix_iff.
    exists (of_nat n ++ " - " ++ exn_msg e0).
    now rewrite !append_assoc.
Qed.

(** X24: a bump map that parses has one entry for each line that is
    neither blank nor a comment, in the order of the lines, each the
    entry of its line; a bump map that does not parse ends in a
    [ValueError] whose message, logged once, begins with the file and
    the line; and a text of blank lines and comments alone is the empty
    bump map. *)
Theorem bump_map_outcome :
  forall (self : t) (content : string),
    (forall data : BumpMapData.t,
        _parse_content self content = Ok data ->
        Forall2 (fun line entry =>
                   forall n, _parse_line (strip line) n = Ok entry)
                (filter is_entry_line (splitlines content))
                (BumpMapData.entries data))
    /\ (forall (e : exn) (lg : list string),
           _parse_content self content = Raise e lg ->
           exn_class e = ValueError /\ lg = [exn_msg e]
           /\ startswith (exn_msg e)
                ("Bump Map Parser Error: file " ++ file_str self ++ " Line ")
              = true)
    /\ (Forall (fun line => is_entry_line line = false) (splitlines content) ->
        _parse_content self content = Ok BumpMapData.default).
Proof.
  intros self content. unfold _parse_content.
  cbn [BumpMapData.default BumpMapData.entries].
  generalize (splitlines content) as lines. intros lines.
  assert (Hok : forall lines k acc res,
             for_each (_parse_content_line self) (enumerate k lines) acc
             = Ok res ->
             exists new,
               res = (acc ++ new)%list
               /\ Forall2 (fun line entry =>
                             forall n, _parse_line (strip line) n = Ok entry)
                          (filter is_entry_line lines) new).
  { clear lines. induction lines as [|line lines IH]; intros k acc res H.
    - injection H as <-. exists []. split; [now rewrite app_nil_r|constructor].
    - cbn [enumerate for_each] in H.
      apply bind_Ok_inv in H as (mid & Hmid & H).
      apply parse_content_line_Ok in Hmid.
      destruct (IH _ _ _ H) as (new & -> & Hnew).
      cbn [filter]. destruct (is_entry_line line).
      + destruct Hmid as (entry & Hentry & ->).
        exists (entry :: new). split; [now rewrite <- app_assoc|].
        constructor; [|exact Hnew]. intros n. exact Hentry.
      + subst mid. eauto. }
  assert (Hraise : forall lines k acc e lg,
             for_each (_parse_content_line self) (enumerate k lines) acc
             = Raise e lg ->
             exn_class e = ValueError /\ lg = [exn_msg e]
             /\ startswith (exn_msg e)
                  ("Bump Map Parser Error: file " ++ file_str self
                   ++ " Line ") = true).
  { clear lines. induction lines as [|line lines IH]; intros k acc e lg H.
    - discriminate H.
    - cbn [enumerate for_each] in H.
      destruct (_parse_content_line self acc (k, line)) as [mid|e0 lg0] eqn:E.
      + cbn [bind] in H. exact (IH _ _ _ _ H).
      + cbn [bind] in H. injection H as <- <-.
        exact (parse_content_line_raises _ _ _ _ _ _ E). }
  split; [|split].
  - intros data H. apply bind_Ok_inv in H as (entries & He & H).
    injection H as <-. cbn [BumpMapData.entries].
    destruct (Hok _ _ _ _ He) as (new & -> & Hnew). exact Hnew.
  - intros e lg H.
    destruct (for_each (_parse_content_line self) (enumerate 1 lines) [])
      as [entries|e0 lg0] eqn:E; [discriminate H|].
    cbn [bind] in H. injection H as <- <-. exact (Hraise _ _ _ _ _ E).
  - intros H.
    assert (Hskip : forall k acc,
               for_each (_parse_content_line self) (enumerate k lines) acc
               = Ok acc).
    { induction H as [|line lines Hline _ IH]; intros k acc; [reflexivity|].
      cbn [enumerate for_each]. unfold _parse_content_line at 1.
      cbn [fst snd]. unfold is_entry_line in Hline.
      apply negb_false_iff in Hline. rewrite Hline. cbn [bind]. apply IH. }
    now rewrite Hskip.
Qed.

End BumpMapFacts.

(** ** The parser by extension *)

Section DispatchFacts.
Context {F : PyFloat} {B : PyBuiltins} {D : YamlDecoder} {FS : FileSystem}.

Import ThreeDBloxParser.

Lemma rfind_char_absent (c : ascii) (s : string) :
  contains (String c "") s = false -> rfind_char c s = (-1)%Z.
Proof.
  induction s as [|d s IH]; [reflexivity|]. intros H.
  apply contains_char_tail in H as [Hne H]. cbn [rfind_char].
  rewrite (IH H). cbn. apply Ascii.eqb_neq in Hne. now rewrite Hne.
Qed.

Lemma rfind_char_last (c : ascii) (a b : string) :
  contains (String c "") b = false ->
  rfind_char c (a ++ String c b) = Z.of_nat (String.length a).
Proof.
  intros H. induction a as [|d a IH].
  - cbn [append rfind_char String.length]. rewrite (rfind_char_absent _ _ H).
    cbn. now rewrite Ascii.eqb_refl.
  - cbn [append rfind_char String.length]. rewrite IH.
    destruct (Z.leb_spec 0 (Z.of_nat (String.length a))); lia.
Qed.

Lemma suffix_of_name (p : Path) (stem ext : string) :
  PyPath.name p = stem ++ "." ++ ext ->
  stem <> "" -> ext <> "" -> contains "." ext = false ->
  suffix p = "." ++ ext.
Proof.
  intros Hname Hstem Hext Hdot. unfold suffix. rewrite Hname.
  change (stem ++ "." ++ ext) with (stem ++ String "." ext).
  rewrite (rfind_char_last "." stem ext Hdot), length_append.
  assert (Hs : (0 < String.length stem)%nat).
  { destruct stem; [congruence | cbn; lia]. }
  assert (He : (0 < String.length ext)%nat).
  { destruct ext; [congruence | cbn; lia]. }
  cbn [String.length].
  destruct (Z.ltb_spec 0 (Z.of_nat (String.length stem))) as [_|]; [|lia].
  destruct (Z.ltb_spec (Z.of_nat (String.length stem))
              (Z.of_nat (String.length stem + S (String.length ext)) - 1))
    as [_|]; [|lia].
  cbn [andb]. unfold slice_from.
  destruct (Z.ltb_spec (Z.of_nat (String.length stem)) 0); [lia|].
  rewrite Nat2Z.id. apply drop_append.
Qed.

Lemma suffix_without_dot (p : Path) (ext : string) :
  contains "." ext = false ->
  PyPath.name p = ext \/ PyPath.name p = "." ++ ext ->
  suffix p = "".
Proof.
  intros Hdot [Hname | Hname]; unfold suffix; rewrite Hname.
  - now rewrite (rfind_char_absent _ _ Hdot).
  - change ("." ++ ext) with ("" ++ String "." ext).
    now rewrite (rfind_char_last "." "" ext Hdot).
Qed.

(** X25: a file whose name is [stem.ext] goes to the parser of its
    extension, whatever the case of its letters: [3dbv], [3dbx] or
    [bmap]; with any other extension [parse] raises the [ValueError]
    that names the extension in lower case, and reads no file. A name
    without a dot, and a name whose only dot is its first character,
    have no extension and are refused the same way. *)
Theorem parse_by_extension :
  forall filename : string,
    (forall stem ext : string,
        PyPath.name (of_str filename) = stem ++ "." ++ ext ->
        stem <> "" -> ext <> "" -> contains "." ext = false ->
        parse filename
        = if String.eqb (lower ext) "3dbv" then
            data <- parse_dbv (to_str (of_str filename)) ;; Ok (Dbv data)
          else if String.eqb (lower ext) "3dbx" then
            data <- parse_dbx (to_str (of_str filename)) ;; Ok (Dbx data)
          else if String.eqb (lower ext) "bmap" then
            data <- parse_bmap (to_str (of_str filename)) ;; Ok (Bmap data)
          else
            raise ValueError
              ("Unknown file extension: ." ++ lower ext
               ++ ". Expected .3dbv, .3dbx, or .bmap"))
    /\ (forall ext : string,
           contains "." ext = false ->
           PyPath.name (of_str filename) = ext
           \/ PyPath.name (of_str filename) = "." ++ ext ->
           parse filename
           = raise ValueError
               "Unknown file extension: . Expected .3dbv, .3dbx, or .bmap").
Proof.
  intros filename. split.
  - intros stem ext Hname Hstem Hext Hdot. unfold parse.
    rewrite (suffix_of_name _ _ _ Hname Hstem Hext Hdot).
    change (lower ("." ++ ext)) with (String "." (lower ext)).
    change (String.eqb (String "." (lower ext)) ".3dbv")
      with (String.eqb (lower ext) "3dbv").
    change (String.eqb (String "." (lower ext)) ".3dbx")
      with (String.eqb (lower ext) "3dbx").
    change (String.eqb (String "." (lower ext)) ".bmap")
      with (String.eqb (lower ext) "bmap").
    reflexivity.
  - intros ext Hdot Hname. unfold parse.
    now rewrite (suffix_without_dot _ _ Hdot Hname).
Qed.

(** X26: [parse] of a file that cannot be opened ends, for the
    extensions [3dbv] and [3dbx], in the Parser Error "Cannot open
    file: " and, for [bmap], in an [IOError]; the message names the
    file as its path reads, a doubled [/] and a [.] component gone. *)
Theorem parse_missing_file :
  forall (filename stem ext msg : string),
    PyPath.name (of_str filename) = stem ++ "." ++ ext ->
    stem <> "" -> ext <> "" -> contains "." ext = false ->
    fs_read (of_str filename) = inr msg ->
    (lower ext = "3dbv" ->
     parse filename
     = log_error ("Cannot open file: " ++ to_str (of_str filename)
                  ++ " - " ++ msg))
    /\ (lower ext = "3dbx" ->
        parse filename
        = log_error ("Cannot open file: " ++ to_str (of_str filename)
                     ++ " - " ++ msg))
    /\ (lower ext = "bmap" ->
        parse filename
        = Raise (Exn IOError
                   ("Bump Map Parser Error: Cannot open file: "
                    ++ to_str (of_str filename)))
                ["Bump Map Parser Error: Cannot open file: "
                 ++ to_str (of_str filename)]).
Proof.
  intros filename stem ext msg Hname Hstem Hext Hdot Hread.
  pose proof (path_str_round_trip _ (of_str_well_formed filename)) as Hrt.
  repeat split; intros Hlow; unfold parse;
    rewrite (suffix_of_name _ _ _ Hname Hstem Hext Hdot);
    change (lower ("." ++ ext)) with (String "." (lower ext));
    rewrite Hlow; cbn [String.eqb Ascii.eqb Bool.eqb];
    unfold parse_dbv, parse_dbx, parse_bmap, DbvParser.parse_file,
      DbxParser.parse_file, BmapParser.parse_file, read_file;
    rewrite Hrt, Hread; reflexivity.
Qed.

End DispatchFacts.

(** ** Worked examples of the further properties *)

Lemma design_of_mapping_witness :
  DbxParser._parse_design (B := Interp.builtins) (FS := Interp.file_system)
    Examples.parser (YMap [("external", YMap [])])
  = log_error "DBX Design name is required"
  /\ DbxParser._parse_design (B := Interp.builtins)
       (FS := Interp.file_system) Examples.parser
       (YMap [("name", YNull);
              ("external", YMap [("verilog_file", YStr "../rtl/top.v")])])
     = Ok (DesignDef.mk "" (DesignExternal.mk "/a/rtl/top.v")).
Proof.
  split.
  - apply (proj1 (design_of_mapping (B := Interp.builtins)
                    (FS := Interp.file_system) Examples.parser
                    [("external", YMap [])])).
    reflexivity.
  - exact (proj2 (proj2 (design_of_mapping (B := Interp.builtins)
                           (FS := Interp.file_system) Examples.parser
                           [("name", YNull);
                            ("external",
                             YMap [("verilog_file", YStr "../rtl/top.v")])]))
             [("verilog_file", YStr "../rtl/top.v")] eq_refl eq_refl).
Defined.

Lemma chiplet_inst_of_mapping_witness :
  DbxParser._parse_chiplet_inst (B := Interp.builtins)
    (FS := Interp.file_system) Examples.parser
    (@ChipletInst.default Interp.floats "u1") (YMap [("external", YMap [])])
  = log_error "DBX ChipletInst reference is required for instance u1"
  /\ DbxParser._parse_chiplet_inst (B := Interp.builtins)
       (FS := Interp.file_system) Examples.parser
       (@ChipletInst.default Interp.floats "u1")
       (YMap [("reference", YStr "chipA");
              ("external", YMap [("sdc_file", YStr "u1.sdc");
                                 ("def_file", YNull)])])
     = Ok (ChipletInst.mk Interp.floats "u1" "chipA"
             (ChipletInstExternal.mk "" "/a/b/u1.sdc" "")
             Coordinate.default float_zero "").
Proof.
  split.
  - apply (proj1 (chiplet_inst_of_mapping (B := Interp.builtins)
                    (FS := Interp.file_system) Examples.parser
                    (ChipletInst.default "u1") [("external", YMap [])])).
    reflexivity.
  - exact (proj2 (proj2 (chiplet_inst_of_mapping (B := Interp.builtins)
                           (FS := Interp.file_system) Examples.parser
                           (ChipletInst.default "u1")
                           [("reference", YStr "chipA");
                            ("external",
                             YMap [("sdc_file", YStr "u1.sdc");
                                   ("def_file", YNull)])]))
             [("sdc_file", YStr "u1.sdc"); ("def_file", YNull)]
             eq_refl eq_refl).
Defined.

Lemma stack_entry_requirements_witness :
  DbxParser._parse_stack_instance (B := Interp.builtins)
    (@ChipletInst.default Interp.floats "u1")
    (YMap [("z", YInt 1); ("orient", YStr "R0")])
  = log_error "DBX Stack location is required for instance u1"
  /\ DbxParser._parse_stack_instance (B := Interp.builtins)
       (@ChipletInst.default Interp.floats "u1")
       (YMap [("orient", YStr "R0"); ("loc", YList [YInt 1; YInt 2])])
     = log_error "DBX Stack z is required for instance u1"
  /\ DbxParser._parse_stack_instance (B := Interp.builtins)
       (@ChipletInst.default Interp.floats "u1")
       (YMap [("z", YInt 3); ("loc", YList [YInt 1; YInt 2])])
     = log_error "DBX Stack orientation is required for instance u1"
  /\ DbxParser._parse_stack_instance (B := Interp.builtins)
       (@ChipletInst.default Interp.floats "u1")
       (YMap [("orient", YNull); ("z", YInt 3);
              ("loc", YList [YInt 1; YInt 2])])
     = Ok (ChipletInst.mk Interp.floats "u1" "" ChipletInstExternal.default
             (Coordinate.mk Interp.floats (inject_Z 1) (inject_Z 2))
             (inject_Z 3) "").
Proof.
  split; [|split; [|split]].
  - apply (proj1 (stack_entry_requirements (B := Interp.builtins)
                    (ChipletInst.default "u1")
                    [("z", YInt 1); ("orient", YStr "R0")])).
    reflexivity.
  - eapply (proj1 (proj2 (stack_entry_requirements (B := Interp.builtins)
                            (ChipletInst.default "u1")
                            [("orient", YStr "R0");
                             ("loc", YList [YInt 1; YInt 2])])));
      reflexivity.
  - eapply (proj1 (proj2 (proj2 (stack_entry_requirements
                                   (B := Interp.builtins)
                                   (ChipletInst.default "u1")
                                   [("z", YInt 3);
                                    ("loc", YList [YInt 1; YInt 2])]))));
      reflexivity.
  - eapply (proj1 (proj2 (proj2 (stack_entry_requirements
                                   (B := Interp.builtins)
                                   (ChipletInst.default "u1")
                                   [("orient", YNull); ("z", YInt 3);
                                    ("loc", YList [YInt 1; YInt 2])]))));
      reflexivity.
Defined.

Lemma sections_by_name_witness :
  (exists instances : dict (@ChipletInst.t Interp.floats),
      DbxParser._parse_chiplet_insts (B := Interp.builtins)
        (FS := Interp.file_system) Examples.parser Examples.chiplet_inst
      = Ok instances
      /\ dict_keys instances = ["a"; "b"]
      /\ Forall (fun kv => ChipletInst.name (snd kv) = fst kv) instances)
  /\ raised (DbxParser._parse_connections (F := Interp.floats)
               (B := Interp.builtins) (YList []))
     = Some AttributeError.
Proof.
  split.
  - eexists. split; [reflexivity|].
    match goal with
    | |- dict_keys ?d = _ /\ _ =>
        destruct (proj1 (proj2 (sections_by_name (B := Interp.builtins)
                                  (FS := Interp.file_system) Examples.parser
                                  Examples.chiplet_inst))
                    d eq_refl)
          as (items & Hitems & _ & _ & Hall & Hkeys)
    end.
    injection Hitems as <-. split.
    + apply Hkeys. repeat constructor; cbn; intuition discriminate.
    + eapply Forall_impl; [|exact Hall]. intros kv H. exact (proj1 H).
  - apply (proj2 (proj2 (proj2 (sections_by_name (B := Interp.builtins)
                                  (FS := Interp.file_system) Examples.parser
                                  (YList []))))).
    discriminate.
Defined.

Lemma region_of_mapping_witness :
  DbvParser._parse_region (B := Interp.builtins) (FS := Interp.file_system)
    Examples.parser (@ChipletRegion.default Interp.floats "r1")
    (YMap [("side", YNull); ("bmap", YStr "r1.bmap")])
  = Ok (ChipletRegion.mk Interp.floats "r1" "/a/b/r1.bmap" "" "None" "" ""
          [])
  /\ raised (DbvParser._parse_region (B := Interp.builtins)
               (FS := Interp.file_system) Examples.parser
               (@ChipletRegion.default Interp.floats "r1")
               (YMap [("bmap", YNull)]))
     = Some TypeError.
Proof.
  split.
  - apply (proj1 (region_of_mapping (B := Interp.builtins)
                    (FS := Interp.file_system) Examples.parser
                    (ChipletRegion.default "r1")
                    [("side", YNull); ("bmap", YStr "r1.bmap")]));
      reflexivity.
  - apply (proj2 (region_of_mapping (B := Interp.builtins)
                    (FS := Interp.file_system) Examples.parser
                    (ChipletRegion.default "r1") [("bmap", YNull)])
             YNull); [reflexivity | discriminate].
Defined.

Lemma sections_in_any_order_witness :
  DbxParser._parse_yaml_root (B := Interp.builtins)
    (FS := Interp.file_system) Examples.parser
    (YMap [("Stack", Examples.stack); ("ChipletInst", Examples.chiplet_inst)])
  = DbxParser._parse_yaml_root (B := Interp.builtins)
      (FS := Interp.file_system) Examples.parser
      (YMap [("ChipletInst", Examples.chiplet_inst); ("Notes", YStr "none");
             ("Stack", Examples.stack)])
  /\ DbxParser._parse_yaml_root (B := Interp.builtins)
       (FS := Interp.file_system) Examples.parser
       (YMap [("Stack", Examples.stack);
              ("ChipletInst", Examples.chiplet_inst)])
     = Ok (DbxData.mk _ Header.default DesignDef.default Examples.placed []).
Proof.
  split; [|reflexivity].
  apply (proj1 (sections_in_any_order (B := Interp.builtins)
                  (FS := Interp.file_system) Examples.parser
                  [("Stack", Examples.stack);
                   ("ChipletInst", Examples.chiplet_inst)]
                  [("ChipletInst", Examples.chiplet_inst);
                   ("Notes", YStr "none"); ("Stack", Examples.stack)])).
  intros k [<-|[<-|[<-|[<-|[<-|[]]]]]]; reflexivity.
Defined.

Lemma yaml_content_outcome_witness :
  DbxParser._parse_yaml_content (B := Interp.builtins)
    (D := Examples.decoder) (FS := Interp.file_system) Examples.parser "a: ["
  = log_error "DBX YAML parsing error: could not find expected ':'"
  /\ DbvParser._parse_yaml_content (B := Interp.builtins)
       (D := Examples.decoder) (FS := Interp.file_system) Examples.parser ""
     = Ok DbvData.default
  /\ DbxParser._parse_yaml_content (B := Interp.builtins)
       (D := Examples.decoder) (FS := Interp.file_system) Examples.parser
       "Notes: none"
     = Ok DbxData.default
  /\ raised (DbvParser._parse_yaml_content (B := Interp.builtins)
               (D := Examples.decoder) (FS := Interp.file_system)
               Examples.parser "42")
     = Some TypeError.
Proof.
  split; [|split; [|split]].
  - apply (proj1 (yaml_content_outcome (B := Interp.builtins)
                    (D := Examples.decoder) (FS := Interp.file_system)
                    Examples.parser "a: [")
             "could not find expected ':'").
    reflexivity.
  - apply (proj1 (proj2 (yaml_content_outcome (B := Interp.builtins)
                           (D := Examples.decoder) (FS := Interp.file_system)
                           Examples.parser ""))).
    reflexivity.
  - apply (proj1 (proj2 (proj2 (yaml_content_outcome (B := Interp.builtins)
                                  (D := Examples.decoder)
                                  (FS := Interp.file_system)
                                  Examples.parser "Notes: none")))
             [("Notes", YStr "none")] eq_refl).
    intros k [<-|[<-|[<-|[<-|[<-|[]]]]]]; reflexivity.
  - apply (proj2 (proj2 (proj2 (yaml_content_outcome (B := Interp.builtins)
                                  (D := Examples.decoder)
                                  (FS := Interp.file_system)
                                  Examples.parser "42")))
             42%Z eq_refl).
Defined.

Lemma parse_file_outcome_witness :
  DbxParser.parse_file (B := Interp.builtins) (D := Examples.decoder)
    (FS := Examples.disk) BaseParser.init "/a/b/none.3dbx"
  = log_error ("Cannot open file: /a/b/none.3dbx - "
               ++ "No such file or directory: /a/b/none.3dbx")
  /\ DbxParser.parse_file (B := Interp.builtins) (D := Examples.decoder)
       (FS := Examples.disk) Examples.parser "/a/b/design.3dbx"
     = Ok (DbxData.mk Interp.floats Header.default
             (DesignDef.mk "soc" DesignExternal.default) [] []).
Proof.
  split.
  - apply (proj1 (parse_file_outcome (B := Interp.builtins)
                    (D := Examples.decoder) (FS := Examples.disk)
                    BaseParser.init BaseParser.init
                    BmapParser.init BmapParser.init "/a/b/none.3dbx")
             "No such file or directory: /a/b/none.3dbx").
    reflexivity.
  - rewrite (proj1 (proj2 (proj2 (parse_file_outcome (B := Interp.builtins)
                                    (D := Examples.decoder)
                                    (FS := Examples.disk)
                                    Examples.parser BaseParser.init
                                    BmapParser.init BmapParser.init
                                    "/a/b/design.3dbx"))
                      Examples.design_text eq_refl)).
    reflexivity.
Defined.

Lemma bump_map_outcome_witness :
  (exists data : @BumpMapData.t Interp.floats,
      BmapParser._parse_content (B := Interp.builtins) Examples.bump_parser
        Examples.bumps_text = Ok data
      /\ Forall2 (fun line entry =>
                    forall n,
                      BmapParser._parse_line (B := Interp.builtins)
                        (strip line) n = Ok entry)
                 ["b0 TYPE1 10.5 20.25 P1 NET1"] (BumpMapData.entries data))
  /\ raised (BmapParser._parse_content (F := Interp.floats)
               (B := Interp.builtins) Examples.bump_parser
               Examples.bump_map_short_line)
     = Some ValueError.
Proof.
  split.
  - eexists. split; [reflexivity|].
    exact (proj1 (bump_map_outcome (B := Interp.builtins)
                    Examples.bump_parser Examples.bumps_text) _ eq_refl).
  - assert (Hr : is_ok (BmapParser._parse_content (F := Interp.floats)
                          (B := Interp.builtins) Examples.bump_parser
                          Examples.bump_map_short_line) = false)
      by reflexivity.
    destruct (BmapParser._parse_content (F := Interp.floats)
                (B := Interp.builtins) Examples.bump_parser
                Examples.bump_map_short_line) as [data|e lg] eqn:E.
    + discriminate Hr.
    + cbn [raised]. f_equal.
      exact (proj1 (proj1 (proj2 (bump_map_outcome (B := Interp.builtins)
                                    Examples.bump_parser
                                    Examples.bump_map_short_line))
                      e lg E)).
Defined.

Lemma parse_by_extension_witness :
  ThreeDBloxParser.parse (B := Interp.builtins) (D := Examples.decoder)
    (FS := Examples.disk) "/a/b/design.3dbx"
  = Ok (ThreeDBloxParser.Dbx
          (DbxData.mk Interp.floats Header.default
             (DesignDef.mk "soc" DesignExternal.default) [] []))
  /\ ThreeDBloxParser.parse (B := Interp.builtins) (D := Examples.decoder)
       (FS := Examples.disk) "/a/b/Notes.TXT"
     = raise ValueError
         "Unknown file extension: .txt. Expected .3dbv, .3dbx, or .bmap"
  /\ ThreeDBloxParser.parse (B := Interp.builtins) (D := Examples.decoder)
       (FS := Examples.disk) "/a/b/.3dbv"
     = raise ValueError
         "Unknown file extension: . Expected .3dbv, .3dbx, or .bmap".
Proof.
  split; [|split].
  - rewrite (proj1 (parse_by_extension (B := Interp.builtins)
                      (D := Examples.decoder) (FS := Examples.disk)
                      "/a/b/design.3dbx")
               "design" "3dbx" eq_refl);
      [reflexivity | discriminate | discriminate | reflexivity].
  - rewrite (proj1 (parse_by_extension (B := Interp.builtins)
                      (D := Examples.decoder) (FS := Examples.disk)
                      "/a/b/Notes.TXT")
               "Notes" "TXT" eq_refl);
      [reflexivity | discriminate | discriminate | reflexivity].
  - apply (proj2 (parse_by_extension (B := Interp.builtins)
                    (D := Examples.decoder) (FS := Examples.disk)
                    "/a/b/.3dbv")
             "3dbv" eq_refl).
    now right.
Defined.

Lemma parse_missing_file_witness :
  ThreeDBloxParser.parse (B := Interp.builtins) (D := Examples.decoder)
    (FS := Interp.file_system) "a//b/./Top.3DBV"
  = log_error ("Cannot open file: a/b/Top.3DBV - "
               ++ "No such file or directory: a/b/Top.3DBV").
Proof.
  apply (proj1 (parse_missing_file (B := Interp.builtins)
                  (D := Examples.decoder) (FS := Interp.file_system)
                  "a//b/./Top.3DBV" "Top" "3DBV"
                  "No such file or directory: a/b/Top.3DBV"
                  eq_refl ltac:(discriminate) ltac:(discriminate)
                  eq_refl eq_refl)).
  reflexivity.
Defined.
